(** * meteo_birds: radar archive decoding, cone extraction and bird headings

    A shallow embedding of the Python sources
    - [opera_retrieval/formatting.py]   (module [Formatting]),
    - [opera_retrieval/diagnostics.py]  (module [Diagnostics]),
    - [opera_retrieval/bird_tracks.py]  (module [BirdTracks]),
    - [meteo_birds/utils.py]            (module [Utils]),
    followed by the properties of the specification that were checked
    against them.

    Conventions of the model.
    - Radar samples, coordinates, angles and distances are IEEE binary64
      numbers ([PrimFloat.float]), and the arithmetic on them is that of
      binary64, rounded to nearest: not-a-number, signed zeros and
      infinities behave as in NumPy.  The remainder [%] and the encoding
      in float32, which [PrimFloat] lacks, are defined in [Binary64].
    - The seconds of [dat_to_5mn] alone are exact rationals ([Q]); the
      reason is given with the function.
    - Names of archive members are ASCII strings.
    - A two-dimensional array is a list of rows; where the code reads the
      second size of an array that may have no row, that size is kept
      beside the rows.
    - Library calls whose result the code does not determine (pyproj,
      [numpy.cos], [datetime.strptime], the clipping of rioxarray and
      the failures of its writer) are operations of a type class; every
      definition and theorem is generic in the instance.
    - A Python exception is a value of [exn]; a function that may raise
      returns a [result]; a function that also prints returns an [io]. *)

From Stdlib Require Import ZArith QArith Qround List String Ascii Bool Lia Lqa Floats.
From Stdlib Require Uint63.
From Stdlib Require Import Sorting.Sorted Sorting.Permutation.
From stdpp Require Import gmap strings.
Import ListNotations.

(** ** Python exceptions, results and printed output *)

Module Py.

Inductive exn : Type :=
| ValueError (msg : string)
| TypeError (msg : string)
| IndexError
| ZeroDivisionError
| OSError
| RequestException
| RuntimeError (msg : string).

Inductive result (A : Type) : Type :=
| Ok (a : A)
| Raise (e : exn).
Arguments Ok {A} a.
Arguments Raise {A} e.

Definition is_ok {A} (r : result A) : bool :=
  match r with Ok _ => true | Raise _ => false end.

#[export] Instance result_ret : MRet result := fun _ a => Ok a.
#[export] Instance result_bind : MBind result := fun _ _ f m =>
  match m with
  | Ok a => f a
  | Raise e => Raise e
  end.

(** What an attribute access evaluates to: a plain value (a field, the
    result of a property) or something that can be called. *)
Inductive object (A : Type) : Type :=
| Value (a : A)
| Callable (f : unit -> result A).
Arguments Value {A} a.
Arguments Callable {A} f.

(** [o()]. *)
Definition call {A} (o : object A) : result A :=
  match o with
  | Callable f => f tt
  | Value _ => Raise (TypeError "object is not callable")
  end.

(** [l[i]] for a non-negative index. *)
Definition getitem {A} (l : list A) (i : nat) : result A :=
  match nth_error l i with
  | Some a => Ok a
  | None => Raise IndexError
  end.

(** [a % b] on Python integers: the sign follows the divisor. *)
Definition int_mod (a b : Z) : result Z :=
  if (b =? 0)%Z then Raise ZeroDivisionError else Ok (a mod b)%Z.

(** [a % b] on exact rationals, for a non-zero [b]:
    [a - b * floor (a / b)]. *)
Definition float_mod (a b : Q) : Q :=
  a - b * inject_Z (Qfloor (a / b)).

(** Computations that print: the lines written to standard output, in
    order, and the value returned or the exception raised. *)
Section Printing.
Context {event : Type}.

Definition io (A : Type) : Type := (list event * result A)%type.

Definition io_pure {A} (a : A) : io A := ([], Ok a).
Definition print (ev : event) : io unit := ([ev], Ok tt).
Definition lift {A} (r : result A) : io A := ([], r).

Definition io_seq {A B} (m : io A) (f : A -> io B) : io B :=
  match m with
  | (out, Ok a) => let '(out', r) := f a in (out ++ out', r)
  | (out, Raise e) => (out, Raise e)
  end.
End Printing.
Arguments io : clear implicits.

#[export] Instance io_ret {event} : MRet (io event) := fun _ a => io_pure a.
#[export] Instance io_bind {event} : MBind (io event) := fun _ _ f m => io_seq m f.

End Py.
Import Py.

(** ** Binary64 operations that [PrimFloat] lacks *)

Module Binary64.
Local Open Scope float_scope.

(** The binary64 value of an index, as NumPy converts an integer that
    meets a float. *)
Definition of_nat (k : nat) : float :=
  PrimFloat.of_uint63 (Uint63.of_Z (Z.of_nat k)).

(** [fmod(a, b)] of the C library: the remainder of the division
    truncated towards zero.  It is exact, and has the sign of [a]. *)
Definition fmod (a b : float) : float :=
  match Prim2SF a, Prim2SF b with
  | S754_finite sa ma ea, S754_finite _ mb eb =>
      let e := Z.min ea eb in
      let na := (Z.pos ma * 2 ^ (ea - e))%Z in
      let nb := (Z.pos mb * 2 ^ (eb - e))%Z in
      let r := (na mod nb)%Z in
      SF2Prim (binary_normalize prec emax (if sa then (- r)%Z else r) e sa)
  | S754_finite _ _ _, S754_infinity _ => a
  | S754_zero _, S754_finite _ _ _ => a
  | S754_zero _, S754_infinity _ => a
  | _, _ => nan
  end.

(** [a % b] on binary64 numbers, as NumPy and Python compute it: the
    result of [fmod], moved by [b] (a rounded addition) when its sign is
    not that of [b], and a zero of the sign of [b] when it is zero. *)
Definition np_mod (a b : float) : float :=
  let m := fmod a b in
  if b =? 0 then m
  else if negb (m =? 0) then
    (if xorb (b <? 0) (m <? 0) then m + b else m)
  else if b <? 0 then neg_zero else zero.

(** The value a binary64 number has once stored in float32: rounded to
    nearest with 24 bits of precision, to an infinity beyond the range. *)
Definition float32 (x : float) : float :=
  match Prim2SF x with
  | S754_finite s m e =>
      SF2Prim (binary_normalize 24 128 (if s then Z.neg m else Z.pos m) e s)
  | _ => x
  end.

End Binary64.
Import Binary64.

(** ** Two-dimensional arrays *)

Module Arr2.

Definition arr2 (A : Type) : Type := list (list A).

Definition map2d {A B} (f : A -> B) (a : arr2 A) : arr2 B :=
  map (map f) a.

Fixpoint zip_with {A B C} (f : A -> B -> C) (l : list A) (l' : list B) : list C :=
  match l, l' with
  | x :: xs, y :: ys => f x y :: zip_with f xs ys
  | _, _ => []
  end.

(** Element-wise combination of two arrays of one shape. *)
Definition zip2d {A B C} (f : A -> B -> C) (a : arr2 A) (b : arr2 B) : arr2 C :=
  zip_with (zip_with f) a b.

(** [a[i, j]], when the index is in range. *)
Definition cell {A} (a : arr2 A) (i j : nat) : option A :=
  match nth_error a i with
  | Some row => nth_error row j
  | None => None
  end.

Definition has_shape {A} (rows cols : nat) (a : arr2 A) : bool :=
  (length a =? rows)%nat && forallb (fun row => (length row =? cols)%nat) a.

(** [a[lo:hi]] for [0 <= lo]. *)
Definition slice {A} (lo hi : nat) (l : list A) : list A :=
  firstn (hi - lo) (skipn lo l).

(** [a[y0:y1, x0:x1]]. *)
Definition slice2d {A} (y0 y1 x0 x1 : nat) (a : arr2 A) : arr2 A :=
  map (slice x0 x1) (slice y0 y1 a).

End Arr2.
Import Arr2.

(** ** Calendar values ([datetime]) *)

Module Datetime.
Local Open Scope Z_scope.

(** A [datetime] produced by the ["%Y%m%d%H%M"] format: seconds and
    microseconds are zero, the time zone is UTC. *)
Record datetime : Type := mk_datetime {
  year : Z;
  month : Z;
  day : Z;
  hour : Z;
  minute : Z
}.

Definition is_leap (y : Z) : bool :=
  (y mod 4 =? 0) && (negb (y mod 100 =? 0) || (y mod 400 =? 0)).

Definition days_in_month (y m : Z) : Z :=
  if (m =? 2) && is_leap y then 29
  else nth (Z.to_nat m) [-1; 31; 28; 31; 30; 31; 30; 31; 31; 30; 31; 30; 31] 0.

Definition days_before_year (y : Z) : Z :=
  let y := y - 1 in y * 365 + y / 4 - y / 100 + y / 400.

Definition days_before_month (y m : Z) : Z :=
  nth (Z.to_nat m) [-1; 0; 31; 59; 90; 120; 151; 181; 212; 243; 273; 304; 334] 0
  + (if (2 <? m) && is_leap y then 1 else 0).

(** [date.toordinal()]: 1 for 0001-01-01. *)
Definition ymd2ord (y m d : Z) : Z :=
  days_before_year y + days_before_month y m + d.

(** The fields the [datetime] constructor accepts. *)
Definition valid (ts : datetime) : bool :=
  (1 <=? year ts) && (year ts <=? 9999)
  && (1 <=? month ts) && (month ts <=? 12)
  && (1 <=? day ts) && (day ts <=? days_in_month (year ts) (month ts))
  && (0 <=? hour ts) && (hour ts <=? 23)
  && (0 <=? minute ts) && (minute ts <=? 59).

(** [np.datetime64(ts)]: an integer count since 1970-01-01T00:00, here in
    minutes.  Values of the time coordinate are ordered by this count. *)
Definition datetime64 : Type := Z.

Definition np_datetime64 (ts : datetime) : datetime64 :=
  ((ymd2ord (year ts) (month ts) (day ts) - 719163) * 24 + hour ts) * 60 + minute ts.

(** [datetime.strptime(s, "%Y%m%d%H%M")]: [None] when it raises [ValueError]. *)
Class Strptime : Type := strptime_YmdHM : string -> option datetime.

End Datetime.
Import Datetime.

(** ** Strings *)

Module Str.

(** [s.endswith(suffix)]. *)
Definition endswith (s suffix : string) : bool :=
  let n := String.length s in
  let k := String.length suffix in
  (k <=? n)%nat && String.eqb (substring (n - k) k s) suffix.

(** [s.split(sep)] for a separator of one character. *)
Fixpoint split (sep : ascii) (s : string) : list string :=
  match s with
  | EmptyString => [EmptyString]
  | String c rest =>
      if Ascii.eqb c sep then EmptyString :: split sep rest
      else match split sep rest with
           | w :: ws => String c w :: ws
           | [] => [String c EmptyString]
           end
  end.

(** [sep.join(parts)]. *)
Fixpoint join (sep : string) (parts : list string) : string :=
  match parts with
  | [] => EmptyString
  | [w] => w
  | w :: ws => String.append w (String.append sep (join sep ws))
  end.

End Str.
Import Str.

(** ** formatting.py *)

Module Formatting.

(** *** Data *)

(** The ["where"] attributes of an ODIM composite. *)
Record where_attrs : Type := {
  w_xsize : Z;
  w_ysize : Z;
  w_xscale : float;
  w_yscale : float;
  w_projdef : string;
  w_LL_lon : float;
  w_LL_lat : float
}.

(** An open [h5py.File]: the array [dataset1/data1/data] and the
    attributes of the group [where].  The array is the list of its rows
    together with its second size, [data.shape[1]], which the rows do not
    give when there is none. *)
Record h5file : Type := {
  data : arr2 float;
  data_ncols : nat;
  where_ : where_attrs
}.

(** The [xarray.Dataset] built by the decoder: two data variables and two
    coordinates on the dimensions [("y", "x")], the size of [x] (that of
    [y] is the number of rows), and its attributes. *)
Record Dataset : Type := {
  reflectivity : arr2 float;
  mask : arr2 Z;
  lat : arr2 float;
  lon : arr2 float;
  dim_x : nat;
  projdef : string;
  xscale_m : float;
  yscale_m : float;
  xsize : Z;
  ysize : Z;
  LL_lat : float;
  LL_lon : float
}.

(** A dataset with a [time] dimension, given by its slices
    [ds.isel(time=k)] with the value of the time coordinate of each, in
    the order of that coordinate.  The attributes belong to the dataset:
    every slice shows the same. *)
Definition TimeSeries : Type := list (datetime64 * Dataset).

(** What a member of the archive holds: [tar.extractfile] gives no file
    object for a member that is not a regular file or a link; the bytes of
    a file are an HDF5 file or something [h5py.File] cannot open. *)
Inductive contents : Type :=
| Hdf5 (h : h5file)
| NotHdf5 (bytes : list Byte.byte).

Record TarInfo : Type := {
  name : string;
  extractfile : option contents
}.

(** The lines the functions print. *)
Inductive event : Type :=
| UnreadableTimestamp (member_name : string)
| Reading (member_name : string) (ts : datetime)
| Concatenating
| GeotiffCreated (output_path : string).

(** The [DataArray] handed to [rio.to_raster], and the raster a file
    holds. *)
Record Raster : Type := {
  band : arr2 float;
  x_coords : list float;
  y_coords : list float;
  crs : string;
  nodata : float
}.

(** *** Library operations *)

(** pyproj, for a projection definition string:
    [Proj(projdef)(lon, lat)], the transformer from the projection to its
    geographic coordinates, the false easting and northing when the
    projection has them, and the transformer from EPSG:4326. *)
Class Pyproj : Type := {
  proj_forward : string -> float -> float -> float * float;
  proj_to_latlong : string -> float -> float -> float * float;
  proj_x_0 : string -> option float;
  proj_y_0 : string -> option float;
  proj_from_epsg4326 : string -> float -> float -> float * float
}.

(** [rio.clip_box(minx, maxx, miny, maxy)]. *)
Class Rioxarray : Type :=
  rio_clip_box : float -> float -> float -> float -> Raster -> result Raster.

(** The exception with which [rio.to_raster(path, dtype="float32")]
    ends for an array and a path, if it raises: rasterio cannot create a
    file in a directory that does not exist (the functions here create
    none), and some arrays cannot be written. *)
Class Rasterio : Type :=
  to_raster_raises : string -> Raster -> option exn.

(** [h5py.File(file_like, "r")]. *)
Definition h5py_File (c : contents) : result h5file :=
  match c with
  | Hdf5 h => Ok h
  | NotHdf5 _ => Raise OSError
  end.

(** [np.arange(n) * scale + origin]. *)
Definition arange_affine (n : Z) (scale origin : float) : list float :=
  map (fun k => (of_nat k * scale + origin)%float) (seq 0 (Z.to_nat n)).

(** [np.meshgrid(x, y)]. *)
Definition meshgrid (x y : list float) : arr2 float * arr2 float :=
  (map (fun _ => x) y, map (fun yi => map (fun _ => yi) x) y).

(** *** odim_hdf5_to_dataset *)

Definition FILL : float := (-9999000.0)%float.

(** [np.where(data != -9999000.0, 1, 0)]. *)
Definition mask_cell (raw : float) : Z :=
  if negb (raw =? FILL)%float then 1%Z else 0%Z.

(** [np.where(data != -9999000.0, data, np.nan)]. *)
Definition reflectivity_cell (raw : float) : float :=
  if negb (raw =? FILL)%float then raw else nan.

(** [np.where(reflectivity < 0, 0, reflectivity)]. *)
Definition noise_floor_cell (r : float) : float :=
  if (r <? 0)%float then 0%float else r.

(** The [xr.Dataset] constructor: the variables and coordinates on
    [("y", "x")] must agree on both sizes.  The coordinates have the
    sizes of the attributes; the variables have those of the array of the
    file, whose second size is [ncols]. *)
Definition xr_Dataset (refl : arr2 float) (msk : arr2 Z) (ncols : nat)
    (lat_grid lon_grid : arr2 float) (w : where_attrs) : result Dataset :=
  let ny := Z.to_nat (w_ysize w) in
  let nx := Z.to_nat (w_xsize w) in
  if has_shape ny nx refl && has_shape ny nx msk && (ncols =? nx)%nat then
    Ok {| reflectivity := refl; mask := msk; lat := lat_grid; lon := lon_grid;
          dim_x := nx;
          projdef := w_projdef w;
          xscale_m := w_xscale w; yscale_m := w_yscale w;
          xsize := w_xsize w; ysize := w_ysize w;
          LL_lat := w_LL_lat w; LL_lon := w_LL_lon w |}
  else Raise (ValueError "conflicting sizes for dimension").

Definition odim_hdf5_to_dataset `{Pyproj} (hdf5_file : h5file) (noise_as_zero : bool)
    : result Dataset :=
  let data := rev (data hdf5_file) in
  let where_ := where_ hdf5_file in
  let '(LL_x, LL_y) := proj_forward (w_projdef where_) (w_LL_lon where_) (w_LL_lat where_) in
  let x_proj := arange_affine (w_xsize where_) (w_xscale where_) LL_x in
  let y_proj := arange_affine (w_ysize where_) (w_yscale where_) LL_y in
  let '(X, Y) := meshgrid x_proj y_proj in
  let lon_lat := zip2d (proj_to_latlong (w_projdef where_)) X Y in
  let lon_grid := map2d fst lon_lat in
  let lat_grid := map2d snd lon_lat in
  let mask := map2d mask_cell data in
  let reflectivity := map2d reflectivity_cell data in
  let reflectivity :=
    if noise_as_zero then map2d noise_floor_cell reflectivity else reflectivity in
  xr_Dataset reflectivity mask (data_ncols hdf5_file) lat_grid lon_grid where_.

(** *** radar_tar_to_dataset *)

(** [member.name.split("_")[1].split(".")[0]] parsed with
    ["%Y%m%d%H%M"]; any exception of the three steps is reported. *)
Definition member_timestamp `{Strptime} (member_name : string) : result datetime :=
  tail ← getitem (split "_" member_name) 1;
  ts_str ← getitem (split "." tail) 0;
  match strptime_YmdHM ts_str with
  | Some ts => Ok ts
  | None => Raise (ValueError "time data does not match format")
  end.

(** One turn of the loop over [tar.getmembers()]: [None] when the member
    is passed over ([continue]), the tagged grid when one is appended. *)
Definition radar_tar_to_dataset_member `{Strptime} `{Pyproj}
    (timestep : Z) (member : TarInfo) : io event (option (datetime64 * Dataset)) :=
  if negb (endswith (name member) ".hdf5") then mret None
  else match member_timestamp (name member) with
  | Raise _ =>
      _ ← print (UnreadableTimestamp (name member)); mret None
  | Ok ts =>
      let ts_minutes := (hour ts * 60 + minute ts)%Z in
      r ← lift (int_mod ts_minutes timestep);
      if negb (r =? 0)%Z then mret None
      else
        _ ← print (Reading (name member) ts);
        match extractfile member with
        | None => mret None
        | Some f =>
            hdf ← lift (h5py_File f);
            ds ← lift (odim_hdf5_to_dataset hdf true);
            mret (Some (np_datetime64 ts, ds))
        end
  end.

Fixpoint radar_tar_to_dataset_loop `{Strptime} `{Pyproj}
    (timestep : Z) (members : list TarInfo) (datasets : list (datetime64 * Dataset))
    : io event (list (datetime64 * Dataset)) :=
  match members with
  | [] => mret datasets
  | member :: rest =>
      r ← radar_tar_to_dataset_member timestep member;
      match r with
      | None => radar_tar_to_dataset_loop timestep rest datasets
      | Some ds => radar_tar_to_dataset_loop timestep rest (datasets ++ [ds])
      end
  end.

Definition same_sizes (d d' : Dataset) : bool :=
  (length (reflectivity d) =? length (reflectivity d'))%nat
  && (dim_x d =? dim_x d')%nat.

(** The variables and coordinates of [d] under the attributes of [d0]. *)
Definition with_attrs_of (d0 d : Dataset) : Dataset :=
  {| reflectivity := reflectivity d; mask := mask d; lat := lat d; lon := lon d;
     dim_x := dim_x d;
     projdef := projdef d0;
     xscale_m := xscale_m d0; yscale_m := yscale_m d0;
     xsize := xsize d0; ysize := ysize d0;
     LL_lat := LL_lat d0; LL_lon := LL_lon d0 |}.

(** [xr.concat(datasets, dim="time")]: the grids must agree on the sizes
    of [y] and [x]; the result has the attributes of the first grid, and
    those of the others are dropped. *)
Definition xr_concat (datasets : list (datetime64 * Dataset)) : result TimeSeries :=
  match datasets with
  | [] => Raise (ValueError "must supply at least one object to concatenate")
  | (_, d0) :: _ =>
      if forallb (fun d => same_sizes d0 (snd d)) datasets
      then Ok (map (fun d => (fst d, with_attrs_of d0 (snd d))) datasets)
      else Raise (ValueError "conflicting dimension sizes")
  end.

(** [.sortby("time")]: a stable sort on the time coordinate. *)
Fixpoint sortby_insert (d : datetime64 * Dataset) (sorted : TimeSeries) : TimeSeries :=
  match sorted with
  | [] => [d]
  | d' :: rest =>
      if (fst d <=? fst d')%Z then d :: d' :: rest
      else d' :: sortby_insert d rest
  end.

Definition sortby_time (ts : TimeSeries) : TimeSeries :=
  fold_right sortby_insert [] ts.

Definition NO_VALID_HDF5 : exn :=
  ValueError "Aucun fichier HDF5 valide trouve dans le TAR.".

(** The archive is given by the list [tar.getmembers()]: opening it is
    taken to succeed. *)
Definition radar_tar_to_dataset `{Strptime} `{Pyproj}
    (tar : list TarInfo) (timestep : Z) : io event TimeSeries :=
  datasets ← radar_tar_to_dataset_loop timestep tar [];
  match datasets with
  | [] => lift (Raise NO_VALID_HDF5)
  | _ =>
      _ ← print Concatenating;
      ds_all ← lift (xr_concat datasets);
      mret (sortby_time ds_all)
  end.

(** *** radar_timestep_ds_to_geotiff *)

Definition transform_bbox_to_raster_crs `{Pyproj}
    (bbox : float * float * float * float) (raster_crs : string)
    : float * float * float * float :=
  let '(lon_min, lon_max, lat_min, lat_max) := bbox in
  let '(x_min, y_min) := proj_from_epsg4326 raster_crs lon_min lat_min in
  let '(x_max, y_max) := proj_from_epsg4326 raster_crs lon_max lat_max in
  (x_min, x_max, y_min, y_max).

(** [.fillna(0)] on one cell. *)
Definition fillna_cell (value : float) (r : float) : float :=
  if PrimFloat.is_nan r then value else r.

(** [xr.where(mask == 0, missing_value, refl)] on one cell. *)
Definition where_mask_cell (missing_value : float) (m : Z) (r : float) : float :=
  if (m =? 0)%Z then missing_value else r.

(** The files written by [rio.to_raster], by path. *)
Abbreviation rasters := (gmap string Raster).

(** The raster as [to_raster] stores it with [dtype="float32"]. *)
Definition float32_raster (r : Raster) : Raster :=
  {| band := map2d float32 (band r); x_coords := x_coords r; y_coords := y_coords r;
     crs := crs r; nodata := float32 (nodata r) |}.

(** [refl.rio.to_raster(output_path, dtype="float32")]. *)
Definition rio_to_raster `{Rasterio} (refl : Raster) (output_path : string)
    (files : rasters) : result rasters :=
  match to_raster_raises output_path refl with
  | Some e => Raise e
  | None => Ok (<[output_path := float32_raster refl]> files)
  end.

Definition radar_timestep_ds_to_geotiff `{Pyproj} `{Rioxarray} `{Rasterio}
    (ds : Dataset) (output_path : string) (missing_value : float)
    (bbox : option (float * float * float * float)) (files : rasters) : io event rasters :=
  let crs_string := projdef ds in
  let x_0 := default 0%float (proj_x_0 (projdef ds)) in
  let y_0 := default 0%float (proj_y_0 (projdef ds)) in
  let x_scale := xscale_m ds in
  let y_scale := yscale_m ds in
  let x_coords := arange_affine (Z.of_nat (dim_x ds)) x_scale x_0 in
  let y_coords := arange_affine (Z.of_nat (length (reflectivity ds))) (- y_scale)%float y_0 in
  let refl := map2d (fillna_cell 0%float) (reflectivity ds) in
  let refl := zip2d (where_mask_cell missing_value) (mask ds) refl in
  let refl := {| band := refl; x_coords := x_coords; y_coords := rev y_coords;
                 crs := crs_string; nodata := missing_value |} in
  refl ← match bbox with
         | None => mret refl
         | Some bbox =>
             let '(lon_min, lon_max, lat_min, lat_max) :=
               transform_bbox_to_raster_crs bbox (projdef ds) in
             lift (rio_clip_box lon_min lon_max lat_min lat_max refl)
         end;
  files ← lift (rio_to_raster refl output_path files);
  _ ← print (GeotiffCreated output_path);
  mret files.

(** *** radar_tar_to_geotiff *)

(** [os.path.join(a, b)] on a POSIX system. *)
Definition os_path_join (a b : string) : string :=
  if String.prefix "/" b then b
  else if String.eqb a "" || endswith a "/" then String.append a b
  else String.append a (String.append "/" b).

Definition MISSING_DEFAULT : float := (-9999)%float.

(** One turn of the loop: the files after it, and whether a raster was
    written. *)
Definition radar_tar_to_geotiff_member `{Strptime} `{Pyproj} `{Rioxarray} `{Rasterio}
    (output_dir : string) (bbox : option (float * float * float * float)) (timestep : Z)
    (member : TarInfo) (files : rasters) : io event (rasters * bool) :=
  if negb (endswith (name member) ".hdf5") then mret (files, false)
  else match member_timestamp (name member) with
  | Raise _ =>
      _ ← print (UnreadableTimestamp (name member)); mret (files, false)
  | Ok ts =>
      let ts_minutes := (hour ts * 60 + minute ts)%Z in
      r ← lift (int_mod ts_minutes timestep);
      if negb (r =? 0)%Z then mret (files, false)
      else
        _ ← print (Reading (name member) ts);
        match extractfile member with
        | None => mret (files, false)
        | Some f =>
            hdf ← lift (h5py_File f);
            ds ← lift (odim_hdf5_to_dataset hdf true);
            let geotiff_fn :=
              String.append (join "_" (removelast (split "." (name member)))) ".tif" in
            let out_path := os_path_join output_dir geotiff_fn in
            files ← radar_timestep_ds_to_geotiff ds out_path MISSING_DEFAULT bbox files;
            mret (files, true)
        end
  end.

Fixpoint radar_tar_to_geotiff_loop `{Strptime} `{Pyproj} `{Rioxarray} `{Rasterio}
    (output_dir : string) (bbox : option (float * float * float * float)) (timestep : Z)
    (members : list TarInfo) (tar_empty : bool) (files : rasters)
    : io event (rasters * bool) :=
  match members with
  | [] => mret (files, tar_empty)
  | member :: rest =>
      '(files, written) ← radar_tar_to_geotiff_member output_dir bbox timestep member files;
      radar_tar_to_geotiff_loop output_dir bbox timestep rest
        (if written : bool then false else tar_empty) files
  end.

Definition radar_tar_to_geotiff `{Strptime} `{Pyproj} `{Rioxarray} `{Rasterio}
    (tar : list TarInfo) (output_dir : string) (bbox : option (float * float * float * float))
    (timestep : Z) (files : rasters) : io event rasters :=
  '(files, tar_empty) ← radar_tar_to_geotiff_loop output_dir bbox timestep tar true files;
  if tar_empty : bool then lift (Raise NO_VALID_HDF5) else mret files.

End Formatting.

(** ** diagnostics.py *)

Module Diagnostics.
Import Formatting.

(** [Geod(ellps="WGS84").inv(lon1, lat1, lon2, lat2)]: forward azimuth,
    back azimuth and distance in metres. *)
Class Geod : Type := geod_inv : float -> float -> float -> float -> float * float * float.

(** [np.cos(np.deg2rad(x))]. *)
Class Cosine : Type := np_cos_deg2rad : float -> float.

(** The columns [lat] and [lon] of a [DataFrame], one row per point. *)
Definition DataFrame : Type := list (float * float).
Definition col_lat (df : DataFrame) : list float := map fst df.
Definition col_lon (df : DataFrame) : list float := map snd df.

(** [pd.Series(values, index=index)]: the values must be as many as the
    index has labels.  A missing entry ([None], not-a-number) is [None]. *)
Definition pd_Series {A} (values : list (option A)) (index : nat) : result (list (option A)) :=
  if (length values =? index)%nat then Ok values
  else Raise (ValueError "Length of values does not match length of index").

(** [geod.inv] on four arrays of one length. *)
Fixpoint geod_inv_arrays `{Geod} (lon1 lat1 lon2 lat2 : list float)
    : list (float * float * float) :=
  match lon1, lat1, lon2, lat2 with
  | a :: lon1, b :: lat1, c :: lon2, d :: lat2 =>
      geod_inv a b c d :: geod_inv_arrays lon1 lat1 lon2 lat2
  | _, _, _, _ => []
  end.

(** [(az + 360) % 360]. *)
Definition normalize_heading (az : float) : float := np_mod (az + 360) 360.

Definition compute_heading `{Geod} (df : DataFrame) : result (list (option float)) :=
  let lon1 := removelast (col_lon df) in
  let lat1 := removelast (col_lat df) in
  let lon2 := tl (col_lon df) in
  let lat2 := tl (col_lat df) in
  let az := map (fun r => fst (fst r)) (geod_inv_arrays lon1 lat1 lon2 lat2) in
  let az := map normalize_heading az in
  pd_Series (None :: map Some az) (length df).

(** *** extract_reflectivity_cone *)

(** The [DataArray] returned: the values and the coordinates they carry. *)
Record DataArray : Type := {
  values : arr2 float;
  da_lat : arr2 float;
  da_lon : arr2 float
}.

(** [np.where(mask)]: the row and column indices of the true cells, in
    row-major order. *)
Definition true_columns (row : list bool) : list nat :=
  List.filter (fun j => nth j row false) (seq 0 (length row)).

Definition np_where (m : arr2 bool) : list nat * list nat :=
  let idx := flat_map (fun ir => map (fun j => (fst ir, j)) (true_columns (snd ir)))
                      (combine (seq 0 (length m)) m) in
  (map fst idx, map snd idx).

(** [a.min()] and [a.max()] of a non-empty array of indices. *)
Definition np_min (a : list nat) : nat :=
  match a with
  | [] => 0
  | x :: xs => fold_right Nat.min x xs
  end.

Definition np_max (a : list nat) : nat :=
  match a with
  | [] => 0
  | x :: xs => fold_right Nat.max x xs
  end.

(** The approximate window around the apex:
    [(lat_min, lat_max, lon_min, lon_max)]. *)
Definition cone_bbox `{Cosine} (lat0 lon0 R : float) : float * float * float * float :=
  let dlat := (R / 111)%float in
  let dlon := (R / (111 * np_cos_deg2rad lat0))%float in
  (lat0 - dlat, lat0 + dlat, lon0 - dlon, lon0 + dlon)%float.

(** [(lat >= lat_min) & (lat <= lat_max) & (lon >= lon_min) &
    (lon <= lon_max)] on one cell. *)
Definition in_bbox (box : float * float * float * float) (lat lon : float) : bool :=
  let '(lat_min, lat_max, lon_min, lon_max) := box in
  ((lat_min <=? lat) && (lat <=? lat_max)
   && (lon_min <=? lon) && (lon <=? lon_max))%float.

(** [(az - heading + 180) % 360 - 180]. *)
Definition angle_diff (az heading : float) : float :=
  (np_mod (az - heading + 180) 360 - 180)%float.

(** [(np.abs(angle_diff) <= O/2) & (dist <= R_m)] on one cell. *)
Definition in_cone `{Geod} (lat0 lon0 heading O R_m : float) (lon lat : float) : bool :=
  let '(az, _, dist) := geod_inv lon0 lat0 lon lat in
  ((abs (angle_diff az heading) <=? O / 2) && (dist <=? R_m))%float.

(** [refl.where(mask)] on one cell. *)
Definition where_cell (r : float) (keep : bool) : float :=
  if keep then r else nan.

Definition BBOX_EMPTY : exn :=
  ValueError "La bbox ne recouvre aucun point de la grille.".

Definition extract_reflectivity_cone `{Geod} `{Cosine}
    (ds : Dataset) (lat0 lon0 heading O R : float) : result DataArray :=
  let R_m := (R * 1000)%float in
  let refl := reflectivity ds in
  let lat := lat ds in
  let lon := lon ds in
  let mask_bbox := zip2d (in_bbox (cone_bbox lat0 lon0 R)) lat lon in
  let '(iy, ix) := np_where mask_bbox in
  if (length iy =? 0)%nat then Raise BBOX_EMPTY
  else
    let y_min := np_min iy in
    let y_max := np_max iy in
    let x_min := np_min ix in
    let x_max := np_max ix in
    let lat := slice2d y_min (y_max + 1) x_min (x_max + 1) lat in
    let lon := slice2d y_min (y_max + 1) x_min (x_max + 1) lon in
    let refl := slice2d y_min (y_max + 1) x_min (x_max + 1) refl in
    let mask := zip2d (in_cone lat0 lon0 heading O R_m) lon lat in
    let cone_refl := zip2d where_cell refl mask in
    Ok {| values := cone_refl; da_lat := lat; da_lon := lon |}.

End Diagnostics.

(** ** bird_tracks.py *)

Module BirdTracks.
Import Diagnostics.

Record BirdPoint : Type := {
  lat : float;
  lon : float;
  dat : datetime
}.

(** The property [as_dict]: evaluating it gives the dictionary. *)
Definition as_dict (self : BirdPoint) : object BirdPoint := Value self.

Record BirdTracks : Type := {
  serial_ID : string;
  species : string;
  points : list BirdPoint
}.

Fixpoint for_each {A B} (f : A -> result B) (l : list A) : result (list B) :=
  match l with
  | [] => Ok []
  | x :: xs => y ← f x; ys ← for_each f xs; mret (y :: ys)
  end.

(** The property [data]: the rows of the frame, each with its heading.
    The source calls the field [points] and the property [as_dict]. *)
Definition data `{Geod} (self : BirdTracks) : result (list (BirdPoint * option float)) :=
  pts ← call (Value (points self));
  rows ← for_each (fun point => call (as_dict point)) pts;
  let data_df := rows in
  heading ← compute_heading (map (fun r => (lat r, lon r)) data_df);
  mret (combine data_df heading).

End BirdTracks.

(** ** utils.py *)

Module Utils.
Local Open Scope Z_scope.

Record Response : Type := {
  status_code : Z;
  content : list Byte.byte
}.

(** What [requests.get(api_url, headers=headers, timeout=30)] does on one
    attempt: it returns a response whose body has been read in full, or it
    raises a [RequestException] (no connection, timeout, body cut short). *)
Inductive get_outcome : Type :=
| Returns (response : Response)
| Fails.

Definition requests_get (outcome : get_outcome) : result Response :=
  match outcome with
  | Returns response => Ok response
  | Fails => Raise RequestException
  end.

(** [response.raise_for_status()]: an [HTTPError], which is a
    [RequestException], for a 4xx or 5xx status. *)
Definition raise_for_status (response : Response) : result unit :=
  if (400 <=? status_code response) && (status_code response <? 600)
  then Raise RequestException else Ok tt.

Inductive message : Type :=
| Downloading (attempt max_retries : Z)
| Saved (output_path : string)
| HttpError (attempt max_retries : Z)
| GivingUp
| Waiting.

(** What a call does to the outside, in order. *)
Inductive effect : Type :=
| Print (m : message)
| Get (attempt : Z)
| WriteBytes (output_path : string) (bytes : list Byte.byte)
| Sleep (seconds : Z).

(** The local files, by path. *)
Abbreviation files := (gmap string (list Byte.byte)).

(** [range(1, max_retries + 1)]. *)
Definition attempts (max_retries : Z) : list Z :=
  map Z.of_nat (seq 1 (Z.to_nat max_retries)).

(** The loop of [get_api_data] over the attempts that remain; [network]
    gives the outcome of the request of each attempt.  The value is the
    path returned, or [None] when the loop runs out. *)
Fixpoint get_api_data_loop (network : Z -> get_outcome) (output_path : string)
    (max_retries : Z) (stop_on_maxretry : bool) (remaining : list Z) (fs : files)
    : list effect * files * result (option string) :=
  match remaining with
  | [] => ([], fs, Ok None)
  | attempt :: rest =>
      let started := [Print (Downloading attempt max_retries); Get attempt] in
      match (response ← requests_get (network attempt);
             _ ← raise_for_status response;
             mret response) with
      | Ok response =>
          (started ++ [WriteBytes output_path (content response); Print (Saved output_path)],
           <[output_path := content response]> fs,
           Ok (Some output_path))
      | Raise RequestException =>
          let failed := started ++ [Print (HttpError attempt max_retries)] in
          if (attempt =? max_retries) && stop_on_maxretry then
            (failed, fs, Raise (RuntimeError "Erreur HTTP lors du telechargement"))
          else
            let given_up := if attempt =? max_retries then [Print GivingUp] else [] in
            let pause := if attempt <? max_retries then [Print Waiting; Sleep 5] else [] in
            let '(later, fs', r) :=
              get_api_data_loop network output_path max_retries stop_on_maxretry rest fs in
            (failed ++ given_up ++ pause ++ later, fs', r)
      | Raise e => (started, fs, Raise e)
      end
  end.

Definition get_api_data (network : Z -> get_outcome) (output_path : string)
    (max_retries : Z) (stop_on_maxretry : bool) (fs : files)
    : list effect * files * result (option string) :=
  get_api_data_loop network output_path max_retries stop_on_maxretry
    (attempts max_retries) fs.

(** The attempt succeeds: the request returns and the status check passes. *)
Definition succeeds (outcome : get_outcome) : bool :=
  match outcome with
  | Returns response => is_ok (raise_for_status response)
  | Fails => false
  end.

(** The writes among the effects of a call. *)
Definition writes (effects : list effect) : list (string * list Byte.byte) :=
  flat_map (fun e => match e with WriteBytes p b => [(p, b)] | _ => [] end) effects.

End Utils.

(** ** utils.py: the half-day of an instant *)

Module UtilsDates.
Local Open Scope Z_scope.

(** A [datetime] with its seconds and microseconds, naive or in UTC. *)
Record Instant : Type := mk_instant {
  at_minute : datetime;
  second : Z;
  microsecond : Z
}.

(** The instant a timestamp of the archive stands for. *)
Definition on_the_minute (ts : datetime) : Instant :=
  {| at_minute := ts; second := 0; microsecond := 0 |}.

(** [a == b] on instants of one time zone. *)
Definition instant_eqb (a b : Instant) : bool :=
  (year (at_minute a) =? year (at_minute b))
  && (month (at_minute a) =? month (at_minute b))
  && (day (at_minute a) =? day (at_minute b))
  && (hour (at_minute a) =? hour (at_minute b))
  && (minute (at_minute a) =? minute (at_minute b))
  && (second a =? second b)
  && (microsecond a =? microsecond b).

Definition dat_to_dat_half (dat : Instant) : Instant :=
  let dat :=
    {| at_minute := mk_datetime (year (at_minute dat)) (month (at_minute dat))
                      (day (at_minute dat)) (hour (at_minute dat)) 0;
       second := 0; microsecond := 0 |} in
  let hour := if 12 <=? hour (at_minute dat) then 12 else 0 in
  {| at_minute := mk_datetime (year (at_minute dat)) (month (at_minute dat))
                    (day (at_minute dat)) hour (minute (at_minute dat));
     second := second dat; microsecond := microsecond dat |}.

(** The decimal digit [d]. *)
Definition digit_char (d : Z) : ascii := ascii_of_N (48 + Z.to_N d).

(** A number of two digits, padded with a zero: [%m], [%d], [%H], [%M],
    [%S]. *)
Definition pad2 (n : Z) : string :=
  String (digit_char (n / 10 mod 10)) (String (digit_char (n mod 10)) EmptyString).

(** A number of four digits, padded with zeros: [%Y] for the years 1000
    to 9999 (below 1000 the padding depends on the C library). *)
Definition pad4 (n : Z) : string :=
  String (digit_char (n / 1000 mod 10)) (String (digit_char (n / 100 mod 10)) (pad2 n)).

(** [dat.strftime("%Y-%m-%d")]. *)
Definition strftime_Ymd (dat : Instant) : string :=
  String.append (pad4 (year (at_minute dat)))
    (String.append "-" (String.append (pad2 (month (at_minute dat)))
      (String.append "-" (pad2 (day (at_minute dat)))))).

(** [dat.strftime("%Y-%m-%dT%H%M%S")]. *)
Definition strftime_YmdTHMS (dat : Instant) : string :=
  String.append (strftime_Ymd dat)
    (String.append "T" (String.append (pad2 (hour (at_minute dat)))
      (String.append (pad2 (minute (at_minute dat))) (pad2 (second dat))))).

(** [dat.strftime("%Y-%m-%dT%H0000Z")]. *)
Definition strftime_YmdTH0000Z (dat : Instant) : string :=
  String.append (strftime_Ymd dat)
    (String.append "T" (String.append (pad2 (hour (at_minute dat))) "0000Z")).

End UtilsDates.

(** ** formatting.py: the grid of one instant *)

Module Lookup.
Import Formatting UtilsDates.

(** [RADAR_DATA_PATH] of settings.py, a resolved directory. *)
Class Settings : Type := RADAR_DATA_PATH : string.

(** The archives on disk, by path: the members of each. *)
Abbreviation archives := (gmap string (list TarInfo)).

Inductive event : Type :=
| ArchiveNotFound (tar_path : string)
| UnreadableTimestamp (member_name : string)
| Reading (member_name : string) (ts : datetime)
| CannotExtract (member_name : string)
| NoMatch (dat : Instant) (tar_path : string).

(** [RADAR_DATA_PATH / filename] for a relative file name. *)
Definition path_div (directory filename : string) : string :=
  String.append directory (String.append "/" filename).

Definition tar_path `{Settings} (dat : Instant) : string :=
  let half_dat_str := strftime_YmdTHMS (dat_to_dat_half dat) in
  let filename :=
    String.append "OPERA_cirrus_REFLECTIVITY_" (String.append half_dat_str ".tar") in
  path_div RADAR_DATA_PATH filename.

(** The loop over the members: [None] when it runs out, the value
    returned from inside it otherwise. *)
Fixpoint extract_radar_da_loop `{Strptime} `{Pyproj} (dat : Instant) (members : list TarInfo)
    : io event (option (option Dataset)) :=
  match members with
  | [] => mret None
  | member :: rest =>
      if negb (endswith (name member) ".hdf5") then extract_radar_da_loop dat rest
      else match member_timestamp (name member) with
      | Raise _ =>
          _ ← print (UnreadableTimestamp (name member));
          extract_radar_da_loop dat rest
      | Ok ts =>
          if negb (instant_eqb (on_the_minute ts) dat) then extract_radar_da_loop dat rest
          else
            _ ← print (Reading (name member) ts);
            match extractfile member with
            | None =>
                _ ← print (CannotExtract (name member));
                mret (Some None)
            | Some f =>
                hdf ← lift (h5py_File f);
                da ← lift (odim_hdf5_to_dataset hdf true);
                mret (Some (Some da))
            end
      end
  end.

Definition extract_radar_da `{Settings} `{Strptime} `{Pyproj}
    (disk : archives) (dat : Instant) : io event (option Dataset) :=
  let tar_path := tar_path dat in
  match disk !! tar_path with
  | None =>
      _ ← print (ArchiveNotFound tar_path);
      mret None
  | Some members =>
      r ← extract_radar_da_loop dat members;
      match r with
      | Some da => mret da
      | None =>
          _ ← print (NoMatch dat tar_path);
          mret None
      end
  end.

End Lookup.

(** ** open_data_server.py *)

Module OpenDataServer.
Import Formatting UtilsDates Lookup.

Definition API_BASE_URL : string := "https://partner-api.meteofrance.fr/partner".

Fixpoint concat_strings (parts : list string) : string :=
  match parts with
  | [] => EmptyString
  | p :: parts => String.append p (concat_strings parts)
  end.

(** The query of [get_radar_composite]. *)
Definition query_url (input_date : Instant) (product_type algo_name product_name format : string)
    : string :=
  let date_str := strftime_YmdTH0000Z input_date in
  concat_strings [API_BASE_URL; "/radar/opera/1.0/"; product_type; "/"; algo_name;
                  "/composite/"; product_name; "/"; date_str; "?format="; format].

(** The name of the file it saves the archive to. *)
Definition filename (input_date : Instant) (algo_name product_name : string) : string :=
  let fn_hour := if (12 <=? hour (at_minute input_date))%Z then "12" else "00" in
  let fn_dat_str := concat_strings [strftime_Ymd input_date; "T"; fn_hour; "0000"] in
  concat_strings ["OPERA_"; algo_name; "_"; product_name; "_"; fn_dat_str; ".tar"].

(** [tarfile.open(path, "r").getmembers()] on the bytes of a file. *)
Class Tarfile : Type := tarfile_getmembers : list Byte.byte -> result (list TarInfo).

(** What a call does and prints, in order. *)
Inductive event : Type :=
| Querying (url : string)
| Download (e : Utils.effect)
| Decode (e : Formatting.event).

(** [radar_tar_to_dataset(tar_path)] from the path: [tarfile.open] has
    nothing to open when the path is [None]. *)
Definition radar_tar_to_dataset_from `{Tarfile} `{Strptime} `{Pyproj}
    (fs : gmap string (list Byte.byte)) (tar_path : option string) (timestep : Z)
    : io Formatting.event TimeSeries :=
  match tar_path with
  | None => lift (Raise (ValueError "nothing to open"))
  | Some p =>
      match fs !! p with
      | None => lift (Raise OSError)
      | Some bytes =>
          tar ← lift (tarfile_getmembers bytes);
          radar_tar_to_dataset tar timestep
      end
  end.

(** [network url] gives the outcome of each attempt to get [url]. *)
Definition get_radar_composite `{Settings} `{Tarfile} `{Strptime} `{Pyproj}
    (network : string -> Z -> Utils.get_outcome)
    (input_date : Instant) (product_type algo_name product_name format : string)
    (fs : gmap string (list Byte.byte))
    : list event * gmap string (list Byte.byte) * result TimeSeries :=
  let query_url := query_url input_date product_type algo_name product_name format in
  let filename := filename input_date algo_name product_name in
  let '(effects, fs, data_path) :=
    Utils.get_api_data (network query_url) (os_path_join RADAR_DATA_PATH filename) 5 false fs in
  let downloaded := Querying query_url :: map Download effects in
  match data_path with
  | Raise e => (downloaded, fs, Raise e)
  | Ok data_path =>
      let '(out, radar_ds) := radar_tar_to_dataset_from fs data_path 60 in
      (downloaded ++ map Decode out, fs, radar_ds)
  end.

End OpenDataServer.

(** ** utils.py: rounding an instant to five minutes *)

Module Timeline.
Local Open Scope Z_scope.

(** [dat_to_5mn] moves its argument along the time line with
    [timedelta]s.  Here a naive [datetime] is its place on that line:
    the count of microseconds since 0001-01-01T00:00:00.  Every day of
    the calendar of [datetime] has 86400 seconds, so the counts from 0
    to [MAX] are the values of the type, and the fields read below are
    those of the value. *)
Definition MAX : Z := 3652059 * 86400000000 - 1.

Definition minute (dat : Z) : Z := (dat / 60000000) mod 60.
Definition second (dat : Z) : Z := (dat / 1000000) mod 60.
Definition microsecond (dat : Z) : Z := dat mod 1000000.

(** Rounding to the nearest integer, a half to the even one. *)
Definition round_half_even (x : Q) : Z :=
  let f := Qfloor x in
  let r := (x - inject_Z f)%Q in
  if negb (Qle_bool (1 # 2) r) then f
  else if negb (Qle_bool r (1 # 2)) then f + 1
  else if Z.even f then f else f + 1.

(** [timedelta(seconds=s)], in microseconds. *)
Definition timedelta (seconds : Q) : Z := round_half_even (seconds * 1000000).

(** [dat + delta]: [None] stands for the [OverflowError] of a result
    outside the values of the type. *)
Definition add (dat delta : Z) : option Z :=
  let r := dat + delta in
  if (0 <=? r) && (r <=? MAX) then Some r else None.

(** [dat.replace(second=0, microsecond=0)]. *)
Definition replace_second_microsecond (dat : Z) : Z :=
  dat - (second dat * 1000000 + microsecond dat).

(** The seconds are exact rationals.  The binary64 values of the code
    are within 1e-12 of them (the operands are below 3600 and [%] is
    exact), and the exact values are whole microseconds: [timedelta]
    rounds to the same microsecond, and the comparison with 150 has the
    same result. *)
Definition dat_to_5mn (dat : Z) : option Z :=
  let total_seconds :=
    (inject_Z (minute dat * 60 + second dat) + inject_Z (microsecond dat) / 1000000)%Q in
  let remainder := float_mod total_seconds 300 in
  new_time ← (if negb (Qle_bool 150 remainder)
              then add dat (- timedelta remainder)
              else add dat (timedelta (300 - remainder)));
  Some (replace_second_microsecond new_time).

End Timeline.

(** ** Instances used to run the definitions *)

(** [datetime.strptime] with the format ["%Y%m%d%H%M"], as CPython's
    [_strptime] does it on ASCII input: the format is the regular expression
    [(\d\d\d\d)(1[0-2]|0[1-9]|[1-9])(3[0-1]|[1-2]\d|0[1-9]|[1-9]| [1-9])
    (2[0-3]|[0-1]\d|\d)([0-5]\d|\d)], matched at the start of the string with
    backtracking; the first match must cover the whole string, and the
    fields must form a date. *)
Module CPython.

Definition between (lo hi : ascii) (c : ascii) : bool :=
  (N_of_ascii lo <=? N_of_ascii c)%N && (N_of_ascii c <=? N_of_ascii hi)%N.

Definition digit : ascii -> bool := between "0" "9".

(** A sequence of character classes against the start of the input: the
    characters matched and the rest. *)
Fixpoint match_classes (classes : list (ascii -> bool)) (s : list ascii)
    : option (list ascii * list ascii) :=
  match classes, s with
  | [], _ => Some ([], s)
  | p :: classes, c :: s =>
      if p c then
        match match_classes classes s with
        | Some (matched, rest) => Some (c :: matched, rest)
        | None => None
        end
      else None
  | _ :: _, [] => None
  end.

(** A group of alternatives: every way it matches, in the order the
    regular expression engine tries them. *)
Definition group (alternatives : list (list (ascii -> bool))) (s : list ascii)
    : list (list ascii * list ascii) :=
  flat_map (fun classes => match match_classes classes s with
                           | Some r => [r]
                           | None => []
                           end) alternatives.

(** [int(s)] of digits, with spaces around them stripped. *)
Definition int (s : list ascii) : Z :=
  fold_left (fun n c => if digit c then (n * 10 + Z.of_N (N_of_ascii c) - 48)%Z else n) s 0%Z.

Definition re_Y := [[digit; digit; digit; digit]].
Definition re_m :=
  [[between "1" "1"; between "0" "2"]; [between "0" "0"; between "1" "9"]; [between "1" "9"]].
Definition re_d :=
  [[between "3" "3"; between "0" "1"]; [between "1" "2"; digit];
   [between "0" "0"; between "1" "9"]; [between "1" "9"];
   [between " " " "; between "1" "9"]].
Definition re_H :=
  [[between "2" "2"; between "0" "3"]; [between "0" "1"; digit]; [digit]].
Definition re_M := [[between "0" "5"; digit]; [digit]].

(** Every match of the whole expression, in order. *)
Definition matches (s : list ascii) : list (datetime * list ascii) :=
  '(Y, s) ← group re_Y s;
  '(m, s) ← group re_m s;
  '(d, s) ← group re_d s;
  '(H, s) ← group re_H s;
  '(M, s) ← group re_M s;
  [(mk_datetime (int Y) (int m) (int d) (int H) (int M), s)].

Definition strptime (data_string : string) : option datetime :=
  match matches (list_ascii_of_string data_string) with
  | [] => None
  | (ts, rest) :: _ =>
      match rest with
      | [] => if valid ts then Some ts else None
      | _ :: _ => None
      end
  end.

#[export] Instance cpython_strptime : Strptime := strptime.

End CPython.

Module Samples.
Import Formatting Diagnostics.

(** A stand-in for pyproj: the projection whose planar coordinates are
    the degrees themselves, without false origin. *)
Definition degrees_proj : Pyproj := {|
  proj_forward := fun _ lon lat => (lon, lat);
  proj_to_latlong := fun _ x y => (x, y);
  proj_x_0 := fun _ => None;
  proj_y_0 := fun _ => None;
  proj_from_epsg4326 := fun _ lon lat => (lon, lat)
|}.

(** A stand-in for rioxarray: a window that leaves the raster whole. *)
Definition whole_clip : Rioxarray := fun _ _ _ _ r => Ok r.

(** A stand-in for the WGS84 geodesic, exact in its azimuth along a
    meridian (0 northwards, 180 southwards) and coarse elsewhere: the
    azimuth is that of the nearest cardinal direction and the distance
    counts 111 km per degree along each axis. *)
Definition cardinal_geod : Geod := fun lon1 lat1 lon2 lat2 =>
  let dx := (lon2 - lon1)%float in
  let dy := (lat2 - lat1)%float in
  let az := if (abs dx <=? abs dy)%float
            then (if (0 <=? dy)%float then 0 else 180)%float
            else (if (0 <=? dx)%float then 90 else -90)%float in
  let back := if (az <=? 0)%float then (az + 180)%float else (az - 180)%float in
  (az, back, (111000 * (abs dx + abs dy))%float).

(** A stand-in for [np.cos(np.deg2rad(x))]: the first terms of the
    series, with 355/113 for the half turn. *)
Definition series_cos : Cosine := fun x =>
  let t := (x * (355 / 113) / 180)%float in
  (1 - t * t / 2 + t * t * t * t / 24)%float.

(** A stand-in for rasterio: every directory exists and every array can
    be written. *)
Definition writable : Rasterio := fun _ _ => None.


Definition laea : string :=
  "+proj=laea +lat_0=55 +lon_0=10 +x_0=1950000 +y_0=-2100000 +units=m +ellps=WGS84".

(** A composite of two rows and three columns whose lower left corner is
    at 44N 1E, with one cell per degree. *)
Definition small_file : h5file := {|
  data := [[(-9999000.0)%float; (-3.5)%float; 12.25%float];
           [0%float; 7%float; (-9999000.0)%float]];
  data_ncols := 3;
  where_ := {| w_xsize := 3; w_ysize := 2; w_xscale := 1; w_yscale := 1;
               w_projdef := laea; w_LL_lon := 1; w_LL_lat := 44 |}
|}.

Definition member_1200 : TarInfo :=
  {| name := "CIRRUS.REF_202506171200.hdf5"; extractfile := Some (Hdf5 small_file) |}.
Definition member_1230 : TarInfo :=
  {| name := "CIRRUS.REF_202506171230.hdf5"; extractfile := Some (Hdf5 small_file) |}.
Definition member_1300 : TarInfo :=
  {| name := "CIRRUS.REF_202506171300.hdf5"; extractfile := Some (Hdf5 small_file) |}.
Definition member_1205 : TarInfo :=
  {| name := "CIRRUS.REF_202506171205.hdf5"; extractfile := Some (Hdf5 small_file) |}.
Definition member_1206 : TarInfo :=
  {| name := "CIRRUS.REF_202506171206.hdf5"; extractfile := Some (Hdf5 small_file) |}.

(** A second product of the same instant. *)
Definition member_1200_bis : TarInfo :=
  {| name := "NIMBUS.REF_202506171200.hdf5"; extractfile := Some (Hdf5 small_file) |}.

(** A name without a timestamp. *)
Definition member_malformed : TarInfo :=
  {| name := "CIRRUS.REF_latest.hdf5"; extractfile := Some (Hdf5 small_file) |}.


Definition ts_1200 : datetime := mk_datetime 2025 6 17 12 0.
Definition ts_1205 : datetime := mk_datetime 2025 6 17 12 5.

(** The grid decoded from [small_file], with noise flooring. *)
Definition small_grid : Dataset := {|
  reflectivity := [[0%float; 7%float; nan]; [nan; 0%float; 12.25%float]];
  mask := [[1; 1; 0]; [0; 1; 1]]%Z;
  lat := [[44; 44; 44]; [45; 45; 45]]%float;
  lon := [[1; 2; 3]; [1; 2; 3]]%float;
  dim_x := 3;
  projdef := laea;
  xscale_m := 1; yscale_m := 1; xsize := 3; ysize := 2;
  LL_lat := 44; LL_lon := 1
|}.

(** A server that fails twice and then answers. *)
Definition third_time_lucky (attempt : Z) : Utils.get_outcome :=
  if (attempt <? 3)%Z then Utils.Fails
  else Utils.Returns {| Utils.status_code := 200; Utils.content := [Byte.x01; Byte.x02] |}.

(** A server that answers 503 to every request. *)
Definition unavailable (attempt : Z) : Utils.get_outcome :=
  Utils.Returns {| Utils.status_code := 503; Utils.content := [Byte.xff] |}.

End Samples.

(** ** More sample inputs *)

Module MoreSamples.
Import Formatting Samples.

(** The radar data directory, as a resolved path. *)
Definition data_radar : Lookup.Settings := "/data_radar".

(** 2025-06-17 at 12:05, to the microsecond. *)
Definition at_1205 : UtilsDates.Instant := UtilsDates.mk_instant ts_1205 0 0.

(** A disk that holds the archive of the afternoon of that day. *)
Definition disk_1205 : Lookup.archives :=
  {[ "/data_radar/OPERA_cirrus_REFLECTIVITY_2025-06-17T120000.tar"
     := [member_1200; member_1205; member_1206] ]}.

(** A member stored in the archive under an absolute name. *)
Definition member_absolute : TarInfo :=
  {| name := "/tmp/CIRRUS.REF_202506171200.hdf5"; extractfile := Some (Hdf5 small_file) |}.

(** A member stored in the archive under a directory. *)
Definition member_in_sub : TarInfo :=
  {| name := "sub/CIRRUS.REF_202506171200.hdf5"; extractfile := Some (Hdf5 small_file) |}.

(** A stand-in for rasterio on a disk where [out] has no directory
    [sub]. *)
Definition no_sub_directory : Rasterio := fun path _ =>
  if String.prefix "out/sub/" path then Some OSError else None.

(** An array of no row and three columns, in a file that announces no
    row and five columns. *)
Definition empty_file : h5file := {|
  data := [];
  data_ncols := 3;
  where_ := {| w_xsize := 5; w_ysize := 0; w_xscale := 1; w_yscale := 1;
               w_projdef := laea; w_LL_lon := 1; w_LL_lat := 44 |}
|}.

(** The composite of [small_file] one degree further east. *)
Definition shifted_file : h5file := {|
  data := data small_file;
  data_ncols := 3;
  where_ := {| w_xsize := 3; w_ysize := 2; w_xscale := 1; w_yscale := 1;
               w_projdef := laea; w_LL_lon := 2; w_LL_lat := 44 |}
|}.

Definition member_1300_shifted : TarInfo :=
  {| name := "CIRRUS.REF_202506171300.hdf5"; extractfile := Some (Hdf5 shifted_file) |}.

End MoreSamples.

(** ** Notions used in the statements *)

Module Notions.
Import Formatting.

(** The value a printing computation returns, or the exception it raises. *)
Definition outcome {event A} (m : io event A) : result A := snd m.

(** What it prints. *)
Definition output {event A} (m : io event A) : list event := fst m.

(** The grids of the members that the loop of [radar_tar_to_dataset]
    decodes, in the order of the archive. *)
Definition decoded_grids `{Strptime} `{Pyproj} (timestep : Z) (tar : list TarInfo)
    : list (datetime64 * Dataset) :=
  flat_map (fun member =>
              match outcome (radar_tar_to_dataset_member timestep member) with
              | Ok (Some d) => [d]
              | _ => []
              end) tar.

(** The grids as slices of one dataset: each with its own variables and
    coordinates, all under the attributes of the first. *)
Definition under_first_attrs (grids : list (datetime64 * Dataset))
    : list (datetime64 * Dataset) :=
  match grids with
  | [] => []
  | (_, d0) :: _ => map (fun d => (fst d, with_attrs_of d0 (snd d))) grids
  end.

(** The grids of a series whose time coordinate is [t], in order. *)
Definition at_time (t : datetime64) (series : TimeSeries) : TimeSeries :=
  List.filter (fun d => (fst d =? t)%Z) series.

(** The cell [(i, j)] of the grid lies in the approximate window around
    the apex: within [R / 111] degrees of its latitude and within
    [R / (111 cos lat0)] degrees of its longitude. *)
Definition in_window `{Diagnostics.Cosine} (ds : Dataset) (lat0 lon0 R : float) (i j : nat)
    : Prop :=
  exists la lo,
    cell (lat ds) i j = Some la /\ cell (lon ds) i j = Some lo /\
    ((lat0 - R / 111 <=? la)%float = true /\ (la <=? lat0 + R / 111)%float = true) /\
    ((lon0 - R / (111 * Diagnostics.np_cos_deg2rad lat0) <=? lo)%float = true
     /\ (lo <=? lon0 + R / (111 * Diagnostics.np_cos_deg2rad lat0))%float = true).

(** The mask of the window, as [extract_reflectivity_cone] computes it. *)
Definition mask_bbox `{Diagnostics.Cosine} (ds : Dataset) (lat0 lon0 R : float) : arr2 bool :=
  zip2d (Diagnostics.in_bbox (Diagnostics.cone_bbox lat0 lon0 R)) (lat ds) (lon ds).

End Notions.
Import Notions.

(** ** Further notions used in the statements *)

Module MoreNotions.
Import Formatting.

(** The attempts whose request was sent, among the effects of a call. *)
Definition gets (effects : list Utils.effect) : list Z :=
  flat_map (fun e => match e with Utils.Get k => [k] | _ => [] end) effects.

(** The pauses taken, in seconds. *)
Definition sleeps (effects : list Utils.effect) : list Z :=
  flat_map (fun e => match e with Utils.Sleep s => [s] | _ => [] end) effects.

(** The name [radar_tar_to_geotiff] gives the raster of a member. *)
Definition geotiff_fn (member_name : string) : string :=
  String.append (join "_" (removelast (split "." member_name))) ".tif".

(** The member is an HDF5 file of the instant [dat], by its name. *)
Definition carries `{Strptime} (dat : UtilsDates.Instant) (member : TarInfo) : bool :=
  endswith (name member) ".hdf5"
  && match member_timestamp (name member) with
     | Ok ts => UtilsDates.instant_eqb (UtilsDates.on_the_minute ts) dat
     | Raise _ => false
     end.

(** What reading a member gives: nothing without a file object, its grid
    or the exception of the decoding otherwise. *)
Definition read_member `{Pyproj} (member : TarInfo) : result (option Dataset) :=
  match extractfile member with
  | None => Ok None
  | Some f =>
      match h5py_File f with
      | Raise e => Raise e
      | Ok hdf =>
          match odim_hdf5_to_dataset hdf true with
          | Raise e => Raise e
          | Ok da => Ok (Some da)
          end
      end
  end.

End MoreNotions.
Import MoreNotions.

(** * Properties *)

(** ** Arrays *)

Lemma nth_error_zip_with {A B C : Type} (f : A -> B -> C) (l : list A) (l' : list B) (n : nat) :
  nth_error (zip_with f l l') n =
  match nth_error l n, nth_error l' n with
  | Some x, Some y => Some (f x y)
  | _, _ => None
  end.
Proof.
  revert l' n. induction l as [|x xs IH]; intros [|y ys] [|n]; simpl; try reflexivity.
  - destruct (nth_error xs n); reflexivity.
  - apply IH.
Qed.

Lemma nth_error_slice {A : Type} (lo hi : nat) (l : list A) (k : nat) :
  (lo + k < hi)%nat -> nth_error (slice lo hi l) k = nth_error l (lo + k).
Proof.
  intros Hk. unfold slice.
  rewrite nth_error_firstn.
  destruct (Nat.ltb_spec k (hi - lo)); [| lia].
  apply nth_error_skipn.
Qed.

Section ArrayFacts.
Context {A B C : Type}.

Lemma cell_map2d (f : A -> B) (a : arr2 A) (i j : nat) :
  cell (map2d f a) i j = option_map f (cell a i j).
Proof.
  unfold cell, map2d. rewrite nth_error_map.
  destruct (nth_error a i) as [row|]; simpl; [apply nth_error_map | reflexivity].
Qed.

Lemma cell_zip2d (f : A -> B -> C) (a : arr2 A) (b : arr2 B) (i j : nat) :
  cell (zip2d f a b) i j =
  match cell a i j, cell b i j with
  | Some x, Some y => Some (f x y)
  | _, _ => None
  end.
Proof.
  unfold cell, zip2d. rewrite nth_error_zip_with.
  destruct (nth_error a i) as [ra|], (nth_error b i) as [rb|]; try reflexivity.
  - apply nth_error_zip_with.
  - destruct (nth_error ra j); reflexivity.
Qed.

Lemma cell_slice2d (y0 y1 x0 x1 : nat) (a : arr2 A) (i j : nat) :
  (y0 + i < y1)%nat -> (x0 + j < x1)%nat ->
  cell (slice2d y0 y1 x0 x1 a) i j = cell a (y0 + i) (x0 + j).
Proof.
  intros Hi Hj. unfold cell, slice2d.
  rewrite nth_error_map, nth_error_slice by exact Hi.
  destruct (nth_error a (y0 + i)) as [row|]; simpl; [| reflexivity].
  apply nth_error_slice, Hj.
Qed.
End ArrayFacts.

(** ** The decoded grid (formatting.py, [odim_hdf5_to_dataset]) *)

Section DecodedGrid.
Import Formatting.
Context `{Pyproj}.

Lemma odim_hdf5_to_dataset_variables (hdf : h5file) (noise_as_zero : bool) (ds : Dataset) :
  odim_hdf5_to_dataset hdf noise_as_zero = Ok ds ->
  mask ds = map2d mask_cell (rev (data hdf)) /\
  reflectivity ds =
    (if noise_as_zero
     then map2d noise_floor_cell (map2d reflectivity_cell (rev (data hdf)))
     else map2d reflectivity_cell (rev (data hdf))).
Proof.
  unfold odim_hdf5_to_dataset, xr_Dataset.
  destruct (proj_forward _ _ _) as [LL_x LL_y].
  destruct (meshgrid _ _) as [X Y].
  destruct (_ && _ && _); [| discriminate].
  intros [= <-]. simpl. split; reflexivity.
Qed.

(** The decoder returns a grid whenever the array has the sizes the
    attributes announce. *)
Lemma odim_hdf5_to_dataset_returns (hdf : h5file) (noise_as_zero : bool) :
  has_shape (Z.to_nat (w_ysize (where_ hdf))) (Z.to_nat (w_xsize (where_ hdf))) (data hdf) = true ->
  data_ncols hdf = Z.to_nat (w_xsize (where_ hdf)) ->
  exists ds, odim_hdf5_to_dataset hdf noise_as_zero = Ok ds.
Proof.
  intros Hshape Hcols.
  assert (Hrev : forall (T : Type) (a : arr2 T) r c,
             has_shape r c a = true -> has_shape r c (rev a) = true).
  { intros T a r c. unfold has_shape. rewrite !andb_true_iff, length_rev.
    intros [Hl Hf]. split; [exact Hl |].
    rewrite forallb_forall in *. intros row Hin. apply Hf, in_rev, Hin. }
  assert (Hmap : forall (T U : Type) (f : T -> U) (a : arr2 T) r c,
             has_shape r c a = true -> has_shape r c (map2d f a) = true).
  { intros T U f a r c. unfold has_shape, map2d. rewrite !andb_true_iff, length_map.
    intros [Hl Hf]. split; [exact Hl |].
    rewrite forallb_forall in *. intros row Hin.
    apply in_map_iff in Hin as (row' & <- & Hin'). rewrite length_map. apply Hf, Hin'. }
  unfold odim_hdf5_to_dataset, xr_Dataset.
  destruct (proj_forward _ _ _) as [LL_x LL_y].
  destruct (meshgrid _ _) as [X Y].
  apply Hrev in Hshape.
  rewrite (Hmap _ _ mask_cell _ _ _ Hshape), Hcols, Nat.eqb_refl.
  destruct noise_as_zero.
  - rewrite (Hmap _ _ _ _ _ _ (Hmap _ _ reflectivity_cell _ _ _ Hshape)). eexists; reflexivity.
  - rewrite (Hmap _ _ reflectivity_cell _ _ _ Hshape). eexists; reflexivity.
Qed.

(** C4. In a decoded grid, every cell [(i, j)] comes from the cell
    [(i, j)] of the flipped raw array, and: the mask is 1 when the raw
    value is not equal (IEEE equality, no tolerance) to -9999000.0 and 0
    when it is; a mask of 0 goes with a not-a-number reflectivity; without
    noise flooring a valid value is kept; with noise flooring a valid
    negative value becomes exactly 0, a valid value that is not negative is
    kept, and no reflectivity is negative. *)
Theorem decoded_grid_cells (hdf : h5file) (noise_as_zero : bool) (ds : Dataset)
    (i j : nat) (m : Z) :
  odim_hdf5_to_dataset hdf noise_as_zero = Ok ds ->
  cell (mask ds) i j = Some m ->
  exists raw r,
    cell (rev (data hdf)) i j = Some raw /\
    cell (reflectivity ds) i j = Some r /\
    (m = 1%Z /\ (raw =? (-9999000.0))%float = false
     \/ m = 0%Z /\ (raw =? (-9999000.0))%float = true) /\
    (m = 0%Z -> PrimFloat.is_nan r = true) /\
    (m = 1%Z -> noise_as_zero = false -> r = raw) /\
    (m = 1%Z -> noise_as_zero = true -> (raw <? 0)%float = true -> r = 0%float) /\
    (m = 1%Z -> noise_as_zero = true -> (raw <? 0)%float = false -> r = raw) /\
    (noise_as_zero = true -> (r <? 0)%float = false).
Proof.
  intros Hds Hm.
  destruct (odim_hdf5_to_dataset_variables _ _ _ Hds) as [Hmask Hrefl].
  rewrite Hmask, cell_map2d in Hm.
  destruct (cell (rev (data hdf)) i j) as [raw|] eqn:Hraw; [| discriminate].
  injection Hm as <-.
  exists raw.
  exists (if noise_as_zero then noise_floor_cell (reflectivity_cell raw)
          else reflectivity_cell raw).
  split; [reflexivity |]. split.
  { rewrite Hrefl. destruct noise_as_zero; rewrite ?cell_map2d, Hraw; reflexivity. }
  unfold mask_cell, reflectivity_cell, noise_floor_cell, FILL.
  destruct (raw =? -9999000.0)%float eqn:Hfill; simpl.
  - split; [right; split; reflexivity |].
    repeat split; try discriminate.
    + intros _. destruct noise_as_zero; reflexivity.
    + intros ->. reflexivity.
  - split; [left; split; reflexivity |].
    repeat split; try discriminate.
    + intros _ ->. reflexivity.
    + intros _ -> ->. reflexivity.
    + intros _ -> ->. reflexivity.
    + intros ->. destruct (raw <? 0)%float eqn:Hneg; [reflexivity | exact Hneg].
Qed.

(** Every cell of the flipped raw array has its cell in the decoded grid. *)
Lemma decoded_grid_covers (hdf : h5file) (noise_as_zero : bool) (ds : Dataset)
    (i j : nat) (raw : float) :
  odim_hdf5_to_dataset hdf noise_as_zero = Ok ds ->
  cell (rev (data hdf)) i j = Some raw ->
  cell (mask ds) i j = Some (mask_cell raw).
Proof.
  intros Hds Hraw.
  destruct (odim_hdf5_to_dataset_variables _ _ _ Hds) as [-> _].
  rewrite cell_map2d, Hraw. reflexivity.
Qed.
End DecodedGrid.

(** ** The raster export (formatting.py, [radar_timestep_ds_to_geotiff]) *)

Section RasterExport.
Import Formatting.
Context `{Pyproj} `{Rioxarray} `{Rasterio}.

Lemma io_seq_returned {event A B} (a : A) (f : A -> io event B) :
  io_seq ([], Ok a) f = f a.
Proof. unfold io_seq. destruct (f a); reflexivity. Qed.

(** What is left of the export once the array is ready. *)
Lemma io_seq_to_raster (r : result (gmap string Raster)) (output_path : string) :
  io_seq (lift r)
    (fun files' => io_seq (print (GeotiffCreated output_path)) (fun _ => io_pure files'))
  = match r with
    | Ok files' => ([GeotiffCreated output_path], Ok files')
    | Raise e => ([], Raise e)
    end.
Proof. destruct r; reflexivity. Qed.

(** C7. The raster the export hands to the writer, or to the clipping
    when a bounding box is given, has in each cell the reflectivity with
    not-a-number first replaced by 0 and then, where the mask is 0,
    overwritten by the missing value: a cell with mask 0 holds the missing
    value whatever the reflectivity was, a cell with another mask holds 0
    when the reflectivity was not-a-number and the reflectivity otherwise.
    Without a bounding box that raster is written whole at the output
    path; with one, what the clipping returns is.  The writer stores the
    raster encoded in float32, or raises. *)
Theorem export_replaces_in_two_steps (ds : Dataset) (output_path : string)
    (missing_value : float) (files : gmap string Raster) :
  exists raster,
    radar_timestep_ds_to_geotiff ds output_path missing_value None files
      = match rio_to_raster raster output_path files with
        | Ok files' => ([GeotiffCreated output_path], Ok files')
        | Raise e => ([], Raise e)
        end /\
    (forall box,
       radar_timestep_ds_to_geotiff ds output_path missing_value (Some box) files
       = let '(x_min, x_max, y_min, y_max) :=
           transform_bbox_to_raster_crs box (projdef ds) in
         match rio_clip_box x_min x_max y_min y_max raster with
         | Ok clipped =>
             match rio_to_raster clipped output_path files with
             | Ok files' => ([GeotiffCreated output_path], Ok files')
             | Raise e => ([], Raise e)
             end
         | Raise e => ([], Raise e)
         end) /\
    (forall written files',
       rio_to_raster written output_path files = Ok files' ->
       files' = <[output_path := float32_raster written]> files) /\
    band raster
      = zip2d (where_mask_cell missing_value) (mask ds)
          (map2d (fillna_cell 0%float) (reflectivity ds)) /\
    nodata raster = missing_value /\
    forall i j m r,
      cell (mask ds) i j = Some m ->
      cell (reflectivity ds) i j = Some r ->
      (m = 0%Z -> cell (band raster) i j = Some missing_value) /\
      (m <> 0%Z -> PrimFloat.is_nan r = true -> cell (band raster) i j = Some 0%float) /\
      (m <> 0%Z -> PrimFloat.is_nan r = false -> cell (band raster) i j = Some r).
Proof.
  eexists. split.
  { unfold radar_timestep_ds_to_geotiff. cbv zeta.
    unfold mbind, io_bind, mret, io_ret, io_pure. rewrite io_seq_returned.
    apply io_seq_to_raster. }
  split.
  { intros box. unfold radar_timestep_ds_to_geotiff. cbv zeta.
    destruct (transform_bbox_to_raster_crs box (projdef ds)) as [[[x_min x_max] y_min] y_max].
    unfold mbind, io_bind, mret, io_ret.
    destruct (rio_clip_box _ _ _ _ _) as [clipped|e]; [| reflexivity].
    unfold lift at 1. rewrite io_seq_returned. apply io_seq_to_raster. }
  split.
  { intros written files'. unfold rio_to_raster.
    destruct (to_raster_raises output_path written); [discriminate |].
    intros [= <-]. reflexivity. }
  cbn [band nodata].
  split; [reflexivity |]. split; [reflexivity |].
  intros i j m r Hm Hr.
  rewrite cell_zip2d, cell_map2d, Hm, Hr. simpl.
  unfold where_mask_cell, fillna_cell.
  repeat split.
  - intros ->. reflexivity.
  - intros Hne ->. apply Z.eqb_neq in Hne. rewrite Hne. reflexivity.
  - intros Hne ->. apply Z.eqb_neq in Hne. rewrite Hne. reflexivity.
Qed.

(** The order of the two steps matters when the missing value is itself
    not-a-number: masking first and filling afterwards would turn a cell
    without data into 0. *)
Lemma replacement_order_matters :
  where_mask_cell nan 0 (fillna_cell 0%float 5%float) = nan /\
  fillna_cell 0%float (where_mask_cell nan 0 5%float) = 0%float.
Proof. split; reflexivity. Qed.
End RasterExport.

(** ** The archive decoder (formatting.py, [radar_tar_to_dataset]) *)

Section ArchiveDecoder.
Import Formatting.
Context `{Strptime} `{Pyproj}.

Lemma outcome_io_seq {event A B} (m : io event A) (f : A -> io event B) :
  outcome (io_seq m f) =
  match outcome m with
  | Ok a => outcome (f a)
  | Raise e => Raise e
  end.
Proof.
  destruct m as [out [a|e]]; simpl; [| reflexivity].
  destruct (f a); reflexivity.
Qed.


Lemma loop_cons (timestep : Z) (member : TarInfo) (rest : list TarInfo)
    (datasets : list (datetime64 * Dataset)) :
  radar_tar_to_dataset_loop timestep (member :: rest) datasets =
  io_seq (radar_tar_to_dataset_member timestep member)
    (fun r => match r with
              | None => radar_tar_to_dataset_loop timestep rest datasets
              | Some ds => radar_tar_to_dataset_loop timestep rest (datasets ++ [ds])
              end).
Proof. reflexivity. Qed.

(** When no member raises, the loop returns the grids of the members it
    decodes, in the order of the archive. *)
Lemma loop_completes (timestep : Z) (tar : list TarInfo) :
  forall datasets,
    (forall member, In member tar ->
       is_ok (outcome (radar_tar_to_dataset_member timestep member)) = true) ->
    outcome (radar_tar_to_dataset_loop timestep tar datasets)
      = Ok (datasets ++ decoded_grids timestep tar).
Proof.
  induction tar as [|member rest IH]; intros datasets Hok.
  - simpl. rewrite app_nil_r. reflexivity.
  - rewrite loop_cons, outcome_io_seq.
    pose proof (Hok member (or_introl eq_refl)) as Hm.
    assert (Hrest : forall m, In m rest ->
              is_ok (outcome (radar_tar_to_dataset_member timestep m)) = true)
      by (intros m Hin; apply Hok; right; exact Hin).
    unfold decoded_grids. simpl. fold (decoded_grids timestep rest).
    destruct (outcome (radar_tar_to_dataset_member timestep member)) as [[d|]|e];
      [| | discriminate].
    + rewrite IH by exact Hrest. rewrite <- app_assoc. reflexivity.
    + rewrite IH by exact Hrest. reflexivity.
Qed.

(** The first member that raises ends the loop with its exception. *)
Lemma loop_aborts (timestep : Z) (before : list TarInfo) (member : TarInfo)
    (after : list TarInfo) (e : exn) :
  forall datasets,
    (forall m, In m before ->
       is_ok (outcome (radar_tar_to_dataset_member timestep m)) = true) ->
    outcome (radar_tar_to_dataset_member timestep member) = Raise e ->
    outcome (radar_tar_to_dataset_loop timestep (before ++ member :: after) datasets)
      = Raise e.
Proof.
  induction before as [|m before IH]; intros datasets Hok Hraise.
  - simpl app. rewrite loop_cons, outcome_io_seq, Hraise. reflexivity.
  - simpl app. rewrite loop_cons, outcome_io_seq.
    pose proof (Hok m (or_introl eq_refl)) as Hm.
    assert (Hrest : forall m', In m' before ->
              is_ok (outcome (radar_tar_to_dataset_member timestep m')) = true)
      by (intros m' Hin; apply Hok; right; exact Hin).
    destruct (outcome (radar_tar_to_dataset_member timestep m)) as [[d|]|e'];
      [| | discriminate]; apply IH; assumption.
Qed.

(** A list of members either has none that raises, or a first one. *)
Lemma first_raise (timestep : Z) (tar : list TarInfo) :
  (forall member, In member tar ->
     is_ok (outcome (radar_tar_to_dataset_member timestep member)) = true)
  \/ exists before member after e,
       tar = before ++ member :: after /\
       (forall m, In m before ->
          is_ok (outcome (radar_tar_to_dataset_member timestep m)) = true) /\
       outcome (radar_tar_to_dataset_member timestep member) = Raise e.
Proof.
  induction tar as [|member rest IH].
  - left. intros m [].
  - destruct (outcome (radar_tar_to_dataset_member timestep member)) as [r|e] eqn:Hm.
    + destruct IH as [Hall | (before & m & after & e & -> & Hbefore & Hraise)].
      * left. intros m [<- | Hin]; [rewrite Hm; reflexivity | apply Hall, Hin].
      * right. exists (member :: before), m, after, e.
        split; [reflexivity |]. split; [| exact Hraise].
        intros m' [<- | Hin]; [rewrite Hm; reflexivity | apply Hbefore, Hin].
    + right. exists [], member, rest, e.
      split; [reflexivity |]. split; [intros m [] | exact Hm].
Qed.

(** The loop returns exactly when no member raises. *)
Lemma loop_returns (timestep : Z) (tar : list TarInfo) (datasets : list (datetime64 * Dataset)) :
  outcome (radar_tar_to_dataset_loop timestep tar []) = Ok datasets ->
  (forall member, In member tar ->
     is_ok (outcome (radar_tar_to_dataset_member timestep member)) = true)
  /\ datasets = decoded_grids timestep tar.
Proof.
  intros Hloop.
  destruct (first_raise timestep tar)
    as [Hall | (before & m & after & e & -> & Hbefore & Hraise)].
  - split; [exact Hall |].
    rewrite (loop_completes _ _ [] Hall) in Hloop. injection Hloop as <-. reflexivity.
  - rewrite (loop_aborts _ _ _ _ _ [] Hbefore Hraise) in Hloop. discriminate.
Qed.
End ArchiveDecoder.

(** ** Sorting along the time dimension *)

Section SortByTime.
Import Formatting.

Lemma sortby_insert_permutation (d : datetime64 * Dataset) (series : TimeSeries) :
  Permutation (d :: series) (sortby_insert d series).
Proof.
  induction series as [|d' rest IH]; simpl.
  - apply Permutation_refl.
  - destruct (fst d <=? fst d')%Z.
    + apply Permutation_refl.
    + eapply perm_trans; [apply perm_swap |]. apply perm_skip, IH.
Qed.

Lemma sortby_time_permutation (series : TimeSeries) :
  Permutation series (sortby_time series).
Proof.
  induction series as [|d rest IH]; simpl.
  - apply perm_nil.
  - eapply perm_trans; [apply perm_skip, IH |]. apply sortby_insert_permutation.
Qed.

Lemma sortby_insert_sorted (d : datetime64 * Dataset) (series : TimeSeries) :
  Sorted Z.le (map fst series) -> Sorted Z.le (map fst (sortby_insert d series)).
Proof.
  induction series as [|d' rest IH]; simpl; intros Hs.
  - repeat constructor.
  - destruct (Z.leb_spec (fst d) (fst d')) as [Hle | Hgt]; simpl.
    + constructor; [exact Hs |]. constructor. exact Hle.
    + inversion Hs as [| ? ? Hrest Hhd]; subst.
      constructor; [apply IH, Hrest |].
      destruct rest as [|d'' rest']; simpl.
      * constructor. lia.
      * destruct (Z.leb_spec (fst d) (fst d'')); simpl; constructor.
        -- lia.
        -- inversion Hhd; subst. assumption.
Qed.

Lemma sortby_time_sorted (series : TimeSeries) :
  Sorted Z.le (map fst (sortby_time series)).
Proof.
  induction series as [|d rest IH]; simpl.
  - constructor.
  - apply sortby_insert_sorted, IH.
Qed.

Lemma at_time_cons (t : datetime64) (d : datetime64 * Dataset) (series : TimeSeries) :
  at_time t (d :: series) =
  if (fst d =? t)%Z then d :: at_time t series else at_time t series.
Proof. reflexivity. Qed.

Lemma at_time_sortby_insert (t : datetime64) (d : datetime64 * Dataset) (series : TimeSeries) :
  at_time t (sortby_insert d series) = at_time t (d :: series).
Proof.
  induction series as [|d' rest IH]; [reflexivity |].
  simpl sortby_insert.
  destruct (Z.leb_spec (fst d) (fst d')) as [Hle | Hgt]; [reflexivity |].
  rewrite (at_time_cons t d'), IH, !at_time_cons.
  destruct (Z.eqb_spec (fst d) t), (Z.eqb_spec (fst d') t); try reflexivity. lia.
Qed.

(** The sort is stable: grids of one instant keep their order. *)
Lemma at_time_sortby_time (t : datetime64) (series : TimeSeries) :
  at_time t (sortby_time series) = at_time t series.
Proof.
  induction series as [|d rest IH]; [reflexivity |].
  simpl sortby_time. rewrite at_time_sortby_insert, !at_time_cons, IH. reflexivity.
Qed.

Lemma xr_concat_returns (datasets : list (datetime64 * Dataset)) (series : TimeSeries) :
  xr_concat datasets = Ok series ->
  series = under_first_attrs datasets /\ datasets <> [].
Proof.
  unfold xr_concat. destruct datasets as [|[t d0] rest]; [discriminate |].
  destruct (forallb _ _); [| discriminate].
  intros [= <-]. split; [reflexivity | discriminate].
Qed.
End SortByTime.

Section DecodedSeries.
Import Formatting.
Context `{Strptime} `{Pyproj}.

Lemma radar_tar_to_dataset_outcome (tar : list TarInfo) (timestep : Z) :
  outcome (radar_tar_to_dataset tar timestep) =
  match outcome (radar_tar_to_dataset_loop timestep tar []) with
  | Ok [] => Raise NO_VALID_HDF5
  | Ok datasets =>
      match xr_concat datasets with
      | Ok ds_all => Ok (sortby_time ds_all)
      | Raise e => Raise e
      end
  | Raise e => Raise e
  end.
Proof.
  unfold radar_tar_to_dataset, mbind, io_bind.
  rewrite outcome_io_seq.
  destruct (outcome (radar_tar_to_dataset_loop timestep tar [])) as [[|d ds]|e];
    try reflexivity.
  destruct (xr_concat (d :: ds)); reflexivity.
Qed.

(** C3, as the code has it. The series a decoding returns is sorted by
    ascending time, ties allowed, and holds one grid for each member the
    loop decoded, no more and no fewer: it is a permutation of those
    grids, each with its variables and coordinates and all under the
    attributes of the first decoded, and the grids of one instant keep
    the order of the archive.  Two members of one instant give two
    entries. *)
Theorem decoded_series_sorted (tar : list TarInfo) (timestep : Z)
    (out : list event) (series : TimeSeries) :
  radar_tar_to_dataset tar timestep = (out, Ok series) ->
  Sorted Z.le (map fst series) /\
  Permutation (under_first_attrs (decoded_grids timestep tar)) series /\
  length series = length (decoded_grids timestep tar) /\
  (forall t, at_time t series = at_time t (under_first_attrs (decoded_grids timestep tar))) /\
  (forall t d, In (t, d) series ->
     exists d', In (t, d') (decoded_grids timestep tar) /\
       reflectivity d = reflectivity d' /\ mask d = mask d' /\
       lat d = lat d' /\ lon d = lon d').
Proof.
  intros Hrun.
  assert (Hout : outcome (radar_tar_to_dataset tar timestep) = Ok series)
    by (rewrite Hrun; reflexivity).
  rewrite radar_tar_to_dataset_outcome in Hout.
  destruct (outcome (radar_tar_to_dataset_loop timestep tar [])) as [datasets|e] eqn:Hloop;
    [| discriminate].
  apply loop_returns in Hloop as [_ ->].
  destruct (decoded_grids timestep tar) as [|d ds] eqn:Hgrids; [discriminate |].
  destruct (xr_concat (d :: ds)) as [ds_all|e] eqn:Hconcat; [| discriminate].
  injection Hout as <-.
  apply xr_concat_returns in Hconcat as [-> _].
  split; [apply sortby_time_sorted |].
  split; [apply sortby_time_permutation |].
  split.
  { rewrite <- (Permutation_length (sortby_time_permutation _)).
    destruct d as [t0 d0]. cbn [under_first_attrs]. apply length_map. }
  split; [intros t; apply at_time_sortby_time |].
  intros t d' Hin.
  apply (Permutation_in _ (Permutation_sym (sortby_time_permutation _))) in Hin.
  destruct d as [t0 d0]. cbn [under_first_attrs] in Hin.
  apply in_map_iff in Hin as ([t1 d1] & [= <- <-] & Hin).
  exists d1. split; [exact Hin |]. repeat split.
Qed.
End DecodedSeries.

(** ** The members of the archive *)

Section Members.
Import Formatting.
Context `{Strptime} `{Pyproj} `{Rioxarray} `{Rasterio}.

Lemma io_seq_lift_ok {event A B} (a : A) (f : A -> io event B) :
  io_seq (lift (Ok a)) f = f a.
Proof. unfold io_seq, lift. destruct (f a); reflexivity. Qed.

Lemma io_seq_print {event B} (ev : event) (f : unit -> io event B) :
  io_seq (print ev) f = (ev :: output (f tt), outcome (f tt)).
Proof. unfold io_seq, print. destruct (f tt); reflexivity. Qed.

(** What is left of a turn of the loop of [radar_tar_to_dataset] once
    the name has the suffix and a timestamp and the step is not zero. *)
Lemma to_dataset_member_filtered (member : TarInfo) (ts : datetime) (timestep : Z) :
  endswith (name member) ".hdf5" = true ->
  member_timestamp (name member) = Ok ts ->
  timestep <> 0%Z ->
  radar_tar_to_dataset_member timestep member =
  if ((hour ts * 60 + minute ts) mod timestep =? 0)%Z then
    io_seq (print (Reading (name member) ts))
      (fun _ => match extractfile member with
                | None => io_pure None
                | Some f =>
                    io_seq (lift (h5py_File f)) (fun hdf =>
                    io_seq (lift (odim_hdf5_to_dataset hdf true)) (fun ds =>
                    io_pure (Some (np_datetime64 ts, ds))))
                end)
  else ([], Ok None).
Proof.
  intros Hsuffix Hts Hstep.
  unfold radar_tar_to_dataset_member. rewrite Hsuffix, Hts. simpl negb. cbv iota.
  unfold int_mod. destruct (Z.eqb_spec timestep 0) as [|_]; [contradiction |].
  unfold mbind, io_bind, mret, io_ret. rewrite io_seq_lift_ok.
  destruct (_ =? 0)%Z; reflexivity.
Qed.

Lemma to_geotiff_member_filtered (output_dir : string)
    (bbox : option (float * float * float * float))
    (files : gmap string Raster) (member : TarInfo) (ts : datetime) (timestep : Z) :
  endswith (name member) ".hdf5" = true ->
  member_timestamp (name member) = Ok ts ->
  timestep <> 0%Z ->
  exists rest,
    radar_tar_to_geotiff_member output_dir bbox timestep member files =
    if ((hour ts * 60 + minute ts) mod timestep =? 0)%Z then
      io_seq (print (Reading (name member) ts)) rest
    else ([], Ok (files, false)).
Proof.
  intros Hsuffix Hts Hstep.
  unfold radar_tar_to_geotiff_member. rewrite Hsuffix, Hts. simpl negb. cbv iota.
  unfold int_mod. destruct (Z.eqb_spec timestep 0) as [|_]; [contradiction |].
  unfold mbind, io_bind, mret, io_ret. rewrite io_seq_lift_ok.
  eexists. destruct (_ =? 0)%Z; reflexivity.
Qed.

(** C1. For a member whose name ends in [.hdf5] and carries a timestamp
    that parses, and a step [T] other than zero, both archive functions
    go on to read the member (which they announce) if and only if
    [(hour * 60 + minute) mod T = 0], hour and minute being those of the
    parsed timestamp.  A member off the step is passed over without a
    trace; a grid that is appended is tagged with the parsed timestamp
    itself, and a readable member on the step is appended. *)
Theorem time_step_filter (member : TarInfo) (ts : datetime) (timestep : Z)
    (output_dir : string) (bbox : option (float * float * float * float))
    (files : gmap string Raster) :
  endswith (name member) ".hdf5" = true ->
  member_timestamp (name member) = Ok ts ->
  timestep <> 0%Z ->
  let aligned := ((hour ts * 60 + minute ts) mod timestep = 0)%Z in
  let to_dataset := radar_tar_to_dataset_member timestep member in
  let to_geotiff := radar_tar_to_geotiff_member output_dir bbox timestep member files in
  (In (Reading (name member) ts) (output to_dataset) <-> aligned) /\
  (In (Reading (name member) ts) (output to_geotiff) <-> aligned) /\
  (~ aligned -> to_dataset = ([], Ok None) /\ to_geotiff = ([], Ok (files, false))) /\
  (forall t ds, outcome to_dataset = Ok (Some (t, ds)) ->
     aligned /\ t = np_datetime64 ts) /\
  (aligned ->
   forall h ds,
     extractfile member = Some (Hdf5 h) ->
     odim_hdf5_to_dataset h true = Ok ds ->
     to_dataset = ([Reading (name member) ts], Ok (Some (np_datetime64 ts, ds)))).
Proof.
  intros Hsuffix Hts Hstep aligned to_dataset to_geotiff.
  subst aligned to_dataset to_geotiff.
  destruct (to_geotiff_member_filtered output_dir bbox files _ _ _ Hsuffix Hts Hstep)
    as [rest ->].
  rewrite (to_dataset_member_filtered _ _ _ Hsuffix Hts Hstep).
  destruct (Z.eqb_spec ((hour ts * 60 + minute ts) mod timestep) 0) as [Hal | Hnal].
  - rewrite !io_seq_print.
    split; [split; [intros _; exact Hal | intros _; left; reflexivity] |].
    split; [split; [intros _; exact Hal | intros _; left; reflexivity] |].
    split; [intros Hn; contradiction |].
    split.
    + intros t ds. unfold outcome at 1. simpl snd.
      destruct (extractfile member) as [f|]; [| discriminate].
      destruct (h5py_File f) as [hdf|e]; [| discriminate].
      destruct (odim_hdf5_to_dataset hdf true) as [ds'|e]; [| discriminate].
      intros [= <- _]. split; [exact Hal | reflexivity].
    + intros _ h ds -> Hds. simpl h5py_File. rewrite io_seq_lift_ok, Hds, io_seq_lift_ok.
      reflexivity.
  - split; [split; [intros [] | intros Hal; contradiction] |].
    split; [split; [intros [] | intros Hal; contradiction] |].
    split; [intros _; split; reflexivity |].
    split; [intros t ds; discriminate | intros Hal; contradiction].
Qed.
End Members.

(** ** When the archive decoder raises *)

Section DecoderErrors.
Import Formatting.
Context `{Strptime} `{Pyproj}.

Lemma odim_hdf5_to_dataset_raises (hdf : h5file) (noise_as_zero : bool) (e : exn) :
  odim_hdf5_to_dataset hdf noise_as_zero = Raise e ->
  e = ValueError "conflicting sizes for dimension".
Proof.
  unfold odim_hdf5_to_dataset, xr_Dataset.
  destruct (proj_forward _ _ _) as [LL_x LL_y].
  destruct (meshgrid _ _) as [X Y].
  destruct (_ && _ && _); [discriminate |].
  intros [= <-]. reflexivity.
Qed.



(** A member on the time step whose bytes are not an HDF5 file raises. *)
Lemma damaged_member_raises (timestep : Z) (member : TarInfo) (ts : datetime)
    (bytes : list Byte.byte) :
  endswith (name member) ".hdf5" = true ->
  member_timestamp (name member) = Ok ts ->
  timestep <> 0%Z ->
  ((hour ts * 60 + minute ts) mod timestep = 0)%Z ->
  extractfile member = Some (NotHdf5 bytes) ->
  outcome (radar_tar_to_dataset_member timestep member) = Raise OSError.
Proof.
  intros Hsuffix Hts Hstep Hal Hfile.
  rewrite (to_dataset_member_filtered _ _ _ Hsuffix Hts Hstep), Hal, Hfile.
  reflexivity.
Qed.





End DecoderErrors.

(** ** Indices of the selected cells *)

Section Where.
Import Diagnostics.

Lemma In_combine_seq {A} (l : list A) (s i : nat) (x : A) :
  In (i, x) (combine (seq s (length l)) l) <-> (s <= i)%nat /\ nth_error l (i - s) = Some x.
Proof.
  revert s. induction l as [|a l IH]; intros s; simpl.
  - split; [intros [] | intros [_ Hnth]; destruct (i - s)%nat; discriminate].
  - split.
    + intros [[= <- <-] | Hin].
      * split; [lia |]. rewrite Nat.sub_diag. reflexivity.
      * apply IH in Hin as [Hle Hnth]. split; [lia |].
        replace (i - s)%nat with (S (i - S s)) by lia. exact Hnth.
    + intros [Hle Hnth]. destruct (Nat.eq_dec i s) as [-> | Hne].
      * left. rewrite Nat.sub_diag in Hnth. injection Hnth as ->. reflexivity.
      * right. apply IH. split; [lia |].
        replace (i - s)%nat with (S (i - S s)) in Hnth by lia. exact Hnth.
Qed.

Lemma In_true_columns (row : list bool) (j : nat) :
  In j (true_columns row) <-> nth_error row j = Some true.
Proof.
  unfold true_columns. rewrite filter_In, in_seq. split.
  - intros [[_ Hlt] Hnth]. rewrite <- Hnth. apply nth_error_nth'. lia.
  - intros Hnth. split.
    + split; [lia |]. simpl. apply nth_error_Some. rewrite Hnth. discriminate.
    + apply nth_error_nth. exact Hnth.
Qed.

Lemma In_where_pairs (m : arr2 bool) (i j : nat) :
  In (i, j)
     (flat_map (fun ir => map (fun j => (fst ir, j)) (true_columns (snd ir)))
               (combine (seq 0 (length m)) m))
  <-> cell m i j = Some true.
Proof.
  rewrite in_flat_map. unfold cell. split.
  - intros ([i' row] & Hin & Hpair). simpl in Hpair.
    apply in_map_iff in Hpair as (j' & [= <- <-] & Hj).
    apply In_combine_seq in Hin as [_ Hrow]. rewrite Nat.sub_0_r in Hrow.
    rewrite Hrow. apply In_true_columns, Hj.
  - destruct (nth_error m i) as [row|] eqn:Hrow; [| discriminate].
    intros Hj. exists (i, row). split.
    + apply In_combine_seq. rewrite Nat.sub_0_r. split; [lia | exact Hrow].
    + simpl. apply in_map, In_true_columns, Hj.
Qed.

Lemma In_np_where_rows (m : arr2 bool) (i : nat) :
  In i (fst (np_where m)) <-> exists j, cell m i j = Some true.
Proof.
  unfold np_where. simpl fst. rewrite in_map_iff. split.
  - intros ([i' j] & <- & Hin). exists j. apply In_where_pairs, Hin.
  - intros [j Hj]. exists (i, j). split; [reflexivity | apply In_where_pairs, Hj].
Qed.

Lemma In_np_where_columns (m : arr2 bool) (j : nat) :
  In j (snd (np_where m)) <-> exists i, cell m i j = Some true.
Proof.
  unfold np_where. simpl snd. rewrite in_map_iff. split.
  - intros ([i j'] & <- & Hin). exists i. apply In_where_pairs, Hin.
  - intros [i Hi]. exists (i, j). split; [reflexivity | apply In_where_pairs, Hi].
Qed.

Lemma np_min_least (a : list nat) :
  a <> [] -> In (np_min a) a /\ forall x, In x a -> (np_min a <= x)%nat.
Proof.
  destruct a as [|x xs]; [congruence | intros _]. simpl np_min.
  induction xs as [|y ys [IHin IHle]]; simpl.
  - split; [left; reflexivity | intros z [<- | []]; lia].
  - split.
    + destruct (Nat.min_spec y (fold_right Nat.min x ys)) as [[_ ->] | [_ ->]].
      * right. left. reflexivity.
      * destruct IHin as [Hx | Hin]; [left; exact Hx | right; right; exact Hin].
    + intros z [<- | [<- | Hin]].
      * specialize (IHle x (or_introl eq_refl)). lia.
      * lia.
      * specialize (IHle z (or_intror Hin)). lia.
Qed.

Lemma np_max_greatest (a : list nat) :
  a <> [] -> In (np_max a) a /\ forall x, In x a -> (x <= np_max a)%nat.
Proof.
  destruct a as [|x xs]; [congruence | intros _]. simpl np_max.
  induction xs as [|y ys [IHin IHle]]; simpl.
  - split; [left; reflexivity | intros z [<- | []]; lia].
  - split.
    + destruct (Nat.max_spec y (fold_right Nat.max x ys)) as [[_ ->] | [_ ->]].
      * destruct IHin as [Hx | Hin]; [left; exact Hx | right; right; exact Hin].
      * right. left. reflexivity.
    + intros z [<- | [<- | Hin]].
      * specialize (IHle x (or_introl eq_refl)). lia.
      * lia.
      * specialize (IHle z (or_intror Hin)). lia.
Qed.
End Where.

(** ** Cone extraction (diagnostics.py, [extract_reflectivity_cone]) *)

Section Cone.
Import Formatting Diagnostics.
Context `{Geod} `{Cosine}.

Lemma in_window_mask (ds : Dataset) (lat0 lon0 R : float) (i j : nat) :
  in_window ds lat0 lon0 R i j <-> cell (mask_bbox ds lat0 lon0 R) i j = Some true.
Proof.
  unfold in_window, mask_bbox. rewrite cell_zip2d. split.
  - intros (la & lo & -> & -> & [H1 H2] & [H3 H4]).
    unfold in_bbox, cone_bbox. cbv zeta. rewrite H1, H2, H3, H4. reflexivity.
  - destruct (cell (lat ds) i j) as [la|]; [| discriminate].
    destruct (cell (lon ds) i j) as [lo|]; [| discriminate].
    intros [= Hin]. exists la, lo.
    unfold in_bbox, cone_bbox in Hin. cbv zeta in Hin.
    rewrite !andb_true_iff in Hin.
    destruct Hin as [[[H1 H2] H3] H4]. auto.
Qed.

Lemma extract_reflectivity_cone_unfold (ds : Dataset) (lat0 lon0 heading O R : float) :
  let iy := fst (np_where (mask_bbox ds lat0 lon0 R)) in
  let ix := snd (np_where (mask_bbox ds lat0 lon0 R)) in
  let crop {A} (a : arr2 A) :=
    slice2d (np_min iy) (np_max iy + 1) (np_min ix) (np_max ix + 1) a in
  extract_reflectivity_cone ds lat0 lon0 heading O R =
  if (length iy =? 0)%nat then Raise BBOX_EMPTY
  else Ok {| values := zip2d where_cell (crop (reflectivity ds))
                         (zip2d (in_cone lat0 lon0 heading O (R * 1000))
                                (crop (lon ds)) (crop (lat ds)));
             da_lat := crop (lat ds);
             da_lon := crop (lon ds) |}.
Proof.
  unfold extract_reflectivity_cone, mask_bbox.
  destruct (np_where _) as [iy ix]. reflexivity.
Qed.

(** Outside of the rows and columns cut, a cut array has no cell. *)
Lemma cell_slice2d_outside {A} (y0 y1 x0 x1 : nat) (a : arr2 A) (i j : nat) :
  (y1 - y0 <= i)%nat \/ (x1 - x0 <= j)%nat ->
  cell (slice2d y0 y1 x0 x1 a) i j = None.
Proof.
  intros Hout. unfold cell, slice2d. rewrite nth_error_map.
  destruct (nth_error (slice y0 y1 a) i) as [row|] eqn:Hrow; [| reflexivity].
  cbn [option_map]. destruct Hout as [Hi | Hj].
  - exfalso. assert (nth_error (slice y0 y1 a) i = None) as Hnone.
    { apply nth_error_None. unfold slice. rewrite length_firstn. lia. }
    congruence.
  - apply nth_error_None. unfold slice. rewrite length_firstn. lia.
Qed.

(** C9. The extraction raises its error, "the box covers no point of the
    grid", exactly when no cell of the grid lies in the window of
    [R / 111] degrees of latitude and [R / (111 cos lat0)] degrees of
    longitude around the apex, the bounds and the comparisons being those
    of binary64.  When some cell lies in the window, the extraction
    returns a grid cut to the rows [y_min .. y_max] and the columns
    [x_min .. x_max] that enclose the cells of the window and no less
    (each of the four bounds is reached by a cell of the window): the
    cell [(i, j)] of the grid returned has the coordinates of the cell
    [(y_min + i, x_min + j)] of the grid given, and its reflectivity when
    the cone, applied to those coordinates, keeps it; past the last row
    or column cut there is no cell. *)
Theorem cone_window (ds : Dataset) (lat0 lon0 heading O R : float) :
  (extract_reflectivity_cone ds lat0 lon0 heading O R = Raise BBOX_EMPTY
   <-> forall i j, ~ in_window ds lat0 lon0 R i j) /\
  ((exists i j, in_window ds lat0 lon0 R i j) ->
   exists cone y_min y_max x_min x_max,
     extract_reflectivity_cone ds lat0 lon0 heading O R = Ok cone /\
     da_lat cone = slice2d y_min (y_max + 1) x_min (x_max + 1) (lat ds) /\
     da_lon cone = slice2d y_min (y_max + 1) x_min (x_max + 1) (lon ds) /\
     values cone =
       zip2d where_cell
         (slice2d y_min (y_max + 1) x_min (x_max + 1) (reflectivity ds))
         (zip2d (in_cone lat0 lon0 heading O (R * 1000)) (da_lon cone) (da_lat cone)) /\
     (forall i j, in_window ds lat0 lon0 R i j ->
        (y_min <= i <= y_max)%nat /\ (x_min <= j <= x_max)%nat) /\
     (exists j, in_window ds lat0 lon0 R y_min j) /\
     (exists j, in_window ds lat0 lon0 R y_max j) /\
     (exists i, in_window ds lat0 lon0 R i x_min) /\
     (exists i, in_window ds lat0 lon0 R i x_max) /\
     (forall i j, (i <= y_max - y_min)%nat -> (j <= x_max - x_min)%nat ->
        cell (da_lat cone) i j = cell (lat ds) (y_min + i) (x_min + j) /\
        cell (da_lon cone) i j = cell (lon ds) (y_min + i) (x_min + j) /\
        cell (values cone) i j =
          match cell (reflectivity ds) (y_min + i) (x_min + j),
                cell (lon ds) (y_min + i) (x_min + j),
                cell (lat ds) (y_min + i) (x_min + j) with
          | Some r, Some lo, Some la =>
              Some (where_cell r (in_cone lat0 lon0 heading O (R * 1000) lo la))
          | _, _, _ => None
          end) /\
     (forall i j, (y_max - y_min < i)%nat \/ (x_max - x_min < j)%nat ->
        cell (da_lat cone) i j = None /\ cell (da_lon cone) i j = None /\
        cell (values cone) i j = None)).
Proof.
  pose proof (extract_reflectivity_cone_unfold ds lat0 lon0 heading O R) as Hdef.
  cbv zeta in Hdef. rewrite Hdef. clear Hdef.
  set (m := mask_bbox ds lat0 lon0 R).
  assert (Hrows : forall i, In i (fst (np_where m)) <-> exists j, in_window ds lat0 lon0 R i j).
  { intros i. rewrite In_np_where_rows. split; intros [j Hj]; exists j; apply in_window_mask, Hj. }
  assert (Hcols : forall j, In j (snd (np_where m)) <-> exists i, in_window ds lat0 lon0 R i j).
  { intros j. rewrite In_np_where_columns. split; intros [i Hi]; exists i; apply in_window_mask, Hi. }
  split.
  - destruct (fst (np_where m)) as [|y ys] eqn:Hiy; simpl.
    + split; [| reflexivity]. intros _ i j Hin.
      apply (proj2 (Hrows i)); exists j; exact Hin.
    + split; [discriminate |]. intros Hnone. exfalso.
      destruct (proj1 (Hrows y) (or_introl eq_refl)) as [j Hj]. exact (Hnone y j Hj).
  - intros (i0 & j0 & Hin0).
    assert (Hiy : fst (np_where m) <> []).
    { intros Hnil. pose proof (proj2 (Hrows i0) (ex_intro _ j0 Hin0)) as Hin.
      rewrite Hnil in Hin. destruct Hin. }
    assert (Hix : snd (np_where m) <> []).
    { intros Hnil. pose proof (proj2 (Hcols j0) (ex_intro _ i0 Hin0)) as Hin.
      rewrite Hnil in Hin. destruct Hin. }
    destruct (np_min_least _ Hiy) as [Hymin_in Hymin].
    destruct (np_max_greatest _ Hiy) as [Hymax_in Hymax].
    destruct (np_min_least _ Hix) as [Hxmin_in Hxmin].
    destruct (np_max_greatest _ Hix) as [Hxmax_in Hxmax].
    assert (Hlen : (length (fst (np_where m)) =? 0)%nat = false)
      by (destruct (fst (np_where m)); [congruence | reflexivity]).
    rewrite Hlen.
    eexists. exists (np_min (fst (np_where m))), (np_max (fst (np_where m))).
    exists (np_min (snd (np_where m))), (np_max (snd (np_where m))).
    split; [reflexivity |].
    cbn [da_lat da_lon values]. repeat (split; [reflexivity |]).
    split.
    { intros i j Hin.
      pose proof (Hymin i (proj2 (Hrows i) (ex_intro _ j Hin))).
      pose proof (Hymax i (proj2 (Hrows i) (ex_intro _ j Hin))).
      pose proof (Hxmin j (proj2 (Hcols j) (ex_intro _ i Hin))).
      pose proof (Hxmax j (proj2 (Hcols j) (ex_intro _ i Hin))).
      lia. }
    split; [apply Hrows, Hymin_in |].
    split; [apply Hrows, Hymax_in |].
    split; [apply Hcols, Hxmin_in |].
    split; [apply Hcols, Hxmax_in |].
    pose proof (Hymin _ Hymax_in) as Hy. pose proof (Hxmin _ Hxmax_in) as Hx.
    split.
    + intros i j Hi Hj.
      rewrite !cell_zip2d, !cell_slice2d by lia.
      split; [reflexivity |]. split; [reflexivity |].
      destruct (cell (reflectivity ds) _ _) as [r|]; [| reflexivity].
      destruct (cell (lon ds) _ _) as [lo|]; [| reflexivity].
      destruct (cell (lat ds) _ _) as [la|]; reflexivity.
    + intros i j Hout.
      rewrite !cell_zip2d, !cell_slice2d_outside by lia.
      repeat split.
Qed.

End Cone.

(** ** Headings (diagnostics.py, [compute_heading]; bird_tracks.py) *)

Section Headings.
Import Diagnostics.
Context `{Geod}.

(** The azimuths computed from the shifted columns are those of the
    consecutive pairs of points. *)
Lemma geod_inv_arrays_pairs (df : DataFrame) :
  forall i p q,
    nth_error df i = Some p ->
    nth_error df (S i) = Some q ->
    nth_error (geod_inv_arrays (removelast (col_lon df)) (removelast (col_lat df))
                               (tl (col_lon df)) (tl (col_lat df))) i
    = Some (geod_inv (snd p) (fst p) (snd q) (fst q)).
Proof.
  induction df as [|a df IH]; intros i p q Hp Hq; [destruct i; discriminate |].
  destruct df as [|b df']; [destruct i; discriminate |].
  change (geod_inv_arrays _ _ _ _) with
    (geod_inv (snd a) (fst a) (snd b) (fst b)
     :: geod_inv_arrays (removelast (col_lon (b :: df'))) (removelast (col_lat (b :: df')))
                        (tl (col_lon (b :: df'))) (tl (col_lat (b :: df')))).
  destruct i as [|i].
  - injection Hp as <-. injection Hq as <-. reflexivity.
  - simpl. apply IH; assumption.
Qed.

Lemma geod_inv_arrays_length (df : DataFrame) :
  length (geod_inv_arrays (removelast (col_lon df)) (removelast (col_lat df))
                          (tl (col_lon df)) (tl (col_lat df)))
  = pred (length df).
Proof.
  induction df as [|a df IH]; [reflexivity |].
  destruct df as [|b df']; [reflexivity |].
  change (geod_inv_arrays _ _ _ _) with
    (geod_inv (snd a) (fst a) (snd b) (fst b)
     :: geod_inv_arrays (removelast (col_lon (b :: df'))) (removelast (col_lat (b :: df')))
                        (tl (col_lon (b :: df'))) (tl (col_lat (b :: df')))).
  cbn [length]. rewrite IH. reflexivity.
Qed.

(** C6, for an empty frame: the series of one missing value does not fit
    the empty index, and the call raises. *)
Theorem compute_heading_empty :
  compute_heading [] = Raise (ValueError "Length of values does not match length of index").
Proof. reflexivity. Qed.

(** For a frame of [n >= 1] points the call returns [n] entries: the
    first is missing, and entry [i + 1] is the azimuth from point [i] to
    point [i + 1] plus 360 modulo 360, in binary64. *)
Lemma compute_heading_nonempty (df : DataFrame) :
  df <> [] ->
  exists headings,
    compute_heading df = Ok headings /\
    length headings = length df /\
    nth_error headings 0 = Some None /\
    forall i p q,
      nth_error df i = Some p ->
      nth_error df (S i) = Some q ->
      let az := fst (fst (geod_inv (snd p) (fst p) (snd q) (fst q))) in
      nth_error headings (S i) = Some (Some (np_mod (az + 360) 360)).
Proof.
  intros Hne. unfold compute_heading, pd_Series.
  set (azs := geod_inv_arrays _ _ _ _).
  assert (Hlen : length (None :: map Some (map normalize_heading
                           (map (fun r => fst (fst r)) azs))) = length df).
  { simpl. rewrite !length_map. unfold azs. rewrite geod_inv_arrays_length.
    destruct df; [congruence | reflexivity]. }
  rewrite Hlen, Nat.eqb_refl.
  eexists. split; [reflexivity |]. split; [exact Hlen |]. split; [reflexivity |].
  intros i p q Hp Hq. cbv zeta.
  simpl. rewrite !nth_error_map. unfold azs.
  rewrite (geod_inv_arrays_pairs df i p q Hp Hq). reflexivity.
Qed.

(** An azimuth of 0 (due north) gives a heading of 0, an azimuth of 90
    (due east) a heading of 90, and a westward azimuth of -90 gives 270. *)
Lemma cardinal_headings :
  normalize_heading 0 = 0%float /\ normalize_heading 90 = 90%float
  /\ normalize_heading (-90) = 270%float.
Proof. repeat split; vm_compute; reflexivity. Qed.

(** C5. The property [data] calls the list [points] (and then the
    dictionary [as_dict]): for every track it raises [TypeError] instead
    of returning the table. *)
Theorem data_raises (self : BirdTracks.BirdTracks) :
  BirdTracks.data self = Raise (TypeError "object is not callable").
Proof. reflexivity. Qed.
End Headings.

(** ** The retry download (utils.py, [get_api_data]) *)

Section Download.
Import Utils.
Local Open Scope Z_scope.

Lemma writes_app (a b : list effect) : writes (a ++ b) = writes a ++ writes b.
Proof. apply flat_map_app. Qed.

Lemma In_attempts (max_retries k : Z) :
  In k (attempts max_retries) <-> 1 <= k <= max_retries.
Proof.
  unfold attempts. rewrite in_map_iff. split.
  - intros (n & <- & Hin). apply in_seq in Hin. lia.
  - intros Hk. exists (Z.to_nat k). split; [lia |]. apply in_seq. lia.
Qed.

(** What the loop does, whatever attempts remain: it writes nothing and
    leaves the files as they were, or it stops at an attempt that passed
    the status check, having written the body of that response, once, as
    its only write. *)
Lemma get_api_data_loop_writes (network : Z -> get_outcome) (output_path : string)
    (max_retries : Z) (stop_on_maxretry : bool) (remaining : list Z) (fs : files) :
  let '(effects, fs', r) :=
    get_api_data_loop network output_path max_retries stop_on_maxretry remaining fs in
  (writes effects = [] /\ fs' = fs /\ r <> Ok (Some output_path))
  \/ exists k response before,
       In k remaining /\
       network k = Returns response /\
       raise_for_status response = Ok tt /\
       effects = before ++ [Print (Downloading k max_retries); Get k;
                            WriteBytes output_path (content response);
                            Print (Saved output_path)] /\
       writes before = [] /\
       fs' = <[output_path := content response]> fs /\
       r = Ok (Some output_path).
Proof.
  induction remaining as [|attempt rest IH]; simpl.
  - left. repeat split. discriminate.
  - assert (Hfailed :
      (attempt =? max_retries) && stop_on_maxretry = false ->
      let '(effects, fs', r) :=
        (let '(later, fs', r) :=
           get_api_data_loop network output_path max_retries stop_on_maxretry rest fs in
         (([Print (Downloading attempt max_retries); Get attempt]
           ++ [Print (HttpError attempt max_retries)])
          ++ (if attempt =? max_retries then [Print GivingUp] else [])
          ++ (if attempt <? max_retries then [Print Waiting; Sleep 5] else [])
          ++ later, fs', r)) in
      (writes effects = [] /\ fs' = fs /\ r <> Ok (Some output_path))
      \/ exists k response before,
           (attempt = k \/ In k rest) /\
           network k = Returns response /\
           raise_for_status response = Ok tt /\
           effects = before ++ [Print (Downloading k max_retries); Get k;
                                WriteBytes output_path (content response);
                                Print (Saved output_path)] /\
           writes before = [] /\
           fs' = <[output_path := content response]> fs /\
           r = Ok (Some output_path)).
    { intros _.
      destruct (get_api_data_loop _ _ _ _ rest fs) as [[later fs'] r].
      destruct IH as [(Hw & Hfs & Hr)
                     | (k & resp & before & Hin & Hk & Hst & -> & Hb & Hfs & Hr)].
      - left. split; [| split; assumption].
        destruct (attempt =? max_retries), (attempt <? max_retries); simpl; exact Hw.
      - right. exists k, resp.
        exists ([Print (Downloading attempt max_retries); Get attempt;
                 Print (HttpError attempt max_retries)]
                ++ (if attempt =? max_retries then [Print GivingUp] else [])
                ++ (if attempt <? max_retries then [Print Waiting; Sleep 5] else [])
                ++ before).
        split; [right; exact Hin |]. split; [exact Hk |]. split; [exact Hst |].
        split; [| split; [| split; assumption]].
        + destruct (attempt =? max_retries), (attempt <? max_retries); reflexivity.
        + destruct (attempt =? max_retries), (attempt <? max_retries); simpl; exact Hb. }
    destruct (network attempt) as [response|] eqn:Hnet; simpl.
    + destruct (raise_for_status response) as [[]|e] eqn:Hstatus; simpl.
      * right. exists attempt, response, [].
        repeat split; try reflexivity; auto.
      * assert (e = RequestException) as ->.
        { unfold raise_for_status in Hstatus.
          destruct ((400 <=? status_code response) && (status_code response <? 600));
            [injection Hstatus as <-; reflexivity | discriminate]. }
        destruct ((attempt =? max_retries) && stop_on_maxretry).
        -- left. repeat split. discriminate.
        -- apply Hfailed. reflexivity.
    + destruct ((attempt =? max_retries) && stop_on_maxretry).
      * left. repeat split. discriminate.
      * apply Hfailed. reflexivity.
Qed.
End Download.

Section DownloadClaim.
Import Utils.
Local Open Scope Z_scope.

(** C10. A call writes to the output path at most once, and only the
    whole body of a response whose status check passed, as the last thing
    it does before reporting and returning the path: everything before
    that write, failed attempts included, writes nothing.  When every
    attempt fails, nothing is written and the files are what they were:
    the output file is absent if it was absent and unchanged if it
    existed. *)
Theorem download_writes_only_on_success (network : Z -> get_outcome) (output_path : string)
    (max_retries : Z) (stop_on_maxretry : bool) (fs : gmap string (list Byte.byte)) :
  let '(effects, fs', r) :=
    get_api_data network output_path max_retries stop_on_maxretry fs in
  ((writes effects = [] /\ fs' = fs /\ r <> Ok (Some output_path))
   \/ exists k response before,
        1 <= k <= max_retries /\
        network k = Returns response /\
        raise_for_status response = Ok tt /\
        effects = before ++ [Print (Downloading k max_retries); Get k;
                             WriteBytes output_path (content response);
                             Print (Saved output_path)] /\
        writes before = [] /\
        fs' = <[output_path := content response]> fs /\
        r = Ok (Some output_path))
  /\ ((forall k, 1 <= k <= max_retries -> succeeds (network k) = false) ->
      writes effects = [] /\ fs' = fs /\ fs' !! output_path = fs !! output_path).
Proof.
  unfold get_api_data.
  pose proof (get_api_data_loop_writes network output_path max_retries stop_on_maxretry
                (attempts max_retries) fs) as Hloop.
  destruct (get_api_data_loop _ _ _ _ _ fs) as [[effects fs'] r].
  destruct Hloop as [(Hw & Hfs & Hr)
                    | (k & response & before & Hin & Hk & Hst & He & Hb & Hfs & Hr)].
  - split; [left; auto |]. intros _. subst fs'. auto.
  - apply In_attempts in Hin. split.
    + right. exists k, response, before. auto 10.
    + intros Hfail. specialize (Hfail k Hin).
      unfold succeeds in Hfail. rewrite Hk, Hst in Hfail. discriminate.
Qed.
End DownloadClaim.

(** * The definitions on concrete inputs *)

Section Runs.
Import Formatting Diagnostics Utils Samples CPython.
Local Existing Instance degrees_proj.
Local Existing Instance whole_clip.
Local Existing Instance writable.
Local Existing Instance cardinal_geod.
Local Existing Instance series_cos.

(** ** Timestamps *)

Example strptime_canonical : strptime "202506171200" = Some ts_1200.
Proof. reflexivity. Qed.

Example strptime_trailing_data : strptime "2025061712000" = None.
Proof. reflexivity. Qed.

Example strptime_no_such_day : strptime "202502301200" = None.
Proof. reflexivity. Qed.

Example member_timestamp_canonical :
  member_timestamp "CIRRUS.REF_202506171205.hdf5" = Ok ts_1205.
Proof. reflexivity. Qed.

Example member_timestamp_without_underscore :
  member_timestamp "CIRRUS.REF.hdf5" = Raise IndexError.
Proof. reflexivity. Qed.

(** ** The time-step filter *)

Lemma time_step_filter_witness :
  In (Reading (name member_1200) ts_1200)
     (output (radar_tar_to_dataset_member 60 member_1200))
  /\ radar_tar_to_dataset_member 60 member_1230 = ([], Ok None)
  /\ In (Reading (name member_1205) ts_1205)
        (output (radar_tar_to_dataset_member 5 member_1205))
  /\ radar_tar_to_dataset_member 5 member_1206 = ([], Ok None).
Proof.
  pose proof (time_step_filter member_1200 ts_1200 60 "out" None ∅
                eq_refl eq_refl ltac:(discriminate)) as H60.
  pose proof (time_step_filter member_1230 (mk_datetime 2025 6 17 12 30) 60 "out" None ∅
                eq_refl eq_refl ltac:(discriminate)) as H60'.
  pose proof (time_step_filter member_1205 ts_1205 5 "out" None ∅
                eq_refl eq_refl ltac:(discriminate)) as H5.
  pose proof (time_step_filter member_1206 (mk_datetime 2025 6 17 12 6) 5 "out" None ∅
                eq_refl eq_refl ltac:(discriminate)) as H5'.
  cbv zeta in H60, H60', H5, H5'.
  destruct H60 as [Hread _], H60' as (_ & _ & [Hskip _] & _);
    [vm_compute; discriminate |].
  destruct H5 as [Hread5 _], H5' as (_ & _ & [Hskip5 _] & _);
    [vm_compute; discriminate |].
  split; [apply Hread; reflexivity |]. split; [exact Hskip |].
  split; [apply Hread5; reflexivity | exact Hskip5].
Defined.

Example hourly_step_keeps_1300 :
  output (radar_tar_to_dataset_member 60 member_1300)
  = [Reading "CIRRUS.REF_202506171300.hdf5" (mk_datetime 2025 6 17 13 0)].
Proof. reflexivity. Qed.

Example zero_step_raises :
  outcome (radar_tar_to_dataset_member 0 member_1200) = Raise ZeroDivisionError.
Proof. reflexivity. Qed.

(** ** The decoded grid *)

Lemma decoded_grid_cells_witness :
  odim_hdf5_to_dataset small_file true = Ok small_grid
  /\ cell (mask small_grid) 1 1 = Some 1%Z
  /\ cell (rev (data small_file)) 1 1 = Some (-3.5)%float
  /\ cell (reflectivity small_grid) 1 1 = Some 0%float.
Proof.
  assert (Hds : odim_hdf5_to_dataset small_file true = Ok small_grid) by reflexivity.
  assert (Hm : cell (mask small_grid) 1 1 = Some 1%Z) by reflexivity.
  destruct (decoded_grid_cells small_file true small_grid 1 1 1 Hds Hm)
    as (raw & r & Hraw & Hr & _ & _ & _ & Hfloor & _).
  assert (raw = (-3.5)%float) as -> by (injection Hraw as <-; reflexivity).
  rewrite (Hfloor eq_refl eq_refl eq_refl) in Hr.
  repeat split; assumption.
Defined.

(** ** The decoded series *)

(** Two members of one step, one of them with a malformed name: one
    grid, one warning. *)
Example one_grid_one_warning :
  exists grid,
    radar_tar_to_dataset [member_malformed; member_1200] 60
    = ([UnreadableTimestamp "CIRRUS.REF_latest.hdf5";
        Reading "CIRRUS.REF_202506171200.hdf5" ts_1200;
        Concatenating],
       Ok [(np_datetime64 ts_1200, grid)]).
Proof. eexists. reflexivity. Qed.

Lemma decoded_series_sorted_witness :
  exists out series,
    radar_tar_to_dataset [member_1300; member_1230; member_malformed; member_1200] 60
      = (out, Ok series)
    /\ Sorted Z.le (map fst series)
    /\ length series = 2%nat.
Proof.
  destruct (radar_tar_to_dataset [member_1300; member_1230; member_malformed; member_1200] 60)
    as [out [series|e]] eqn:Hrun.
  - exists out, series. split; [reflexivity |].
    destruct (decoded_series_sorted _ _ _ _ Hrun) as (Hsorted & _ & Hlen & _).
    split; [exact Hsorted |]. rewrite Hlen. reflexivity.
  - vm_compute in Hrun. discriminate.
Defined.

(** C3, counterexample. Two members that carry the same instant are both
    decoded, and the series has two entries with one timestamp. *)
Lemma same_instant_twice :
  outcome (radar_tar_to_dataset [member_1200; member_1200_bis] 60)
    = Ok [(np_datetime64 ts_1200, small_grid); (np_datetime64 ts_1200, small_grid)]
  /\ ~ List.NoDup (map fst [(np_datetime64 ts_1200, small_grid);
                            (np_datetime64 ts_1200, small_grid)]).
Proof.
  split; [reflexivity |].
  intros Hnodup. simpl map in Hnodup. apply List.NoDup_cons_iff in Hnodup as [Hnotin _].
  apply Hnotin. left. reflexivity.
Qed.


(** ** The cone *)


(** The other end is reached too, by rounding: an azimuth of -180
    against a bearing of 2^-45. *)
Example deviation_of_plus_180 : angle_diff (-180) 0x1p-45 = 180%float.
Proof. vm_compute. reflexivity. Qed.

(** The deviation is a rounded value: for an azimuth that is exactly half
    of the opening, against a bearing of 0, it comes out above the
    azimuth, and the cell is outside the cone. *)
Example rounded_deviation_at_the_edge :
  let az := 0x1.383c68793771cp+4%float in
  let O := 0x1.383c68793771cp+5%float in
  (O / 2 = az)%float /\ (az <? angle_diff az 0)%float = true
  /\ (abs (angle_diff az 0) <=? O / 2)%float = false.
Proof. repeat split; vm_compute; reflexivity. Qed.

(** The cell south of the apex, for a bearing due north and a full
    opening: its deviation is -180 and it is kept. *)
Example cell_due_south :
  let ds := small_grid in
  exists cone,
    extract_reflectivity_cone ds 45 2 0 360 120 = Ok cone
    /\ cell (da_lat cone) 0 1 = Some 44%float /\ cell (da_lon cone) 0 1 = Some 2%float
    /\ fst (fst (geod_inv 2 45 2 44)) = 180%float
    /\ cell (values cone) 0 1 = Some 7%float.
Proof. eexists. repeat split; vm_compute; reflexivity. Qed.

Lemma cone_window_witness :
  exists cone y_min y_max x_min x_max,
    extract_reflectivity_cone small_grid 45 3 90 120 100 = Ok cone
    /\ (forall i j, in_window small_grid 45 3 100 i j ->
          (y_min <= i <= y_max)%nat /\ (x_min <= j <= x_max)%nat)
    /\ (forall i j, (i <= y_max - y_min)%nat -> (j <= x_max - x_min)%nat ->
          cell (da_lat cone) i j = cell (lat small_grid) (y_min + i) (x_min + j))
    /\ (forall i j, (y_max - y_min < i)%nat \/ (x_max - x_min < j)%nat ->
          cell (da_lat cone) i j = None).
Proof.
  assert (Hin : exists i j, in_window small_grid 45 3 100 i j).
  { exists 1%nat, 2%nat, 45%float, 3%float. repeat split; vm_compute; reflexivity. }
  destruct (proj2 (cone_window small_grid 45 3 90 120 100) Hin)
    as (cone & y_min & y_max & x_min & x_max & Hrun & _ & _ & _ & Hspan & _ & _ & _ & _
        & Hcells & Hout).
  exists cone, y_min, y_max, x_min, x_max.
  split; [exact Hrun |]. split; [exact Hspan |]. split.
  - intros i j Hi Hj. apply (Hcells i j Hi Hj).
  - intros i j Hij. apply (Hout i j Hij).
Defined.

(** That window holds the last two cells of the second row, and the grid
    returned is those two cells. *)
Example window_cut :
  exists cone,
    extract_reflectivity_cone small_grid 45 3 90 120 100 = Ok cone
    /\ da_lat cone = [[45; 45]]%float /\ da_lon cone = [[2; 3]]%float.
Proof. eexists. repeat split; vm_compute; reflexivity. Qed.

Example window_missed :
  extract_reflectivity_cone small_grid 10 1 90 120 100 = Raise BBOX_EMPTY.
Proof. vm_compute. reflexivity. Qed.


(** On the axis and within the radius: kept.  Beyond the radius, or
    behind the apex: lost. *)
Example cells_east_of_apex :
  exists near short behind,
    extract_reflectivity_cone small_grid 44 1 90 120 120 = Ok near
    /\ cell (values near) 0 1 = Some 7%float
    /\ extract_reflectivity_cone small_grid 44 1 90 120 100 = Ok short
    /\ option_map PrimFloat.is_nan (cell (values short) 0 1) = Some true
    /\ extract_reflectivity_cone small_grid 44 1 270 120 120 = Ok behind
    /\ option_map PrimFloat.is_nan (cell (values behind) 0 1) = Some true.
Proof. do 3 eexists. repeat (split; [vm_compute; reflexivity |]). vm_compute. reflexivity. Qed.

(** ** Headings *)

(** Three points on a meridian, going north: both headings are 0. *)
Example heading_due_north :
  compute_heading [(44, 1); (45, 1); (46, 1)]%float = Ok [None; Some 0%float; Some 0%float].
Proof. vm_compute. reflexivity. Qed.

(** ** The download *)

Example third_attempt_saved :
  get_api_data third_time_lucky "radar.tar" 5 false ∅
  = ([Print (Downloading 1 5); Get 1; Print (HttpError 1 5); Print Waiting; Sleep 5;
      Print (Downloading 2 5); Get 2; Print (HttpError 2 5); Print Waiting; Sleep 5;
      Print (Downloading 3 5); Get 3; WriteBytes "radar.tar" [Byte.x01; Byte.x02];
      Print (Saved "radar.tar")],
     {["radar.tar" := [Byte.x01; Byte.x02]]},
     Ok (Some "radar.tar")).
Proof. reflexivity. Qed.

Example every_attempt_fails :
  get_api_data unavailable "radar.tar" 2 false ∅
  = ([Print (Downloading 1 2); Get 1; Print (HttpError 1 2); Print Waiting; Sleep 5;
      Print (Downloading 2 2); Get 2; Print (HttpError 2 2); Print GivingUp],
     ∅, Ok None)
  /\ snd (get_api_data unavailable "radar.tar" 2 true ∅)
     = Raise (RuntimeError "Erreur HTTP lors du telechargement").
Proof. split; reflexivity. Qed.
End Runs.

(** * Further properties *)

(** ** The retry loop as a whole (utils.py, [get_api_data]) *)

Section DownloadTrace.
Import Utils.
Local Open Scope Z_scope.
Variable network : Z -> get_outcome.
Variable output_path : string.
Variable max_retries : Z.
Variable stop_on_maxretry : bool.

Lemma gets_app (a b : list effect) : gets (a ++ b) = gets a ++ gets b.
Proof. apply flat_map_app. Qed.

Lemma sleeps_app (a b : list effect) : sleeps (a ++ b) = sleeps a ++ sleeps b.
Proof. apply flat_map_app. Qed.

Lemma loop_on_success (attempt : Z) (rest : list Z) (fs : files) :
  succeeds (network attempt) = true ->
  exists response,
    network attempt = Returns response /\
    get_api_data_loop network output_path max_retries stop_on_maxretry (attempt :: rest) fs
    = ([Print (Downloading attempt max_retries); Get attempt;
        WriteBytes output_path (content response); Print (Saved output_path)],
       <[output_path := content response]> fs, Ok (Some output_path)).
Proof.
  unfold succeeds. simpl.
  destruct (network attempt) as [response|]; [| discriminate].
  intros Hok. exists response. split; [reflexivity |]. simpl.
  destruct (raise_for_status response) as [[]|e]; [reflexivity | discriminate].
Qed.

Lemma loop_on_failure (attempt : Z) (rest : list Z) (fs : files) :
  succeeds (network attempt) = false ->
  get_api_data_loop network output_path max_retries stop_on_maxretry (attempt :: rest) fs
  = if (attempt =? max_retries) && stop_on_maxretry then
      ([Print (Downloading attempt max_retries); Get attempt;
        Print (HttpError attempt max_retries)],
       fs, Raise (RuntimeError "Erreur HTTP lors du telechargement"))
    else
      let '(later, fs', r) :=
        get_api_data_loop network output_path max_retries stop_on_maxretry rest fs in
      ([Print (Downloading attempt max_retries); Get attempt;
        Print (HttpError attempt max_retries)]
       ++ (if attempt =? max_retries then [Print GivingUp] else [])
       ++ (if attempt <? max_retries then [Print Waiting; Sleep 5] else [])
       ++ later, fs', r).
Proof.
  unfold succeeds. simpl.
  destruct (network attempt) as [response|]; simpl.
  - unfold raise_for_status.
    destruct ((400 <=? status_code response) && (status_code response <? 600));
      [| discriminate].
    intros _. simpl.
    destruct ((attempt =? max_retries) && stop_on_maxretry); [reflexivity |].
    destruct (get_api_data_loop _ _ _ _ rest fs) as [[later fs'] r]. reflexivity.
  - intros _.
    destruct ((attempt =? max_retries) && stop_on_maxretry); [reflexivity |].
    destruct (get_api_data_loop _ _ _ _ rest fs) as [[later fs'] r]. reflexivity.
Qed.

(** The loop over the attempts [s .. max_retries]: it sends [c] requests,
    one after the other, pauses between them only, and stops at the
    first that succeeds. *)
Lemma loop_trace (n : nat) :
  forall (s : nat) (fs : files),
    ((0 < n)%nat -> Z.of_nat s + Z.of_nat n = max_retries + 1) ->
    let '(effects, fs', r) :=
      get_api_data_loop network output_path max_retries stop_on_maxretry
        (map Z.of_nat (seq s n)) fs in
    exists c : nat,
      (c <= n)%nat /\ (0 < n -> 0 < c)%nat /\
      gets effects = map Z.of_nat (seq s c) /\
      sleeps effects = repeat 5 (pred c) /\
      (forall j, (s <= j < s + pred c)%nat -> succeeds (network (Z.of_nat j)) = false) /\
      ((0 < c)%nat /\ succeeds (network (Z.of_nat (s + pred c))) = true
       /\ (exists response,
             network (Z.of_nat (s + pred c)) = Returns response
             /\ fs' = <[output_path := content response]> fs)
       /\ r = Ok (Some output_path)
       \/ c = n /\ (forall j, (s <= j < s + n)%nat -> succeeds (network (Z.of_nat j)) = false)
          /\ fs' = fs
          /\ r = if stop_on_maxretry && (0 <? n)%nat
                 then Raise (RuntimeError "Erreur HTTP lors du telechargement")
                 else Ok None).
Proof.
  induction n as [|n IH]; intros s fs Hs.
  - simpl. exists 0%nat.
    split; [lia |]. split; [lia |]. split; [reflexivity |]. split; [reflexivity |].
    split; [intros j Hj; lia |].
    right. split; [reflexivity |]. split; [intros j Hj; lia |]. split; [reflexivity |].
    rewrite andb_false_r. reflexivity.
  - specialize (Hs ltac:(lia)). cbn [seq map].
    destruct (succeeds (network (Z.of_nat s))) eqn:Hsucc.
    + destruct (loop_on_success (Z.of_nat s) (map Z.of_nat (seq (S s) n)) fs Hsucc)
        as (response & Hnet & ->).
      exists 1%nat.
      split; [lia |]. split; [lia |]. split; [reflexivity |]. split; [reflexivity |].
      split; [intros j Hj; simpl in Hj; lia |].
      left. simpl pred. rewrite Nat.add_0_r. split; [lia |]. split; [exact Hsucc |].
      split; [exists response; split; [exact Hnet | reflexivity] | reflexivity].
    + rewrite (loop_on_failure _ _ fs Hsucc).
      destruct n as [|n'].
      * assert (Hmax : Z.of_nat s = max_retries) by lia.
        rewrite Hmax, Z.eqb_refl, Z.ltb_irrefl. simpl "&&".
        assert (Hall : forall j, (s <= j < s + 1)%nat -> succeeds (network (Z.of_nat j)) = false).
        { intros j Hj. replace j with s by lia. exact Hsucc. }
        destruct stop_on_maxretry; simpl;
          exists 1%nat;
          (split; [lia |]; split; [lia |]; split; [simpl; rewrite Hmax; reflexivity |];
           split; [reflexivity |];
           split; [intros j Hj; simpl in Hj; lia |];
           right; split; [reflexivity |]; split; [exact Hall |]; split; reflexivity).
      * assert (Hne : (Z.of_nat s =? max_retries) = false) by (apply Z.eqb_neq; lia).
        assert (Hlt : (Z.of_nat s <? max_retries) = true) by (apply Z.ltb_lt; lia).
        rewrite Hne, Hlt. simpl "&&". cbv iota.
        specialize (IH (S s) fs ltac:(lia)).
        destruct (get_api_data_loop _ _ _ _ (map Z.of_nat (seq (S s) (S n'))) fs)
          as [[later fs'] r].
        destruct IH as (c & Hc & Hpos & Hgets & Hsleeps & Hfail & Hend).
        assert (0 < c)%nat by (apply Hpos; lia).
        exists (S c). split; [lia |]. split; [lia |].
        split; [simpl; rewrite Hgets; reflexivity |].
        split.
        { simpl. rewrite Hsleeps. destruct c; [lia | reflexivity]. }
        split.
        { intros j Hj. destruct (Nat.eq_dec j s) as [-> | Hjs]; [exact Hsucc |].
          apply Hfail. simpl in Hj. lia. }
        replace (s + pred (S c))%nat with (S s + pred c)%nat by lia.
        destruct Hend as [(_ & Hlast & Hresp & Hr) | (-> & Hall & Hfs & Hr)].
        -- left. split; [lia |]. split; [exact Hlast |]. split; [exact Hresp | exact Hr].
        -- right. split; [reflexivity |]. split; [| split; [exact Hfs |]].
           ++ intros j Hj. destruct (Nat.eq_dec j s) as [-> | Hjs]; [exact Hsucc |].
              apply Hall. lia.
           ++ rewrite Hr. reflexivity.
Qed.

(** A call either stops at the first attempt that succeeds, with the
    body of its response saved, or finds every attempt failing. *)
Lemma get_api_data_cases (fs : files) :
  let '(effects, fs', r) :=
    get_api_data network output_path max_retries stop_on_maxretry fs in
  exists k,
    0 <= k /\ k <= Z.max 0 max_retries /\ (1 <= max_retries -> 1 <= k) /\
    gets effects = attempts k /\
    sleeps effects = repeat 5 (Z.to_nat (k - 1)) /\
    (forall j, 1 <= j < k -> succeeds (network j) = false) /\
    (1 <= k /\ succeeds (network k) = true
     /\ (exists response,
           network k = Returns response /\ fs' = <[output_path := content response]> fs)
     /\ r = Ok (Some output_path)
     \/ k = Z.max 0 max_retries
        /\ (forall j, 1 <= j <= max_retries -> succeeds (network j) = false)
        /\ fs' = fs
        /\ r = if stop_on_maxretry && (1 <=? max_retries)
               then Raise (RuntimeError "Erreur HTTP lors du telechargement")
               else Ok None).
Proof.
  unfold get_api_data, attempts.
  pose proof (loop_trace (Z.to_nat max_retries) 1 fs ltac:(lia)) as Htrace.
  destruct (get_api_data_loop _ _ _ _ _ fs) as [[effects fs'] r].
  destruct Htrace as (c & Hc & Hpos & Hgets & Hsleeps & Hfail & Hend).
  exists (Z.of_nat c).
  split; [lia |]. split; [lia |]. split; [intros Hmax; lia |].
  split; [rewrite Nat2Z.id; exact Hgets |].
  split; [replace (Z.to_nat (Z.of_nat c - 1)) with (pred c) by lia; exact Hsleeps |].
  split.
  { intros j Hj. replace j with (Z.of_nat (Z.to_nat j)) by lia. apply Hfail. lia. }
  destruct Hend as [(Hc0 & Hlast & Hresp & Hr) | (-> & Hall & Hfs & Hr)].
  - left. replace (1 + pred c)%nat with c in * by lia. split; [lia | auto].
  - right. split; [lia |]. split; [| split; [exact Hfs |]].
    + intros j Hj. replace j with (Z.of_nat (Z.to_nat j)) by lia. apply Hall. lia.
    + rewrite Hr. f_equal.
      destruct (Z.leb_spec 1 max_retries), (Nat.ltb_spec 0 (Z.to_nat max_retries));
        try reflexivity; lia.
Qed.

(** X1. What a call of [get_api_data] returns: the output path exactly
    when some attempt from 1 to [max_retries] passes the status check; the
    [RuntimeError] exactly when none does, [stop_on_maxretry] is set and
    there was an attempt at all; [None], silently, in the remaining case
    (no attempt passes, and the flag is off or [max_retries] is below
    1). *)
Theorem get_api_data_returns (fs : files) :
  let r := snd (get_api_data network output_path max_retries stop_on_maxretry fs) in
  (r = Ok (Some output_path)
   <-> exists k, 1 <= k <= max_retries /\ succeeds (network k) = true) /\
  (r = Raise (RuntimeError "Erreur HTTP lors du telechargement")
   <-> stop_on_maxretry = true /\ 1 <= max_retries
       /\ forall k, 1 <= k <= max_retries -> succeeds (network k) = false) /\
  (r = Ok None
   <-> (stop_on_maxretry = false \/ max_retries < 1)
       /\ forall k, 1 <= k <= max_retries -> succeeds (network k) = false).
Proof.
  pose proof (get_api_data_cases fs) as Hcases.
  destruct (get_api_data _ _ _ _ fs) as [[effects fs'] r]. simpl.
  destruct Hcases as (k & Hk0 & Hkmax & Hk1 & _ & _ & _ & Hend).
  destruct Hend as [(Hk & Hsucc & _ & ->) | (_ & Hall & _ & ->)].
  - assert (Hex : exists k, 1 <= k <= max_retries /\ succeeds (network k) = true)
      by (exists k; split; [lia | exact Hsucc]).
    assert (Hnot : ~ forall j, 1 <= j <= max_retries -> succeeds (network j) = false).
    { intros Hall. rewrite Hall in Hsucc by lia. discriminate. }
    split; [split; auto |].
    split; (split; [discriminate | intros Hx; exfalso; apply Hnot, Hx]).
  - assert (Hnex : ~ exists k, 1 <= k <= max_retries /\ succeeds (network k) = true).
    { intros (j & Hj & Hs). rewrite Hall in Hs by exact Hj. discriminate. }
    destruct stop_on_maxretry; destruct (Z.leb_spec 1 max_retries); simpl.
    + split; [split; [discriminate | intros Hx; exfalso; exact (Hnex Hx)] |].
      split; [split; auto |].
      split; [discriminate | intros [[Hd | Hd] _]; [discriminate | lia]].
    + split; [split; [discriminate | intros Hx; exfalso; exact (Hnex Hx)] |].
      split; [split; [discriminate | intros (_ & Hd & _); lia] |].
      split; auto.
    + split; [split; [discriminate | intros Hx; exfalso; exact (Hnex Hx)] |].
      split; [split; [discriminate | intros (Hd & _); discriminate] |].
      split; auto.
    + split; [split; [discriminate | intros Hx; exfalso; exact (Hnex Hx)] |].
      split; [split; [discriminate | intros (Hd & _); discriminate] |].
      split; auto.
Qed.

End DownloadTrace.

(** ** The half-day of an instant (utils.py, [dat_to_dat_half]) *)

Section HalfDay.
Import UtilsDates.
Local Open Scope Z_scope.

(** X3. [dat_to_dat_half] keeps the date, sets the hour to 12 from noon
    on and to 0 before, and clears minutes, seconds and microseconds;
    applying it twice changes nothing more; and for a time of day in
    range the result is the start of the twelve hours that contain the
    instant: it is not later than the instant and less than 720 minutes
    before it. *)
Theorem dat_to_dat_half_bucket (dat : Instant) :
  let half := dat_to_dat_half dat in
  year (at_minute half) = year (at_minute dat) /\
  month (at_minute half) = month (at_minute dat) /\
  day (at_minute half) = day (at_minute dat) /\
  hour (at_minute half) = (if 12 <=? hour (at_minute dat) then 12 else 0) /\
  minute (at_minute half) = 0 /\ second half = 0 /\ microsecond half = 0 /\
  dat_to_dat_half half = half /\
  (0 <= hour (at_minute dat) <= 23 -> 0 <= minute (at_minute dat) <= 59 ->
   np_datetime64 (at_minute half) <= np_datetime64 (at_minute dat)
   /\ np_datetime64 (at_minute dat) < np_datetime64 (at_minute half) + 720).
Proof.
  destruct dat as [[y m d h mi] s us]. unfold dat_to_dat_half. cbn.
  repeat (split; [reflexivity |]).
  split.
  { destruct (12 <=? h); reflexivity. }
  intros Hh Hmi. unfold np_datetime64. cbn.
  destruct (Z.leb_spec 12 h); lia.
Qed.

Example half_days :
  dat_to_dat_half (mk_instant (mk_datetime 2025 6 17 11 59) 59 999999)
    = mk_instant (mk_datetime 2025 6 17 0 0) 0 0
  /\ dat_to_dat_half (mk_instant (mk_datetime 2025 6 17 12 0) 0 0)
     = mk_instant (mk_datetime 2025 6 17 12 0) 0 0.
Proof. split; reflexivity. Qed.
End HalfDay.

(** ** The grid of one instant (formatting.py, [extract_radar_da]) *)

Section LookupFacts.
Import Formatting UtilsDates Lookup.
Context `{Settings} `{Strptime} `{Pyproj}.

Lemma lookup_loop_passes (dat : Instant) (member : TarInfo) (rest : list TarInfo) :
  carries dat member = false ->
  outcome (extract_radar_da_loop dat (member :: rest))
  = outcome (extract_radar_da_loop dat rest).
Proof.
  unfold carries. cbn [extract_radar_da_loop].
  destruct (endswith (name member) ".hdf5"); cbn [negb andb]; [| reflexivity].
  destruct (member_timestamp (name member)) as [ts|e].
  - intros ->. reflexivity.
  - intros _. unfold mbind, io_bind. rewrite io_seq_print. reflexivity.
Qed.

Lemma lookup_loop_misses (dat : Instant) (members : list TarInfo) :
  (forall m, In m members -> carries dat m = false) ->
  outcome (extract_radar_da_loop dat members) = Ok None.
Proof.
  induction members as [|m rest IH]; intros Hnone; [reflexivity |].
  rewrite lookup_loop_passes by (apply Hnone; left; reflexivity).
  apply IH. intros m' Hin. apply Hnone. right. exact Hin.
Qed.

Lemma lookup_loop_reads (dat : Instant) (member : TarInfo) (rest : list TarInfo) :
  carries dat member = true ->
  outcome (extract_radar_da_loop dat (member :: rest))
  = match read_member member with
    | Ok da => Ok (Some da)
    | Raise e => Raise e
    end.
Proof.
  unfold carries, read_member. cbn [extract_radar_da_loop].
  destruct (endswith (name member) ".hdf5"); cbn [negb andb]; [| discriminate].
  destruct (member_timestamp (name member)) as [ts|e]; [| discriminate].
  intros ->. cbn [negb]. cbv iota.
  unfold mbind, io_bind, mret, io_ret. rewrite io_seq_print.
  unfold outcome at 1. cbn [snd].
  destruct (extractfile member) as [f|].
  - destruct (h5py_File f) as [hdf|e]; [| reflexivity].
    rewrite io_seq_lift_ok.
    destruct (odim_hdf5_to_dataset hdf true) as [da|e]; reflexivity.
  - reflexivity.
Qed.

Lemma lookup_loop_first (dat : Instant) (before : list TarInfo) (member : TarInfo)
    (after : list TarInfo) :
  (forall m, In m before -> carries dat m = false) ->
  carries dat member = true ->
  outcome (extract_radar_da_loop dat (before ++ member :: after))
  = match read_member member with
    | Ok da => Ok (Some da)
    | Raise e => Raise e
    end.
Proof.
  induction before as [|m before IH]; intros Hbefore Hm; simpl app.
  - apply lookup_loop_reads, Hm.
  - rewrite lookup_loop_passes by (apply Hbefore; left; reflexivity).
    apply IH; [| exact Hm]. intros m' Hin. apply Hbefore. right. exact Hin.
Qed.

Lemma extract_radar_da_outcome (disk : archives) (dat : Instant) :
  outcome (extract_radar_da disk dat)
  = match disk !! tar_path dat with
    | None => Ok None
    | Some members =>
        match outcome (extract_radar_da_loop dat members) with
        | Ok (Some da) => Ok da
        | Ok None => Ok None
        | Raise e => Raise e
        end
    end.
Proof.
  unfold extract_radar_da.
  destruct (disk !! tar_path dat) as [members|]; [| reflexivity].
  unfold mbind, io_bind. rewrite outcome_io_seq.
  destruct (outcome (extract_radar_da_loop dat members)) as [[da|]|e]; reflexivity.
Qed.

(** A list of members has none of the instant, or a first one. *)
Lemma first_carrier (dat : Instant) (members : list TarInfo) :
  (forall m, In m members -> carries dat m = false)
  \/ exists before member after,
       members = before ++ member :: after /\
       (forall m, In m before -> carries dat m = false) /\
       carries dat member = true.
Proof.
  induction members as [|m rest IH].
  - left. intros m [].
  - destruct (carries dat m) eqn:Hm.
    + right. exists [], m, rest. split; [reflexivity |]. split; [intros m' [] | exact Hm].
    + destruct IH as [Hnone | (before & member & after & -> & Hbefore & Hmember)].
      * left. intros m' [<- | Hin]; [exact Hm | apply Hnone, Hin].
      * right. exists (m :: before), member, after.
        split; [reflexivity |]. split; [| exact Hmember].
        intros m' [<- | Hin]; [exact Hm | apply Hbefore, Hin].
Qed.

(** X4. In the archive of the half-day, the first member whose name ends
    in [.hdf5] and carries exactly the instant asked for decides the
    lookup: the result is the grid decoded from it, [None] when it has no
    file object, and the exception of the decoding when that raises.
    Members after it are never looked at, also when it gave nothing. *)
Theorem extract_radar_da_first_match (disk : archives) (dat : Instant)
    (before : list TarInfo) (member : TarInfo) (after : list TarInfo) :
  disk !! tar_path dat = Some (before ++ member :: after) ->
  (forall m, In m before -> carries dat m = false) ->
  carries dat member = true ->
  outcome (extract_radar_da disk dat) = read_member member.
Proof.
  intros Hdisk Hbefore Hmember.
  rewrite extract_radar_da_outcome, Hdisk, (lookup_loop_first _ _ _ _ Hbefore Hmember).
  destruct (read_member member) as [[da|]|e]; reflexivity.
Qed.

(** X5. The lookup returns [None], without raising, when the archive of
    the half-day is not on disk (it says so and reads nothing), when no
    member of the archive carries the instant, and in particular whenever
    the instant asked for has seconds or microseconds: the timestamps of
    the members are whole minutes. *)
Theorem extract_radar_da_misses (disk : archives) (dat : Instant) :
  (disk !! tar_path dat = None ->
   extract_radar_da disk dat = ([ArchiveNotFound (tar_path dat)], Ok None)) /\
  ((forall members, disk !! tar_path dat = Some members ->
      forall m, In m members -> carries dat m = false) ->
   outcome (extract_radar_da disk dat) = Ok None) /\
  (second dat <> 0%Z \/ microsecond dat <> 0%Z ->
   outcome (extract_radar_da disk dat) = Ok None).
Proof.
  assert (Hnone : (forall members, disk !! tar_path dat = Some members ->
                     forall m, In m members -> carries dat m = false) ->
                  outcome (extract_radar_da disk dat) = Ok None).
  { intros Hmiss. rewrite extract_radar_da_outcome.
    destruct (disk !! tar_path dat) as [members|] eqn:Hdisk; [| reflexivity].
    rewrite lookup_loop_misses; [reflexivity | apply (Hmiss members eq_refl)]. }
  split; [| split; [exact Hnone |]].
  - intros Hdisk. unfold extract_radar_da. rewrite Hdisk. reflexivity.
  - intros Hsub. apply Hnone. intros members _ m _. unfold carries.
    destruct (endswith (name m) ".hdf5"); [| reflexivity].
    destruct (member_timestamp (name m)) as [ts|e]; [| reflexivity].
    unfold instant_eqb, on_the_minute. cbn [at_minute second microsecond].
    destruct Hsub as [Hs | Hus].
    + assert ((0 =? second dat)%Z = false) as -> by (apply Z.eqb_neq; lia).
      rewrite andb_false_r. reflexivity.
    + assert ((0 =? microsecond dat)%Z = false) as -> by (apply Z.eqb_neq; lia).
      rewrite andb_false_r. reflexivity.
Qed.

(** X6. A grid the lookup returns is the grid decoded, with noise
    flooring, from a member of the archive of the half-day whose name
    carries the instant asked for, to the minute. *)
Theorem extract_radar_da_sound (disk : archives) (dat : Instant) (da : Dataset) :
  outcome (extract_radar_da disk dat) = Ok (Some da) ->
  exists members member ts h,
    disk !! tar_path dat = Some members /\ In member members /\
    endswith (name member) ".hdf5" = true /\
    member_timestamp (name member) = Ok ts /\
    dat = on_the_minute ts /\
    extractfile member = Some (Hdf5 h) /\
    odim_hdf5_to_dataset h true = Ok da.
Proof.
  rewrite extract_radar_da_outcome.
  destruct (disk !! tar_path dat) as [members|] eqn:Hdisk; [| discriminate].
  destruct (first_carrier dat members)
    as [Hnone | (before & member & after & -> & Hbefore & Hmember)].
  { rewrite lookup_loop_misses by exact Hnone. discriminate. }
  rewrite (lookup_loop_first _ _ _ _ Hbefore Hmember).
  unfold read_member.
  destruct (extractfile member) as [[h|bytes]|] eqn:Hfile; simpl; try discriminate.
  destruct (odim_hdf5_to_dataset h true) as [da'|e] eqn:Hda; [| discriminate].
  intros [= <-].
  unfold carries in Hmember.
  destruct (endswith (name member) ".hdf5") eqn:Hsuffix; [| discriminate].
  destruct (member_timestamp (name member)) as [ts|e] eqn:Hts; [| discriminate].
  exists (before ++ member :: after), member, ts, h.
  split; [reflexivity |]. split; [apply in_elt |].
  split; [exact Hsuffix |]. split; [exact Hts |].
  split; [| split; [exact Hfile | exact Hda]].
  cbn [andb] in Hmember. unfold instant_eqb, on_the_minute in Hmember.
  cbn [at_minute second microsecond] in Hmember.
  repeat (apply andb_prop in Hmember as [Hmember ?]).
  destruct dat as [[y mo d hh mi] s us], ts as [y' mo' d' hh' mi'].
  cbn [at_minute second microsecond year month day hour minute] in *.
  repeat match goal with Hq : (_ =? _)%Z = true |- _ => apply Z.eqb_eq in Hq end.
  subst. reflexivity.
Qed.
End LookupFacts.

(** ** Download, then decode (open_data_server.py, [get_radar_composite]) *)

Section Server.
Import Formatting UtilsDates Lookup OpenDataServer.
Context `{Settings} `{Tarfile} `{Strptime} `{Pyproj}.

(** X7. The file [get_radar_composite] saves the archive of an instant
    to, for the algorithm [cirrus] and the product [REFLECTIVITY], is the
    file [extract_radar_da] opens for that instant: both name it after the
    date and the half-day, in the radar data directory (a directory path
    that is not empty and does not end in a slash, as a resolved path). *)
Theorem archive_names_agree (dat : Instant) :
  RADAR_DATA_PATH <> EmptyString ->
  endswith RADAR_DATA_PATH "/" = false ->
  os_path_join RADAR_DATA_PATH (filename dat "cirrus" "REFLECTIVITY") = tar_path dat.
Proof.
  intros Hne Hslash.
  unfold os_path_join, tar_path, path_div, filename, strftime_YmdTHMS, dat_to_dat_half.
  apply String.eqb_neq in Hne. rewrite Hne, Hslash.
  destruct dat as [[y m d h mi] s us].
  cbn [at_minute second microsecond year month day hour minute strftime_Ymd].
  destruct (12 <=? h)%Z; cbn -[pad4 pad2]; reflexivity.
Qed.

(** X8. [get_radar_composite] tries the download at most five times and
    then decodes with a time step of 60 minutes.  When an attempt passes
    the status check, the body of the first such response is saved at the
    path of the half-day and the result is what the archive decoder makes
    of those bytes.  When the five attempts fail, the files are left as
    they were and the call does not report the network failure: it hands
    [None] to the decoder, which raises [ValueError], nothing to open. *)
Theorem get_radar_composite_outcome (network : string -> Z -> Utils.get_outcome)
    (input_date : Instant) (product_type algo_name product_name format : string)
    (fs : gmap string (list Byte.byte)) :
  let url := query_url input_date product_type algo_name product_name format in
  let path := os_path_join RADAR_DATA_PATH (filename input_date algo_name product_name) in
  let '(events, fs', r) :=
    get_radar_composite network input_date product_type algo_name product_name format fs in
  ((forall k, (1 <= k <= 5)%Z -> Utils.succeeds (network url k) = false) ->
   fs' = fs /\ r = Raise (ValueError "nothing to open")) /\
  (forall k response,
     (1 <= k <= 5)%Z ->
     (forall j, (1 <= j < k)%Z -> Utils.succeeds (network url j) = false) ->
     network url k = Utils.Returns response ->
     Utils.raise_for_status response = Ok tt ->
     fs' = <[path := Utils.content response]> fs /\
     r = match tarfile_getmembers (Utils.content response) with
         | Ok tar => outcome (radar_tar_to_dataset tar 60)
         | Raise e => Raise e
         end).
Proof.
  intros url path. unfold get_radar_composite. fold url. fold path.
  pose proof (get_api_data_cases (network url) path 5 false fs) as Hcases.
  destruct (Utils.get_api_data (network url) path 5 false fs) as [[effects fs'] data_path].
  destruct Hcases as (k & Hk0 & Hk5 & _ & _ & _ & Hfail & Hend).
  destruct Hend as [(Hk1 & Hsucc & (response & Hnet & ->) & ->) | (_ & Hall & -> & ->)].
  - unfold radar_tar_to_dataset_from. rewrite lookup_insert_eq.
    unfold mbind, io_bind.
    destruct (io_seq (lift (tarfile_getmembers (Utils.content response))) _)
      as [out radar_ds] eqn:Hrun.
    split.
    + intros Hnone. rewrite Hnone in Hsucc by lia. discriminate.
    + intros k' response' Hk' Hbefore Hnet' Hstatus'.
      assert (Hsucc' : Utils.succeeds (network url k') = true)
        by (unfold Utils.succeeds; rewrite Hnet', Hstatus'; reflexivity).
      assert (k' = k) as ->.
      { destruct (Z.lt_trichotomy k' k) as [Hlt | [Heq | Hgt]]; [| exact Heq |].
        - rewrite Hfail in Hsucc' by lia. discriminate.
        - rewrite Hbefore in Hsucc by lia. discriminate. }
      rewrite Hnet in Hnet'. injection Hnet' as <-.
      split; [reflexivity |].
      apply (f_equal outcome) in Hrun. rewrite outcome_io_seq in Hrun.
      unfold lift, outcome at 1 in Hrun. cbn [snd] in Hrun.
      exact (eq_sym Hrun).
  - simpl. split; [intros _; split; reflexivity |].
    intros k' response' Hk' _ Hnet' Hstatus'. exfalso.
    specialize (Hall k' Hk'). unfold Utils.succeeds in Hall.
    rewrite Hnet', Hstatus' in Hall. discriminate.
Qed.
End Server.

(** ** The shape of a decoded grid (formatting.py, [odim_hdf5_to_dataset]) *)

Section Shapes.
Import Formatting.
Context `{Pyproj}.

Lemma has_shape_map2d {A B} (f : A -> B) (a : arr2 A) (rows cols : nat) :
  has_shape rows cols (map2d f a) = has_shape rows cols a.
Proof.
  unfold has_shape, map2d. rewrite length_map. f_equal.
  induction a as [|row a IH]; [reflexivity |].
  simpl. rewrite length_map, IH. reflexivity.
Qed.

Lemma has_shape_rev {A} (a : arr2 A) (rows cols : nat) :
  has_shape rows cols (rev a) = has_shape rows cols a.
Proof.
  unfold has_shape. rewrite length_rev. f_equal.
  apply eq_iff_eq_true. rewrite !forallb_forall.
  split; intros Hall row Hin; apply Hall; [apply in_rev in Hin | apply in_rev]; exact Hin.
Qed.

Lemma length_arange_affine (n : Z) (scale origin : float) :
  length (arange_affine n scale origin) = Z.to_nat n.
Proof. unfold arange_affine. rewrite length_map, length_seq. reflexivity. Qed.

Lemma has_shape_meshgrid {C} (f : float -> float -> C) (x y : list float) :
  has_shape (length y) (length x)
    (zip2d f (fst (meshgrid x y)) (snd (meshgrid x y))) = true.
Proof.
  unfold has_shape, zip2d, meshgrid. cbn [fst snd].
  apply andb_true_iff. split.
  - apply Nat.eqb_eq. induction y as [|yi y IH]; [reflexivity | simpl; f_equal; exact IH].
  - induction y as [|yi y IH]; [reflexivity |].
    simpl. rewrite IH, andb_true_r. apply Nat.eqb_eq. clear IH.
    induction x as [|xi x IHx]; [reflexivity | simpl; f_equal; exact IHx].
Qed.

(** X9. The decoder returns a grid exactly when the array of the file
    has the [ysize] rows and the [xsize] columns that the attributes
    announce, the columns being counted also when there is no row (it
    raises [ValueError] otherwise), and in a grid it returns the
    reflectivity, the mask, the latitudes and the longitudes all have
    that one shape. *)
Theorem odim_hdf5_to_dataset_shapes (hdf : h5file) (noise_as_zero : bool) :
  let rows := Z.to_nat (w_ysize (where_ hdf)) in
  let cols := Z.to_nat (w_xsize (where_ hdf)) in
  (is_ok (odim_hdf5_to_dataset hdf noise_as_zero)
   = has_shape rows cols (data hdf) && (data_ncols hdf =? cols)%nat) /\
  (forall e, odim_hdf5_to_dataset hdf noise_as_zero = Raise e ->
     e = ValueError "conflicting sizes for dimension") /\
  (forall ds, odim_hdf5_to_dataset hdf noise_as_zero = Ok ds ->
     has_shape rows cols (reflectivity ds) = true /\
     has_shape rows cols (mask ds) = true /\
     has_shape rows cols (lat ds) = true /\
     has_shape rows cols (lon ds) = true /\
     dim_x ds = cols).
Proof.
  intros rows cols. subst rows cols.
  split; [| split; [intros e; apply odim_hdf5_to_dataset_raises |]].
  - unfold odim_hdf5_to_dataset, xr_Dataset.
    destruct (proj_forward _ _ _) as [LL_x LL_y].
    destruct (meshgrid _ _) as [X Y].
    destruct noise_as_zero; rewrite !has_shape_map2d, !has_shape_rev, andb_diag;
      destruct (has_shape _ _ (data hdf) && _); reflexivity.
  - unfold odim_hdf5_to_dataset, xr_Dataset.
    destruct (proj_forward _ _ _) as [LL_x LL_y].
    pose proof (has_shape_meshgrid (proj_to_latlong (w_projdef (where_ hdf)))
                  (arange_affine (w_xsize (where_ hdf)) (w_xscale (where_ hdf)) LL_x)
                  (arange_affine (w_ysize (where_ hdf)) (w_yscale (where_ hdf)) LL_y))
      as Hgrid.
    rewrite !length_arange_affine in Hgrid.
    destruct (meshgrid _ _) as [X Y]. cbn [fst snd] in Hgrid.
    intros ds.
    destruct (_ && _ && _) eqn:Hshape; [| discriminate].
    intros [= <-]. cbn [reflectivity mask lat lon dim_x].
    apply andb_true_iff in Hshape as [Hshape _].
    apply andb_true_iff in Hshape as [Hrefl Hmask].
    rewrite !has_shape_map2d. rewrite has_shape_map2d in Hmask.
    split; [exact Hrefl |]. split; [exact Hmask |].
    split; [exact Hgrid |]. split; [exact Hgrid | reflexivity].
Qed.
End Shapes.

(** ** From the file to the raster (formatting.py, [radar_tar_to_geotiff]) *)

Section FileToRaster.
Import Formatting.
Context `{Strptime} `{Pyproj} `{Rioxarray} `{Rasterio}.

(** The export without a bounding box: the array it prepares, and what
    the call does with it. *)
Lemma export_whole (ds : Dataset) (output_path : string) (missing_value : float)
    (files : gmap string Raster) :
  exists raster,
    radar_timestep_ds_to_geotiff ds output_path missing_value None files
      = match to_raster_raises output_path raster with
        | Some e => ([], Raise e)
        | None => ([GeotiffCreated output_path],
                   Ok (<[output_path := float32_raster raster]> files))
        end /\
    band raster
      = zip2d (where_mask_cell missing_value) (mask ds)
          (map2d (fillna_cell 0%float) (reflectivity ds)) /\
    nodata raster = missing_value.
Proof.
  unfold radar_timestep_ds_to_geotiff. cbv zeta.
  unfold mbind, io_bind, mret, io_ret, io_pure. rewrite io_seq_returned, io_seq_to_raster.
  unfold rio_to_raster.
  match goal with |- context [to_raster_raises output_path ?r] => exists r end.
  split; [| split].
  - destruct (to_raster_raises output_path _); reflexivity.
  - reflexivity.
  - reflexivity.
Qed.

(** X10. Decoding a file (with noise flooring, as the archive functions
    do) and exporting the grid without a bounding box either raises what
    the writer raises, with nothing announced, or stores at the output
    path a raster whose cells are the float32 encodings of these values:
    the missing value for a raw value equal to the fill value
    -9999000.0, and for every other cell a number that is neither
    not-a-number nor negative, the raw value itself when that is a number
    and not negative, and 0 when the raw value is negative or
    not-a-number. *)
Theorem decoded_then_exported (hdf : h5file) (ds : Dataset) (output_path : string)
    (missing_value : float) (files : gmap string Raster) :
  odim_hdf5_to_dataset hdf true = Ok ds ->
  exists raster,
    radar_timestep_ds_to_geotiff ds output_path missing_value None files
      = match to_raster_raises output_path raster with
        | Some e => ([], Raise e)
        | None => ([GeotiffCreated output_path],
                   Ok (<[output_path := float32_raster raster]> files))
        end /\
    forall i j raw,
      cell (rev (data hdf)) i j = Some raw ->
      exists v,
        cell (band (float32_raster raster)) i j = Some (float32 v) /\
        ((raw =? (-9999000.0))%float = true -> v = missing_value) /\
        ((raw =? (-9999000.0))%float = false ->
           PrimFloat.is_nan v = false /\ (v <? 0)%float = false /\
           ((raw <? 0)%float = false -> PrimFloat.is_nan raw = false -> v = raw) /\
           ((raw <? 0)%float = true \/ PrimFloat.is_nan raw = true -> v = 0%float)).
Proof.
  intros Hds.
  destruct (odim_hdf5_to_dataset_variables _ _ _ Hds) as [Hmask Hrefl].
  destruct (export_whole ds output_path missing_value files) as (raster & Hrun & Hband & _).
  exists raster. split; [exact Hrun |].
  cbn [band float32_raster]. rewrite Hband.
  intros i j raw Hraw.
  rewrite cell_map2d, cell_zip2d, cell_map2d, Hmask, Hrefl, !cell_map2d, Hraw.
  cbn [option_map].
  eexists. split; [reflexivity |].
  unfold where_mask_cell, fillna_cell, mask_cell, noise_floor_cell, reflectivity_cell, FILL.
  destruct (raw =? -9999000.0)%float; cbn [negb].
  - split; [reflexivity | discriminate].
  - split; [discriminate | intros _]. cbn [Z.eqb].
    destruct (raw <? 0)%float eqn:Hneg.
    + cbn. repeat split; try reflexivity. discriminate.
    + destruct (PrimFloat.is_nan raw) eqn:Hnan.
      * repeat split; try reflexivity. discriminate.
      * repeat split; try assumption; try reflexivity.
        intros [Hd | Hd]; discriminate.
Qed.

Lemma substring_whole (s : string) : substring 0 (String.length s) s = s.
Proof. induction s as [|c s IH]; [reflexivity | simpl; rewrite IH; reflexivity]. Qed.

Lemma endswith_inv (s suffix : string) :
  endswith s suffix = true -> exists stem, s = String.append stem suffix.
Proof.
  unfold endswith. induction s as [|c s IH]; intros Hends.
  - apply andb_true_iff in Hends as [Hlen Heq].
    apply Nat.leb_le in Hlen. apply String.eqb_eq in Heq.
    destruct suffix; [| simpl in Hlen; lia]. exists EmptyString. reflexivity.
  - apply andb_true_iff in Hends as [Hlen Heq].
    apply Nat.leb_le in Hlen. apply String.eqb_eq in Heq. simpl String.length in *.
    destruct (Nat.le_gt_cases (String.length suffix) (String.length s)) as [Hle | Hgt].
    + replace (S (String.length s) - String.length suffix)%nat
        with (S (String.length s - String.length suffix)) in Heq by lia.
      simpl substring in Heq.
      destruct IH as [stem ->].
      { apply andb_true_iff. split; [apply Nat.leb_le, Hle | apply String.eqb_eq, Heq]. }
      exists (String c stem). reflexivity.
    + replace (S (String.length s) - String.length suffix)%nat with 0%nat in Heq by lia.
      assert (String.length suffix = S (String.length s)) as Hk by lia.
      rewrite Hk in Heq. simpl substring in Heq. rewrite substring_whole in Heq.
      exists EmptyString. exact Heq.
Qed.

Lemma split_nonempty (sep : ascii) (s : string) : split sep s <> [].
Proof.
  destruct s as [|c s]; simpl; [discriminate |].
  destruct (Ascii.eqb c sep); [discriminate |].
  destruct (split sep s); discriminate.
Qed.

(** A string with a separator in it splits in two pieces at least. *)
Lemma split_two (sep : ascii) (a b : string) :
  (2 <= length (split sep (String.append a (String sep b))))%nat.
Proof.
  induction a as [|c a IH]; simpl.
  - rewrite Ascii.eqb_refl. simpl.
    pose proof (split_nonempty sep b). destruct (split sep b); [congruence | simpl; lia].
  - destruct (Ascii.eqb c sep); [simpl; lia |].
    destruct (split sep (String.append a (String sep b))); simpl in *; lia.
Qed.

(** The raster of a member with an absolute name gets an absolute name. *)
Lemma geotiff_fn_absolute (rest : string) :
  endswith (String "/" rest) ".hdf5" = true ->
  exists tail, geotiff_fn (String "/" rest) = String "/" tail.
Proof.
  intros Hends. apply endswith_inv in Hends as [stem Hstem].
  pose proof (split_two "." stem "hdf5") as Htwo.
  change (String.append stem ".hdf5") with (String.append stem (String "." "hdf5")) in Hstem.
  rewrite <- Hstem in Htwo.
  unfold geotiff_fn. simpl split in *.
  pose proof (split_nonempty "." rest) as Hne.
  destruct (split "." rest) as [|w [|w' ws]]; [congruence | simpl in Htwo; lia |].
  change (removelast (String "/" w :: w' :: ws)) with (String "/" w :: removelast (w' :: ws)).
  destruct (removelast (w' :: ws)); simpl; eexists; reflexivity.
Qed.

(** X11. A member on the time step that decodes is exported, when no
    bounding box is given, as one raster with no-data value -9999, at the
    path made of the member's name with its last extension dropped, the
    dots left in it turned to underscores and [.tif] appended, joined to
    the output directory.  When the writer raises, as it does when the
    directory of that path does not exist (nothing creates it), the turn
    ends with that exception after the reading has been announced;
    otherwise the raster is stored there in float32 and announced.  The
    join is that of [os.path.join]: for a member whose name begins with a
    slash the path is that absolute name, not one under the output
    directory. *)
Theorem geotiff_member_path (output_dir : string) (timestep : Z) (member : TarInfo)
    (ts : datetime) (h : h5file) (ds : Dataset) (files : gmap string Raster) :
  endswith (name member) ".hdf5" = true ->
  member_timestamp (name member) = Ok ts ->
  timestep <> 0%Z ->
  ((hour ts * 60 + minute ts) mod timestep = 0)%Z ->
  extractfile member = Some (Hdf5 h) ->
  odim_hdf5_to_dataset h true = Ok ds ->
  let out_path := os_path_join output_dir (geotiff_fn (name member)) in
  (exists raster,
     nodata raster = (-9999)%float /\
     radar_tar_to_geotiff_member output_dir None timestep member files
       = match to_raster_raises out_path raster with
         | Some e => ([Reading (name member) ts], Raise e)
         | None => ([Reading (name member) ts; GeotiffCreated out_path],
                    Ok (<[out_path := float32_raster raster]> files, true))
         end) /\
  (String.prefix "/" (name member) = true -> out_path = geotiff_fn (name member)).
Proof.
  intros Hsuffix Hts Hstep Hal Hfile Hds out_path. split.
  - unfold radar_tar_to_geotiff_member.
    rewrite Hsuffix, Hts, Hfile. cbn [negb h5py_File]. cbv iota.
    unfold int_mod. destruct (Z.eqb_spec timestep 0) as [|_]; [contradiction |].
    unfold mbind, io_bind, mret, io_ret. rewrite io_seq_lift_ok, Hal. cbn [Z.eqb negb].
    rewrite io_seq_print, io_seq_lift_ok, Hds, io_seq_lift_ok.
    fold (geotiff_fn (name member)). fold out_path.
    destruct (export_whole ds out_path MISSING_DEFAULT files) as (raster & Hrun & _ & Hnodata).
    exists raster. split; [exact Hnodata |].
    rewrite Hrun. destruct (to_raster_raises out_path raster); reflexivity.
  - intros Habs. subst out_path. destruct (name member) as [|c rest]; [discriminate |].
    apply String.prefix_correct in Habs. injection Habs as ->.
    destruct (geotiff_fn_absolute rest Hsuffix) as [tail ->].
    unfold os_path_join.
    assert (String.prefix "/" (String "/" tail) = true) as ->
      by (apply String.prefix_correct; destruct tail; reflexivity).
    reflexivity.
Qed.

Lemma classic_geotiff (out : list event) (p : string) :
  In (GeotiffCreated p) out \/ ~ In (GeotiffCreated p) out.
Proof.
  induction out as [|ev out [IH | IH]]; [right; intros [] | left; right; exact IH |].
  destruct ev as [n | n ts | | q];
    try (right; intros [Hd | Hin]; [discriminate | contradiction]).
  destruct (String.string_dec q p) as [-> | Hne]; [left; left; reflexivity |].
  right. intros [[= Heq] | Hin]; contradiction.
Qed.

Lemma io_seq_ok_inv {event A B} (m : io event A) (f : A -> io event B)
    (out : list event) (b : B) :
  io_seq m f = (out, Ok b) ->
  exists out1 a out2, m = (out1, Ok a) /\ f a = (out2, Ok b) /\ out = out1 ++ out2.
Proof.
  destruct m as [out1 [a|e]]; simpl; [| discriminate].
  destruct (f a) as [out2 r] eqn:Hf. intros [= <- ->].
  exists out1, a, out2. rewrite Hf. auto.
Qed.

(** A raster that is exported is stored at the path asked for, and this
    is announced. *)
Lemma radar_timestep_ds_to_geotiff_stores (ds : Dataset) (output_path : string)
    (missing_value : float) (bbox : option (float * float * float * float))
    (files files' : gmap string Raster)
    (out : list event) :
  radar_timestep_ds_to_geotiff ds output_path missing_value bbox files = (out, Ok files') ->
  out = [GeotiffCreated output_path] /\
  exists raster, files' = <[output_path := raster]> files.
Proof.
  unfold radar_timestep_ds_to_geotiff. cbv zeta.
  unfold mbind, io_bind, mret, io_ret. intros Hrun.
  apply io_seq_ok_inv in Hrun as (out1 & raster & out2 & Hclip & Hrest & ->).
  rewrite io_seq_to_raster in Hrest.
  destruct (rio_to_raster raster output_path files) as [stored|e] eqn:Hstore; [| discriminate].
  injection Hrest as <- <-.
  unfold rio_to_raster in Hstore.
  destruct (to_raster_raises output_path raster); [discriminate |]. injection Hstore as <-.
  assert (out1 = []) as ->.
  { destruct bbox as [bbox|]; [| injection Hclip as <- _; reflexivity].
    destruct (transform_bbox_to_raster_crs bbox (projdef ds)) as [[[? ?] ?] ?].
    injection Hclip as <- _. reflexivity. }
  split; [reflexivity | eexists; reflexivity].
Qed.

(** One turn of the loop of [radar_tar_to_geotiff] that does not raise
    either stores one raster, at the path made of the member's name, or
    leaves the files as they are. *)
Lemma geotiff_member_step (output_dir : string)
    (bbox : option (float * float * float * float)) (timestep : Z)
    (member : TarInfo) (files files' : gmap string Raster) (out : list event) (written : bool) :
  radar_tar_to_geotiff_member output_dir bbox timestep member files
    = (out, Ok (files', written)) ->
  let out_path := os_path_join output_dir (geotiff_fn (name member)) in
  if written then
    (forall p, In (GeotiffCreated p) out <-> p = out_path) /\
    exists raster, files' = <[out_path := raster]> files
  else
    (forall p, ~ In (GeotiffCreated p) out) /\ files' = files.
Proof.
  intros Hrun out_path. subst out_path. unfold radar_tar_to_geotiff_member in Hrun.
  destruct (endswith (name member) ".hdf5"); cbn [negb] in Hrun; cbv iota in Hrun.
  2:{ injection Hrun as <- <- <-. split; [intros p [] | reflexivity]. }
  destruct (member_timestamp (name member)) as [ts|e].
  2:{ unfold mbind, io_bind, mret, io_ret in Hrun. rewrite io_seq_print in Hrun.
      injection Hrun as <- <- <-. split; [| reflexivity].
      intros p [Hp | []]. discriminate. }
  cbv zeta in Hrun. unfold mbind, io_bind, mret, io_ret in Hrun.
  apply io_seq_ok_inv in Hrun as (out1 & r & out2 & Hmod & Hrun & ->).
  injection Hmod as <- _. cbn [app].
  destruct (negb (r =? 0)%Z).
  { injection Hrun as <- <- <-. split; [intros p [] | reflexivity]. }
  rewrite io_seq_print in Hrun. injection Hrun as <- Hrun.
  destruct (extractfile member) as [f|].
  2:{ injection Hrun as <- <-. split; [| reflexivity].
      intros p [Hp | []]. discriminate. }
  destruct (h5py_File f) as [hdf|e]; [| discriminate].
  destruct (odim_hdf5_to_dataset hdf true) as [ds|e]; [| discriminate].
  fold (geotiff_fn (name member)) in *.
  destruct (radar_timestep_ds_to_geotiff ds _ MISSING_DEFAULT bbox files)
    as [out3 [stored|e]] eqn:Hstore; [| discriminate].
  cbn [io_seq io_pure output outcome fst snd] in *. injection Hrun as <- <-.
  apply radar_timestep_ds_to_geotiff_stores in Hstore as [-> [raster ->]].
  cbn [app]. split; [| exists raster; reflexivity].
  intros p. split.
  - intros [Hp | [Hp | []]]; [discriminate |]. injection Hp as <-. reflexivity.
  - intros ->. right. left. reflexivity.
Qed.

Lemma geotiff_loop_rasters (output_dir : string)
    (bbox : option (float * float * float * float)) (timestep : Z)
    (members : list TarInfo) :
  forall (tar_empty : bool) (files files' : gmap string Raster) (out : list event)
         (tar_empty' : bool),
    radar_tar_to_geotiff_loop output_dir bbox timestep members tar_empty files
      = (out, Ok (files', tar_empty')) ->
    (tar_empty' = false ->
       tar_empty = false \/
       exists member, In member members /\
         In (GeotiffCreated (os_path_join output_dir (geotiff_fn (name member)))) out) /\
    (forall p, In (GeotiffCreated p) out ->
       is_Some (files' !! p) /\
       exists member, In member members /\
         p = os_path_join output_dir (geotiff_fn (name member))) /\
    (forall p, ~ In (GeotiffCreated p) out -> files' !! p = files !! p).
Proof.
  induction members as [|member rest IH]; intros tar_empty files files' out tar_empty' Hrun.
  - injection Hrun as <- <- <-.
    split; [intros ->; left; reflexivity |].
    split; [intros p [] | reflexivity].
  - cbn [radar_tar_to_geotiff_loop] in Hrun. unfold mbind, io_bind in Hrun.
    apply io_seq_ok_inv in Hrun as (out1 & [files1 written] & out2 & Hstep & Hrest & ->).
    apply geotiff_member_step in Hstep. cbv zeta in Hstep.
    apply IH in Hrest as (Hflag & Hprinted & Hkept).
    destruct written.
    + destruct Hstep as [Hpath [raster ->]].
      split; [| split].
      * intros _. right. exists member. split; [left; reflexivity |].
        apply in_or_app. left. apply Hpath. reflexivity.
      * intros p Hp. apply in_app_or in Hp as [Hp | Hp].
        -- apply Hpath in Hp as ->.
           split; [| exists member; split; [left; reflexivity | reflexivity]].
           destruct (classic_geotiff out2 (os_path_join output_dir (geotiff_fn (name member))))
             as [Hin | Hnin].
           ++ apply Hprinted, Hin.
           ++ rewrite (Hkept _ Hnin), lookup_insert_eq. eauto.
        -- destruct (Hprinted p Hp) as [Hsome (m & Hm & ->)].
           split; [exact Hsome | exists m; split; [right; exact Hm | reflexivity]].
      * intros p Hp. rewrite Hkept by (intros Hin; apply Hp, in_or_app; right; exact Hin).
        apply lookup_insert_ne. intros <-. apply Hp, in_or_app. left. apply Hpath. reflexivity.
    + destruct Hstep as [Hnone ->].
      split; [| split].
      * intros Hfalse. destruct (Hflag Hfalse) as [-> | (m & Hm & Hin)]; [left; reflexivity |].
        right. exists m. split; [right; exact Hm | apply in_or_app; right; exact Hin].
      * intros p Hp. apply in_app_or in Hp as [Hp | Hp]; [destruct (Hnone p Hp) |].
        destruct (Hprinted p Hp) as [Hsome (m & Hm & ->)].
        split; [exact Hsome | exists m; split; [right; exact Hm | reflexivity]].
      * intros p Hp. apply Hkept. intros Hin. apply Hp, in_or_app. right. exact Hin.
Qed.

(** X12. When the export of an archive returns, at least one member of
    the archive was exported; every raster announced is on disk, at the
    path made of the name of a member of the archive; and every other
    path of the disk holds what it held before the call. *)
Theorem radar_tar_to_geotiff_rasters (tar : list TarInfo) (output_dir : string)
    (bbox : option (float * float * float * float)) (timestep : Z)
    (files files' : gmap string Raster)
    (out : list event) :
  radar_tar_to_geotiff tar output_dir bbox timestep files = (out, Ok files') ->
  (exists member, In member tar /\
     In (GeotiffCreated (os_path_join output_dir (geotiff_fn (name member)))) out) /\
  (forall p, In (GeotiffCreated p) out ->
     is_Some (files' !! p) /\
     exists member, In member tar /\ p = os_path_join output_dir (geotiff_fn (name member))) /\
  (forall p, ~ In (GeotiffCreated p) out -> files' !! p = files !! p).
Proof.
  unfold radar_tar_to_geotiff, mbind, io_bind, mret, io_ret. intros Hrun.
  apply io_seq_ok_inv in Hrun as (out1 & [files1 tar_empty] & out2 & Hloop & Hend & ->).
  destruct tar_empty; [discriminate |]. injection Hend as <- <-.
  rewrite app_nil_r.
  apply geotiff_loop_rasters in Hloop as (Hflag & Hprinted & Hkept).
  split; [| split; assumption].
  destruct (Hflag eq_refl) as [Hd | Hm]; [discriminate | exact Hm].
Qed.
End FileToRaster.

(** ** Headings of a track that grows *)

Section TrackGrows.
Import Diagnostics.
Context `{Geod}.

Lemma geod_inv_arrays_cons (a b : float * float) (df : DataFrame) :
  geod_inv_arrays (removelast (col_lon (a :: b :: df))) (removelast (col_lat (a :: b :: df)))
                  (tl (col_lon (a :: b :: df))) (tl (col_lat (a :: b :: df)))
  = geod_inv (snd a) (fst a) (snd b) (fst b)
    :: geod_inv_arrays (removelast (col_lon (b :: df))) (removelast (col_lat (b :: df)))
                       (tl (col_lon (b :: df))) (tl (col_lat (b :: df))).
Proof. reflexivity. Qed.

Lemma geod_inv_arrays_snoc (df : DataFrame) (p q : float * float) :
  geod_inv_arrays (removelast (col_lon (df ++ [p; q]))) (removelast (col_lat (df ++ [p; q])))
                  (tl (col_lon (df ++ [p; q]))) (tl (col_lat (df ++ [p; q])))
  = geod_inv_arrays (removelast (col_lon (df ++ [p]))) (removelast (col_lat (df ++ [p])))
                    (tl (col_lon (df ++ [p]))) (tl (col_lat (df ++ [p])))
    ++ [geod_inv (snd p) (fst p) (snd q) (fst q)].
Proof.
  induction df as [|a df IH]; [reflexivity |].
  destruct df as [|b df'].
  - cbn [app] in *. rewrite (geod_inv_arrays_cons a p [q]), (geod_inv_arrays_cons a p []).
    rewrite IH. reflexivity.
  - cbn [app] in *.
    rewrite (geod_inv_arrays_cons a b (df' ++ [p; q])), (geod_inv_arrays_cons a b (df' ++ [p])).
    rewrite IH. reflexivity.
Qed.

(** X13. A track that ends at [p] has headings; when one more point [q]
    is recorded after [p], the headings of the longer track are those of
    the track as it was, followed by one more: the azimuth from [p] to
    [q] plus 360 modulo 360.  No heading already computed changes. *)
Theorem compute_heading_extends (df : DataFrame) (p q : float * float) :
  exists headings,
    compute_heading (df ++ [p]) = Ok headings /\
    compute_heading (df ++ [p; q])
      = Ok (headings
            ++ [Some (normalize_heading
                        (fst (fst (geod_inv (snd p) (fst p) (snd q) (fst q)))))]).
Proof.
  unfold compute_heading, pd_Series. cbv zeta.
  rewrite geod_inv_arrays_snoc.
  pose proof (geod_inv_arrays_length (df ++ [p])) as Hlen.
  set (azs := geod_inv_arrays _ _ _ _) in *.
  assert (length (None :: map Some (map normalize_heading
                    (map (fun r : float * float * float => fst (fst r)) azs)))
          = length (df ++ [p])) as Hone.
  { cbn [length]. rewrite !length_map, Hlen, length_app. simpl. lia. }
  assert (length (None :: map Some (map normalize_heading
                    (map (fun r : float * float * float => fst (fst r))
                       (azs ++ [geod_inv (snd p) (fst p) (snd q) (fst q)]))))
          = length (df ++ [p; q])) as Htwo.
  { cbn [length]. rewrite !length_map, !length_app, Hlen, length_app. simpl. lia. }
  rewrite Hone, Htwo, !Nat.eqb_refl.
  eexists. split; [reflexivity |].
  rewrite !map_app. reflexivity.
Qed.
End TrackGrows.

(** ** The shape of the grid the cone extraction returns *)

Section ConeShape.
Import Formatting Diagnostics.
Context `{Geod} `{Cosine}.

Lemma has_shape_spec {A} (rows cols : nat) (a : arr2 A) :
  has_shape rows cols a = true <->
  length a = rows /\ forall row, In row a -> length row = cols.
Proof.
  unfold has_shape. rewrite andb_true_iff, Nat.eqb_eq, forallb_forall.
  split; intros [Hlen Hrows]; (split; [exact Hlen |]);
    intros row Hin; apply Nat.eqb_eq, Hrows, Hin.
Qed.

Lemma cell_in_shape {A} (rows cols : nat) (a : arr2 A) (i j : nat) (v : A) :
  has_shape rows cols a = true -> cell a i j = Some v -> (i < rows)%nat /\ (j < cols)%nat.
Proof.
  intros Hshape Hcell. apply has_shape_spec in Hshape as [<- Hrows].
  unfold cell in Hcell. destruct (nth_error a i) as [row|] eqn:Hrow; [| discriminate].
  split.
  - apply nth_error_Some. rewrite Hrow. discriminate.
  - rewrite <- (Hrows row) by (eapply nth_error_In; exact Hrow).
    apply nth_error_Some. rewrite Hcell. discriminate.
Qed.

Lemma length_slice {A} (lo hi : nat) (l : list A) :
  (lo <= hi <= length l)%nat -> length (slice lo hi l) = (hi - lo)%nat.
Proof. intros Hle. unfold slice. rewrite length_firstn, length_skipn. lia. Qed.

Lemma In_slice {A} (lo hi : nat) (l : list A) (x : A) : In x (slice lo hi l) -> In x l.
Proof.
  unfold slice. generalize (hi - lo)%nat as n. intros n Hin.
  assert (In x (skipn lo l)) as Hskip.
  { revert Hin. generalize (skipn lo l) as l'. clear.
    induction n as [|n IH]; intros [|y l'] Hin; simpl in *; try contradiction.
    destruct Hin as [-> | Hin]; [left; reflexivity | right; apply IH, Hin]. }
  clear Hin. revert l Hskip.
  induction lo as [|lo IH]; intros [|y l] Hin; simpl in *; try assumption.
  right. apply IH, Hin.
Qed.

Lemma has_shape_slice2d {A} (rows cols y0 y1 x0 x1 : nat) (a : arr2 A) :
  has_shape rows cols a = true ->
  (y0 <= y1 <= rows)%nat -> (x0 <= x1 <= cols)%nat ->
  has_shape (y1 - y0) (x1 - x0) (slice2d y0 y1 x0 x1 a) = true.
Proof.
  intros Hshape Hy Hx. apply has_shape_spec in Hshape as [Hlen Hrows].
  apply has_shape_spec. unfold slice2d. split.
  - rewrite length_map. apply length_slice. lia.
  - intros row Hin. apply in_map_iff in Hin as (row' & <- & Hin').
    apply length_slice. rewrite (Hrows row'); [exact Hx |].
    eapply In_slice. exact Hin'.
Qed.

Lemma has_shape_zip2d {A B C} (f : A -> B -> C) (rows cols : nat) (a : arr2 A) (b : arr2 B) :
  has_shape rows cols a = true -> has_shape rows cols b = true ->
  has_shape rows cols (zip2d f a b) = true.
Proof.
  assert (Hzip : forall {X Y Z} (g : X -> Y -> Z) (l : list X) (l' : list Y),
            length l = length l' -> length (zip_with g l l') = length l).
  { intros X Y Z g l. induction l as [|x xs IH]; intros [|y ys] Hlen;
      simpl in *; try lia. rewrite IH; lia. }
  intros Ha Hb. apply has_shape_spec in Ha as [Hla Hra], Hb as [Hlb Hrb].
  apply has_shape_spec. unfold zip2d. split.
  - rewrite Hzip; lia.
  - clear Hla Hlb. revert b Hrb.
    induction a as [|ra a IH]; intros [|rb b] Hrb row Hin; simpl in Hin; try contradiction.
    destruct Hin as [<- | Hin].
    + rewrite Hzip.
      * apply Hra. left. reflexivity.
      * rewrite (Hra ra), (Hrb rb) by (left; reflexivity). reflexivity.
    + apply (IH (fun r Hr => Hra r (or_intror Hr)) b (fun r Hr => Hrb r (or_intror Hr)) row Hin).
Qed.

(** X17. On a grid whose latitudes, longitudes and reflectivity have one
    shape, of [ny] rows and [nx] columns, the grid that the extraction
    returns is not empty and no larger than the grid given, and its
    values, latitudes and longitudes have one shape too. *)
Theorem cone_shape (ds : Dataset) (ny nx : nat) (lat0 lon0 heading O R : float)
    (cone : DataArray) :
  has_shape ny nx (lat ds) = true ->
  has_shape ny nx (lon ds) = true ->
  has_shape ny nx (reflectivity ds) = true ->
  extract_reflectivity_cone ds lat0 lon0 heading O R = Ok cone ->
  exists rows cols,
    (1 <= rows <= ny)%nat /\ (1 <= cols <= nx)%nat /\
    has_shape rows cols (values cone) = true /\
    has_shape rows cols (da_lat cone) = true /\
    has_shape rows cols (da_lon cone) = true.
Proof.
  intros Hlat Hlon Hrefl.
  pose proof (extract_reflectivity_cone_unfold ds lat0 lon0 heading O R) as Hdef.
  cbv zeta in Hdef. rewrite Hdef. clear Hdef.
  set (m := mask_bbox ds lat0 lon0 R).
  assert (Hbound : forall i j, cell m i j = Some true -> (i < ny)%nat /\ (j < nx)%nat).
  { intros i j Hm. apply in_window_mask in Hm as (la & lo & Hla & _).
    exact (cell_in_shape _ _ _ _ _ _ Hlat Hla). }
  destruct (length (fst (np_where m)) =? 0)%nat eqn:Hlen; [discriminate |].
  intros [= <-]. cbn [values da_lat da_lon].
  assert (Hiy : fst (np_where m) <> [])
    by (intros Hnil; rewrite Hnil in Hlen; discriminate).
  destruct (np_min_least _ Hiy) as [Hymin_in Hymin].
  destruct (np_max_greatest _ Hiy) as [Hymax_in Hymax].
  assert (Hix : snd (np_where m) <> []).
  { apply In_np_where_rows in Hymin_in as [j Hj].
    intros Hnil. assert (In j (snd (np_where m))) as Hin
      by (apply In_np_where_columns; eexists; exact Hj).
    rewrite Hnil in Hin. destruct Hin. }
  destruct (np_min_least _ Hix) as [Hxmin_in Hxmin].
  destruct (np_max_greatest _ Hix) as [Hxmax_in Hxmax].
  pose proof (Hymin _ Hymax_in) as Hy. pose proof (Hxmin _ Hxmax_in) as Hx.
  apply In_np_where_rows in Hymax_in as [j Hj]. apply Hbound in Hj as [Hymax_lt _].
  apply In_np_where_columns in Hxmax_in as [i Hi]. apply Hbound in Hi as [_ Hxmax_lt].
  set (y_min := np_min (fst (np_where m))) in *.
  set (y_max := np_max (fst (np_where m))) in *.
  set (x_min := np_min (snd (np_where m))) in *.
  set (x_max := np_max (snd (np_where m))) in *.
  exists (y_max + 1 - y_min)%nat, (x_max + 1 - x_min)%nat.
  split; [lia |]. split; [lia |].
  assert (forall {A} (a : arr2 A), has_shape ny nx a = true ->
            has_shape (y_max + 1 - y_min) (x_max + 1 - x_min)
              (slice2d y_min (y_max + 1) x_min (x_max + 1) a) = true) as Hcrop
    by (intros A a Ha; apply (has_shape_slice2d ny nx); [exact Ha | lia | lia]).
  split; [| split; apply Hcrop; assumption].
  apply has_shape_zip2d; [apply Hcrop, Hrefl |].
  apply has_shape_zip2d; apply Hcrop; assumption.
Qed.
End ConeShape.

(** ** Rounding to five minutes (utils.py, [dat_to_5mn]) *)

Section FiveMinutes.
Import Timeline.
Local Open Scope Z_scope.

Lemma fields_of_the_hour (dat : Z) :
  minute dat * 60000000 + second dat * 1000000 + microsecond dat = dat mod 3600000000.
Proof.
  unfold minute, second, microsecond.
  change 3600000000 with (60000000 * 60).
  rewrite (Z.rem_mul_r dat 60000000 60) by lia.
  change 60000000 with (1000000 * 60) at 3.
  rewrite (Z.rem_mul_r dat 1000000 60) by lia.
  lia.
Qed.

Lemma Qfloor_div (a : Z) (b : positive) :
  Qfloor (inject_Z a / inject_Z (Z.pos b)) = a / Z.pos b.
Proof.
  assert (inject_Z a / inject_Z (Z.pos b) == a # b)%Q as ->.
  { unfold Qeq, Qdiv, Qmult, Qinv, inject_Z. simpl. lia. }
  reflexivity.
Qed.

Lemma round_half_even_Z (x : Q) (z : Z) : (x == inject_Z z)%Q -> round_half_even x = z.
Proof.
  intros Hx. unfold round_half_even. cbv zeta.
  assert (Qfloor x = z) as -> by (rewrite Hx; apply Qfloor_Z).
  assert (Qle_bool (1 # 2) (x - inject_Z z) = false) as ->; [| reflexivity].
  apply not_true_is_false. rewrite Qle_bool_iff. lra.
Qed.

(** The seconds since the last multiple of five minutes, as the code
    computes them, are those of the time line. *)
Lemma remainder_of_five (dat : Z) :
  (float_mod (inject_Z (minute dat * 60 + second dat) + inject_Z (microsecond dat) / 1000000)
             300
   == inject_Z (dat mod 300000000) / 1000000)%Q.
Proof.
  pose proof (fields_of_the_hour dat) as Hfields.
  set (m := dat mod 3600000000) in *.
  assert (inject_Z (minute dat * 60 + second dat) + inject_Z (microsecond dat) / 1000000
          == inject_Z m / 1000000)%Q as Htotal.
  { rewrite <- Hfields. rewrite !inject_Z_plus, !inject_Z_mult.
    change (inject_Z 60000000) with 60000000%Q. change (inject_Z 1000000) with 1000000%Q.
    change (inject_Z 60) with 60%Q. field. }
  assert (dat mod 300000000 = m mod 300000000) as ->.
  { unfold m. symmetry. apply Z.mod_mod_divide. exists 12. reflexivity. }
  unfold float_mod.
  assert (Qfloor ((inject_Z (minute dat * 60 + second dat)
                   + inject_Z (microsecond dat) / 1000000) / 300) = m / 300000000) as ->.
  { rewrite <- (Qfloor_div m 300000000). apply Qfloor_comp. rewrite Htotal.
    change (inject_Z 300000000) with 300000000%Q. field. }
  rewrite Htotal.
  rewrite (Z.mod_eq m 300000000) by lia.
  unfold Z.sub. rewrite inject_Z_plus, inject_Z_opp, inject_Z_mult.
  change (inject_Z 300000000) with 300000000%Q. field.
Qed.

(** X18. An instant is brought to the nearest multiple of five minutes,
    the instants half way going up: the result is a multiple of five
    minutes, at most two and a half minutes after the instant and less
    than that before it.  The call fails only in the last two and a half
    minutes of the last year of the calendar, where the result would be
    past the last instant. *)
Theorem dat_to_5mn_nearest (dat : Z) :
  0 <= dat <= MAX ->
  (forall rounded, dat_to_5mn dat = Some rounded ->
     rounded mod 300000000 = 0 /\
     0 <= rounded <= MAX /\
     rounded - 150000000 <= dat < rounded + 150000000) /\
  (dat_to_5mn dat = None <-> MAX - 150000000 < dat).
Proof.
  intros Hrange. unfold dat_to_5mn. cbv zeta.
  pose proof (remainder_of_five dat) as Hrem.
  set (remainder := float_mod _ 300) in *.
  pose proof (Z.mod_pos_bound dat 300000000 ltac:(lia)) as Hr.
  pose proof (Z.div_mod dat 300000000 ltac:(lia)) as Hdiv.
  set (r := dat mod 300000000) in *. set (q := dat / 300000000) in *.
  assert (MAX = 300000000 * 1051792992 - 1) as Hmax by reflexivity.
  assert (Hminute : forall k, replace_second_microsecond (300000000 * k) = 300000000 * k).
  { intros k. unfold replace_second_microsecond, second, microsecond.
    replace (300000000 * k) with (k * 300 * 1000000) by lia.
    rewrite Z.div_mul, Z.mod_mul by lia.
    replace (k * 300) with (k * 5 * 60) by lia. rewrite Z.mod_mul by lia. lia. }
  assert (Hmult : forall k, (300000000 * k) mod 300000000 = 0)
    by (intros k; rewrite Z.mul_comm; apply Z.mod_mul; lia).
  assert (Hdown : timedelta remainder = r).
  { apply round_half_even_Z. rewrite Hrem. field. }
  assert (Hup : timedelta (300 - remainder) = 300000000 - r).
  { apply round_half_even_Z. rewrite Hrem. unfold Z.sub.
    rewrite inject_Z_plus, inject_Z_opp. change (inject_Z 300000000) with 300000000%Q.
    field. }
  assert (Hcmp : Qle_bool 150 remainder = (150000000 <=? r)).
  { apply eq_true_iff_eq. rewrite Qle_bool_iff, Z.leb_le, Hrem, Zle_Qle.
    change (inject_Z 150000000) with 150000000%Q.
    set (x := inject_Z r). split; intros Hx.
    - assert (x == 1000000 * (x / 1000000))%Q by (field; discriminate).
      set (y := (x / 1000000)%Q) in *. lra.
    - assert (x == 1000000 * (x / 1000000))%Q by (field; discriminate).
      set (y := (x / 1000000)%Q) in *. lra. }
  rewrite Hcmp, Hdown, Hup. unfold add. cbv zeta.
  destruct (Z.leb_spec 150000000 r) as [Hhigh | Hlow]; cbn [negb].
  - replace (dat + (300000000 - r)) with (300000000 * (q + 1)) by lia.
    destruct (Z.leb_spec 0 (300000000 * (q + 1))) as [_ | Hneg]; [| lia].
    destruct (Z.leb_spec (300000000 * (q + 1)) MAX) as [Hin | Hout]; cbn [andb mbind option_bind].
    + split; [| split; [discriminate | intros Hlate; lia]].
      intros rounded [= <-]. rewrite Hminute, Hmult. lia.
    + split; [discriminate | split; [intros _; lia | reflexivity]].
  - replace (dat + - r) with (300000000 * q) by lia.
    destruct (Z.leb_spec 0 (300000000 * q)) as [_ | Hneg]; [| lia].
    destruct (Z.leb_spec (300000000 * q) MAX) as [_ | Hout]; [| lia].
    cbn [andb mbind option_bind].
    split; [| split; [discriminate | intros Hlate; lia]].
    intros rounded [= <-]. rewrite Hminute, Hmult. lia.
Qed.
End FiveMinutes.

(** * The further properties on concrete inputs *)

Section FurtherRuns.
Import Formatting Diagnostics Utils UtilsDates Lookup OpenDataServer Samples MoreSamples CPython.
Local Existing Instance degrees_proj.
Local Existing Instance whole_clip.
Local Existing Instance writable.
Local Existing Instance cardinal_geod.
Local Existing Instance series_cos.
Local Existing Instance data_radar.

Lemma extract_radar_da_first_match_witness :
  outcome (extract_radar_da disk_1205 at_1205) = Ok (Some small_grid).
Proof.
  rewrite (extract_radar_da_first_match disk_1205 at_1205
             [member_1200] member_1205 [member_1206]).
  - reflexivity.
  - vm_compute. reflexivity.
  - intros m [<- | []]. reflexivity.
  - reflexivity.
Defined.

Lemma extract_radar_da_sound_witness :
  exists members member ts h,
    disk_1205 !! tar_path at_1205 = Some members /\ In member members /\
    endswith (name member) ".hdf5" = true /\
    member_timestamp (name member) = Ok ts /\
    at_1205 = on_the_minute ts /\
    extractfile member = Some (Hdf5 h) /\
    odim_hdf5_to_dataset h true = Ok small_grid.
Proof.
  apply (extract_radar_da_sound disk_1205 at_1205 small_grid).
  vm_compute. reflexivity.
Defined.

Lemma archive_names_agree_witness :
  os_path_join RADAR_DATA_PATH (filename at_1205 "cirrus" "REFLECTIVITY")
  = "/data_radar/OPERA_cirrus_REFLECTIVITY_2025-06-17T120000.tar"
  /\ tar_path at_1205 = "/data_radar/OPERA_cirrus_REFLECTIVITY_2025-06-17T120000.tar".
Proof.
  rewrite (archive_names_agree at_1205); [| discriminate | reflexivity].
  split; vm_compute; reflexivity.
Defined.

Lemma decoded_then_exported_witness :
  exists raster,
    radar_timestep_ds_to_geotiff small_grid "out.tif" MISSING_DEFAULT None ∅
      = ([GeotiffCreated "out.tif"], Ok (<["out.tif" := float32_raster raster]> ∅))
    /\ cell (band (float32_raster raster)) 1 1 = Some 0%float
    /\ cell (band (float32_raster raster)) 1 0 = Some MISSING_DEFAULT.
Proof.
  assert (Hds : odim_hdf5_to_dataset small_file true = Ok small_grid) by reflexivity.
  destruct (decoded_then_exported small_file small_grid "out.tif" MISSING_DEFAULT ∅ Hds)
    as [raster [Hrun Hcells]].
  exists raster. split; [exact Hrun |]. split.
  - destruct (Hcells 1%nat 1%nat (-3.5)%float eq_refl) as (v & Hv & _ & Hvalid).
    rewrite Hv. f_equal.
    destruct (Hvalid eq_refl) as (_ & _ & _ & Hneg).
    rewrite Hneg by (left; reflexivity). vm_compute. reflexivity.
  - destruct (Hcells 1%nat 0%nat (-9999000.0)%float eq_refl) as (v & Hv & Hfill & _).
    rewrite Hv. f_equal. rewrite Hfill by reflexivity. vm_compute. reflexivity.
Defined.

(** A value that float32 does not hold is stored rounded, and one beyond
    its range as an infinity. *)
Example stored_in_float32 :
  float32 0x1.999999999999ap-4 = 0x1.99999ap-4%float
  /\ float32 0x1p+130 = infinity
  /\ float32 (-9999) = (-9999)%float.
Proof. repeat split; vm_compute; reflexivity. Qed.

Lemma geotiff_member_path_witness :
  (exists raster,
     nodata raster = (-9999)%float /\
     radar_tar_to_geotiff_member "out" None 60 member_absolute ∅
       = ([Formatting.Reading "/tmp/CIRRUS.REF_202506171200.hdf5" ts_1200;
           GeotiffCreated "/tmp/CIRRUS_REF_202506171200.tif"],
          Ok (<["/tmp/CIRRUS_REF_202506171200.tif" := float32_raster raster]> ∅, true)))
  /\ os_path_join "out" (geotiff_fn (name member_absolute))
     = geotiff_fn (name member_absolute).
Proof.
  assert (Hds : odim_hdf5_to_dataset small_file true = Ok small_grid) by reflexivity.
  assert (Hts : member_timestamp (name member_absolute) = Ok ts_1200)
    by (vm_compute; reflexivity).
  assert (Hsuffix : endswith (name member_absolute) ".hdf5" = true) by reflexivity.
  assert (Hstep : ((hour ts_1200 * 60 + minute ts_1200) mod 60 = 0)%Z) by reflexivity.
  destruct (geotiff_member_path "out" 60 member_absolute ts_1200 small_file small_grid ∅
              Hsuffix Hts ltac:(discriminate) Hstep eq_refl Hds)
    as [(raster & Hnodata & Hrun) Habs].
  split; [exists raster; split; [exact Hnodata | exact Hrun] | apply Habs; reflexivity].
Defined.

Lemma radar_tar_to_geotiff_rasters_witness :
  exists out files',
    radar_tar_to_geotiff [member_1230; member_1200; member_malformed] "out" None 60 ∅
      = (out, Ok files')
    /\ In (GeotiffCreated "out/CIRRUS_REF_202506171200.tif") out
    /\ is_Some (files' !! "out/CIRRUS_REF_202506171200.tif")
    /\ files' !! "out/CIRRUS_REF_202506171230.tif" = None.
Proof.
  destruct (radar_tar_to_geotiff [member_1230; member_1200; member_malformed] "out" None 60 ∅)
    as [out [files'|e]] eqn:Hrun.
  - destruct (radar_tar_to_geotiff_rasters _ _ _ _ _ _ _ Hrun) as (_ & Hprinted & Hkept).
    assert (Hin : In (GeotiffCreated "out/CIRRUS_REF_202506171200.tif") out)
      by (vm_compute in Hrun; injection Hrun as <- _; right; left; reflexivity).
    exists out, files'. split; [reflexivity |]. split; [exact Hin |].
    split; [apply Hprinted, Hin |].
    rewrite Hkept; [reflexivity |].
    vm_compute in Hrun. injection Hrun as <- _.
    intros [Hd | [Hd | [Hd | []]]]; discriminate.
  - vm_compute in Hrun. discriminate.
Defined.

(** An array of no row whose width is not the one announced is refused. *)
Example empty_array_of_another_width :
  odim_hdf5_to_dataset empty_file true = Raise (ValueError "conflicting sizes for dimension").
Proof. vm_compute. reflexivity. Qed.

(** Two files that differ in their attributes: the slices of the series
    keep their own coordinates, and both show the attributes of the
    first. *)
Example attributes_of_the_first :
  exists first second,
    outcome (radar_tar_to_dataset [member_1200; member_1300_shifted] 60)
      = Ok [(np_datetime64 ts_1200, first); (np_datetime64 (mk_datetime 2025 6 17 13 0), second)]
    /\ cell (lon first) 0 0 = Some 1%float /\ cell (lon second) 0 0 = Some 2%float
    /\ LL_lon first = 1%float /\ LL_lon second = 1%float.
Proof. do 2 eexists. repeat split; vm_compute; reflexivity. Qed.

Lemma cone_shape_witness :
  exists cone rows cols,
    extract_reflectivity_cone small_grid 44 1 90 120 120 = Ok cone /\
    (1 <= rows <= 2)%nat /\ (1 <= cols <= 3)%nat /\
    has_shape rows cols (values cone) = true /\
    has_shape rows cols (da_lat cone) = true /\
    has_shape rows cols (da_lon cone) = true.
Proof.
  destruct (extract_reflectivity_cone small_grid 44 1 90 120 120) as [cone|e] eqn:Hrun.
  - destruct (cone_shape small_grid 2 3 44 1 90 120 120 cone eq_refl eq_refl eq_refl Hrun)
      as (rows & cols & Hshape).
    exists cone, rows, cols. split; [reflexivity | exact Hshape].
  - vm_compute in Hrun. discriminate.
Defined.

(** Seven minutes, thirteen seconds and 123456 microseconds into the
    first hour of the calendar: brought back to five minutes. *)
Lemma dat_to_5mn_nearest_witness :
  Timeline.dat_to_5mn 433123456 = Some 300000000%Z
  /\ (300000000 mod 300000000 = 0)%Z
  /\ (300000000 - 150000000 <= 433123456 < 300000000 + 150000000)%Z.
Proof.
  assert (Hrun : Timeline.dat_to_5mn 433123456 = Some 300000000%Z) by (vm_compute; reflexivity).
  destruct (dat_to_5mn_nearest 433123456) as [Hrounded _]; [unfold Timeline.MAX; lia |].
  destruct (Hrounded _ Hrun) as (Hmult & _ & Hnear).
  split; [exact Hrun |]. split; [exact Hmult | exact Hnear].
Defined.

Example ties_go_up :
  Timeline.dat_to_5mn 150000000 = Some 300000000%Z
  /\ Timeline.dat_to_5mn 149999999 = Some 0%Z.
Proof. split; vm_compute; reflexivity. Qed.

(** The last instant of the calendar cannot be rounded. *)
Example last_instant_overflows : Timeline.dat_to_5mn Timeline.MAX = None.
Proof. vm_compute. reflexivity. Qed.
End FurtherRuns.

(** ** An output directory that lacks a sub-directory *)

Section MissingDirectory.
Import Formatting Samples MoreSamples CPython.
Local Existing Instance degrees_proj.
Local Existing Instance whole_clip.
Local Existing Instance no_sub_directory.

(** The raster of a member stored under [sub/] goes to [out/sub/], which
    nothing creates: the export of the archive ends with the error of
    the writer, after the member before it was exported. *)
Example member_in_missing_directory :
  radar_tar_to_geotiff [member_1300; member_in_sub] "out" None 60 ∅
  = ([Reading "CIRRUS.REF_202506171300.hdf5" (mk_datetime 2025 6 17 13 0);
      GeotiffCreated "out/CIRRUS_REF_202506171300.tif";
      Reading "sub/CIRRUS.REF_202506171200.hdf5" ts_1200],
     Raise OSError).
Proof. vm_compute. reflexivity. Qed.
End MissingDirectory.
